(** * TerraDrift Watcher: the run orchestration engine, embedded in Rocq

    A shallow embedding of the Go packages [config], [lock], [terraform],
    [notifier] and [detector], and the properties of the engine stated in
    the design specification.

    Conventions of the embedding:
    - the process environment is a finite map from variable names to values;
    - Go [error] values are [option error] ([None] is [nil]), an [error]
      being its message;
    - [*bool] is [option bool] ([None] is the nil pointer);
    - whatever the program does to the outside world (log lines, commands
      run, files removed, HTTP requests, sleeps) is appended to a trace of
      events, in program order;
    - the answers of the outside world (command results, HTTP responses,
      file existence) come from a [World] record of oracles. *)

From Stdlib Require Import ZArith String Ascii List Bool Lia.
From stdpp Require Import base gmap strings list pretty.

Local Open Scope Z_scope.
Local Open Scope string_scope.

(** ** Go library functions used by the program *)

Module GoStrings.

(** [strings.HasPrefix]. *)
Definition HasPrefix (s p : string) : bool := String.prefix p s.

(** [strings.Contains]: some suffix of [s] starts with [sub]. *)
Fixpoint Contains (s sub : string) : bool :=
  String.prefix sub s ||
  match s with
  | EmptyString => false
  | String _ s' => Contains s' sub
  end.

(** [strings.Split(s, "\n")]: the pieces between line feeds; never empty. *)
Fixpoint SplitLines (s : string) : list string :=
  match s with
  | EmptyString => [EmptyString]
  | String c s' =>
      if Ascii.eqb c "010"%char then EmptyString :: SplitLines s'
      else match SplitLines s' with
           | [] => [String c EmptyString]
           | l :: ls => String c l :: ls
           end
  end.

(** [strings.Join(l, sep)]. *)
Fixpoint Join (l : list string) (sep : string) : string :=
  match l with
  | [] => EmptyString
  | [x] => x
  | x :: xs => x ++ sep ++ Join xs sep
  end.

(** The UTF-8 encodings of the code points for which [unicode.IsSpace]
    holds: the six ASCII ones, U+0085, U+00A0, U+1680, U+2000..U+200A,
    U+2028, U+2029, U+202F, U+205F and U+3000. *)
Definition bytes (l : list nat) : string :=
  string_of_list_ascii (List.map ascii_of_nat l).

Definition space_runes : list string :=
  List.map bytes
    [ [9]; [10]; [11]; [12]; [13]; [32];
      [194; 133]; [194; 160]; [225; 154; 128];
      [226; 128; 128]; [226; 128; 129]; [226; 128; 130]; [226; 128; 131];
      [226; 128; 132]; [226; 128; 133]; [226; 128; 134]; [226; 128; 135];
      [226; 128; 136]; [226; 128; 137]; [226; 128; 138];
      [226; 128; 168]; [226; 128; 169]; [226; 128; 175];
      [226; 129; 159]; [227; 128; 128] ]%nat.

(** [s] without its first [n] bytes. *)
Fixpoint drop_bytes (n : nat) (s : string) : string :=
  match n, s with
  | O, _ => s
  | S n', String _ s' => drop_bytes n' s'
  | S _, EmptyString => EmptyString
  end.

(** The rest of [s] after a leading white-space rune, if it has one. *)
Definition strip_space_rune (runes : list string) (s : string) : option string :=
  match List.find (fun r => String.prefix r s) runes with
  | Some r => Some (drop_bytes (String.length r) s)
  | None => None
  end.

(** [strings.TrimLeftFunc(s, unicode.IsSpace)]; the fuel is the length of
    [s], every step removes at least one byte. *)
Fixpoint trim_left (fuel : nat) (runes : list string) (s : string) : string :=
  match fuel with
  | O => s
  | S fuel' =>
      match strip_space_rune runes s with
      | Some s' => trim_left fuel' runes s'
      | None => s
      end
  end.

Definition rev_string (s : string) : string :=
  string_of_list_ascii (List.rev (list_ascii_of_string s)).

(** [strings.TrimSpace]: white space removed at both ends. The right end
    is trimmed on the reversed string against the reversed encodings. *)
Definition TrimSpace (s : string) : string :=
  let l := trim_left (String.length s) space_runes s in
  rev_string
    (trim_left (String.length l) (List.map rev_string space_runes) (rev_string l)).

End GoStrings.

(** ** The process environment ([os.Setenv], [os.Unsetenv], [os.Getenv]) *)

Module Os.

Abbreviation Env := (gmap string string).

(** A byte is NUL or the equals sign. *)
Definition bad_key_byte (c : ascii) : bool :=
  Ascii.eqb c "000"%char || Ascii.eqb c "="%char.

Definition has_byte (p : ascii -> bool) (s : string) : bool :=
  List.existsb p (list_ascii_of_string s).

(** [syscall.Setenv] refuses (EINVAL) an empty key, a key holding '=' or
    NUL, and a value holding NUL; the program drops that error. *)
Definition setenv_accepts (key value : string) : bool :=
  negb (String.eqb key "") && negb (has_byte bad_key_byte key)
  && negb (has_byte (fun c => Ascii.eqb c "000"%char) value).

Definition Setenv (key value : string) (env : Env) : Env :=
  if setenv_accepts key value then <[key := value]> env else env.

Definition Unsetenv (key : string) (env : Env) : Env := delete key env.

(** [os.Getenv]: the value, or the empty string when unset. *)
Definition Getenv (key : string) (env : Env) : string :=
  default "" (env !! key).

End Os.

(** ** Package [config] *)

Module Config.

(** Go errors, by their message. *)
Definition error := string.

Record Project := {
  Project_Name : string;
  Project_Path : string;
  Project_AuthProfile : string;
  Project_Notifiers : list string;
  Project_Enabled : option bool
}.

Record AuthProfile := {
  AuthProfile_Name : string;
  AuthProfile_Provider : string;
  AuthProfile_Config : gmap string string
}.

Record Notifier := {
  Notifier_Name : string;
  Notifier_Type : string;
  Notifier_Config : gmap string string;
  Notifier_Enabled : option bool
}.

Record Config := {
  Projects : list Project;
  AuthProfiles : list AuthProfile;
  Notifiers : list Notifier
}.

Definition AWSAccessKeyID := "AWS_ACCESS_KEY_ID".
Definition AWSSecretAccessKey := "AWS_SECRET_ACCESS_KEY".
Definition AWSSessionToken := "AWS_SESSION_TOKEN".
Definition AWSRegion := "AWS_DEFAULT_REGION".

Definition AzureClientID := "ARM_CLIENT_ID".
Definition AzureClientSecret := "ARM_CLIENT_SECRET".
Definition AzureSubscriptionID := "ARM_SUBSCRIPTION_ID".
Definition AzureTenantID := "ARM_TENANT_ID".

Definition SlackWebhookURL := "webhook_url".

(** [GetAuthProfile]: the first profile of that name. *)
Definition GetAuthProfile (c : Config) (name : string) : AuthProfile + error :=
  match List.find (fun p => String.eqb (AuthProfile_Name p) name) (AuthProfiles c) with
  | Some p => inl p
  | None => inr ("auth profile not found: " ++ name)
  end.

(** [GetNotifier]: the first notifier of that name. *)
Definition GetNotifier (c : Config) (name : string) : Notifier + error :=
  match List.find (fun n => String.eqb (Notifier_Name n) name) (Notifiers c) with
  | Some n => inl n
  | None => inr ("notifier not found: " ++ name)
  end.

(** The pointer test [Enabled != nil && *Enabled == false]. *)
Definition explicitly_disabled (e : option bool) : bool :=
  match e with
  | Some false => true
  | _ => false
  end.

End Config.

(** ** Credential scope: [setAuthEnvironment] and [clearAuthEnvironment] *)

Module Credentials.
Import Os Config.

(** The variable a logical key of an AWS profile is stored under. *)
Definition aws_variable (key : string) : string :=
  if String.eqb key "access_key_id" then AWSAccessKeyID
  else if String.eqb key "secret_access_key" then AWSSecretAccessKey
  else if String.eqb key "session_token" then AWSSessionToken
  else if String.eqb key "region" then AWSRegion
  else key.

(** The same for an Azure profile. *)
Definition azure_variable (key : string) : string :=
  if String.eqb key "client_id" then AzureClientID
  else if String.eqb key "client_secret" then AzureClientSecret
  else if String.eqb key "subscription_id" then AzureSubscriptionID
  else if String.eqb key "tenant_id" then AzureTenantID
  else key.

(** The [switch profile.Provider]: "gcp" and every other provider store
    each key under its own name. *)
Definition variable_of (provider key : string) : string :=
  if String.eqb provider "aws" then aws_variable key
  else if String.eqb provider "azure" then azure_variable key
  else key.

(** The body of [for key, value := range profile.Config], over the pairs
    in the order the loop meets them. Go leaves that order unspecified:
    whatever is proved of [apply_pairs] for every list holds for every
    order. *)
Definition apply_pairs (provider : string) (kvs : list (string * string))
    (env : Env) : Env :=
  List.fold_left (fun e kv => Setenv (variable_of provider kv.1) kv.2 e) kvs env.

(** [setAuthEnvironment's] effect once the profile is found. *)
Definition apply_profile (p : AuthProfile) (env : Env) : Env :=
  apply_pairs (AuthProfile_Provider p) (map_to_list (AuthProfile_Config p)) env.

(** [setAuthEnvironment]: the error when the profile is unknown, and the
    environment afterwards. *)
Definition setAuthEnvironment (cfg : Config) (profileName : string)
    (env : Env) : option error * Env :=
  match GetAuthProfile cfg profileName with
  | inr err => (Some err, env)
  | inl profile => (None, apply_profile profile env)
  end.

(** The ten names [clearAuthEnvironment] unsets, in its order. *)
Definition cleared_variables : list string :=
  [ AWSAccessKeyID; AWSSecretAccessKey; AWSSessionToken; AWSRegion;
    AzureClientID; AzureClientSecret; AzureSubscriptionID; AzureTenantID;
    "GOOGLE_APPLICATION_CREDENTIALS"; "GOOGLE_CLOUD_PROJECT" ].

Definition clearAuthEnvironment (env : Env) : Env :=
  List.fold_left (fun e k => Unsetenv k e) cleared_variables env.

End Credentials.

(** ** 64-bit integers *)

Module Int64.

Definition min_int : Z := - 2 ^ 63.
Definition max_int : Z := 2 ^ 63 - 1.

(** The value an [int64] (and [int], [time.Duration]) holds after an
    operation whose mathematical result is [z]: two's complement. *)
Definition wrap (z : Z) : Z := (z + 2 ^ 63) mod 2 ^ 64 - 2 ^ 63.

(** [Time.Sub] does not wrap, it saturates. *)
Definition saturate (z : Z) : Z := Z.max min_int (Z.min max_int z).

End Int64.

(** ** The outside world: events the program causes, answers it gets *)

Module World.
Import Os Config.

(** The line feed, for message texts. *)
Definition nl : string := String "010"%char EmptyString.

(** The JSON payload of a Slack webhook request. *)
Record Field := {
  Field_Title : string;
  Field_Value : string;
  Field_Short : bool
}.

Record Attachment := {
  Color : string;
  Title : string;
  Attachment_Text : string;
  Footer : string;
  FooterIcon : string;
  Timestamp : Z;
  Fields : list Field
}.

Record SlackMessage := {
  Text : string;
  Username : string;
  IconEmoji : string;
  Attachments : list Attachment
}.

(** The [log.Printf] and [log.Println] calls, one constructor per call
    site, holding the values the line is formatted from. *)
Inductive LogMsg :=
| LogStart
| LogSkipProject (project : string)
| LogChecking (project : string)
| LogAuthError (project : string) (err : error)
| LogNoDrift (project : string)
| LogDriftAlert (project : string)
| LogDriftSummary (project summary : string)
| LogFullPlan (lines : list string)
| LogDriftDetails (lines : list string)
| LogNotifyError (notifier project : string) (err : error)
| LogNotifySent (notifier project : string)
| LogNoNotificationsWarning
| LogCheckError (project : string) (err : error) (output : string)
| LogUnexpectedExit (code : Z) (project : string)
| LogCompleted
| LogSkipNotifier (notifier : string)
| LogTeamsNotImplemented (notifier : string)
| LogEmailNotImplemented (notifier : string)
| LogRetry (attempt maxRetries backoff : Z)
| LogRetrySucceeded (attempt : Z).

Inductive Event :=
| Log (m : LogMsg)
(** [exec.Command("terraform", args...)] run in [dir] with environment [env] *)
| Exec (args : list string) (dir : string) (env : Env)
(** [os.Remove(filepath.Join(dir, file))] *)
| Remove (dir file : string)
(** an HTTP POST of [body] to [url] *)
| Post (url : string) (body : SlackMessage)
(** [time.Sleep(d)], [d] in nanoseconds *)
| Sleep (d : Z).

(** What [cmd.Run()] returns: [nil], an [*exec.ExitError] (the process
    ran and did not exit with 0; [ExitCode()] is -1 when a signal ended
    it), or another error (the process did not start). *)
Inductive CmdResult :=
| RunOk
| ExitError (code : Z) (msg : string)
| StartError (msg : string).

(** What [client.Do(req)] returns. *)
Inductive HttpResult :=
| Response (status : Z)
| TransportError (msg : string).

Record World := {
  (** [terraform version] *)
  terraform_version : CmdResult;
  (** [os.IsNotExist] of the error of [os.Stat(projectPath)] *)
  path_missing : string -> bool;
  (** [os.Stat] of the project's [.terraform.lock.hcl] has no error *)
  lockfile_found : string -> bool;
  (** [terraform init] and [terraform plan], in a directory with an
      environment: the result of [cmd.Run()] and stdout followed by stderr *)
  terraform_init : string -> Env -> CmdResult * string;
  terraform_plan : string -> Env -> CmdResult * string;
  (** the error of [http.NewRequest("POST", url, ...)], if any *)
  new_request_error : string -> option string;
  (** the answer to the n-th request of the run, sent to a URL *)
  http_do : nat -> string -> HttpResult;
  (** [time.Now().Unix()] when the n-th request is built *)
  unix_now : nat -> Z
}.

(** The mutable state of the process and the trace so far. *)
Record St := {
  env : Env;
  requests : nat;
  trace : list Event
}.

(** Computations over that state. *)
Definition M (A : Type) : Type := St -> A * St.

Definition ret {A : Type} (a : A) : M A := fun s => (a, s).

Definition bind {A B : Type} (m : M A) (f : A -> M B) : M B :=
  fun s => f (m s).1 (m s).2.

Definition emit (e : Event) : M unit :=
  fun s => (tt, {| env := env s; requests := requests s; trace := trace s ++ [e] |}).

Definition log (m : LogMsg) : M unit := emit (Log m).

Definition get_env : M Env := fun s => (env s, s).

Definition modify_env (f : Env -> Env) : M unit :=
  fun s => (tt, {| env := f (env s); requests := requests s; trace := trace s |}).

(** [if c { m }] *)
Definition when (c : bool) (m : M unit) : M unit := if c then m else ret tt.

(** [for _, x := range l { acc = body(x, acc) }] *)
Fixpoint for_each {A B : Type} (body : A -> B -> M B) (l : list A) (acc : B) : M B :=
  match l with
  | [] => ret acc
  | x :: xs => bind (body x acc) (for_each body xs)
  end.

End World.

Declare Scope go_scope.
Delimit Scope go_scope with go.
Notation "x <- m ;; k" := (World.bind m (fun x => k))
  (at level 20, m at level 99, k at level 200) : go_scope.
Notation "m ;; k" := (World.bind m (fun _ => k))
  (at level 100, k at level 200, right associativity) : go_scope.

(** ** Package [lock]: the run lock *)

Module Lock.
Import Config.

(** Nanoseconds, as [time.Duration] counts them. *)
Definition Second : Z := 1000000000.
Definition Hour : Z := 3600 * Second.

(** The marker file: its modification time (nanoseconds since the epoch)
    and what was written to it. *)
Record Marker := {
  ModTime : Z;
  content : list (Z * Z)   (* the (pid, time) lines written *)
}.

(** The directory entry at [lockPath], and whether the directory lets
    this process create and remove entries. *)
Record FS := {
  marker : option Marker;
  dir_writable : bool
}.

Record FileLock := {
  lockPath : string;
  file : bool   (* [fl.file != nil] *)
}.

(** The file-system calls [Acquire] makes, in order. *)
Inductive FsOp := OpStat | OpRemove | OpCreate | OpWrite.

(** [os.Remove(lockPath)]: ENOENT when there is no entry, EACCES when the
    directory is not writable. *)
Inductive RemoveResult := Removed | RemoveNotExist | RemoveDenied.

Definition os_Remove (fs : FS) : RemoveResult * FS :=
  match marker fs with
  | None => (RemoveNotExist, fs)
  | Some _ =>
      if dir_writable fs then (Removed, {| marker := None; dir_writable := true |})
      else (RemoveDenied, fs)
  end.

(** [os.OpenFile(lockPath, O_CREATE|O_EXCL|O_WRONLY, 0644)] at time [now]:
    EEXIST when the entry exists. *)
Inductive OpenResult := Opened | OpenExist | OpenDenied.

Definition os_OpenFile_excl (now : Z) (fs : FS) : OpenResult * FS :=
  match marker fs with
  | Some _ => (OpenExist, fs)
  | None =>
      if dir_writable fs
      then (Opened, {| marker := Some {| ModTime := now; content := [] |};
                       dir_writable := true |})
      else (OpenDenied, fs)
  end.

(** [file.WriteString(lockInfo)]. *)
Definition write_info (pid now : Z) (fs : FS) : FS :=
  match marker fs with
  | Some m => {| marker := Some {| ModTime := now; content := content m ++ [(pid, now)] |};
                 dir_writable := dir_writable fs |}
  | None => fs
  end.

(** [time.Since(t)] at time [now]. *)
Definition Since (now t : Z) : Z := Int64.saturate (now - t).

Definition already_running (fl : FileLock) : error :=
  "another instance is already running (lock file: " ++ lockPath fl ++ ")".

(** The second half of [Acquire]: the exclusive creation. *)
Definition create_marker (fl : FileLock) (pid now : Z) (fs : FS) (ops : list FsOp)
    : option error * FileLock * FS * list FsOp :=
  match os_OpenFile_excl now fs with
  | (Opened, fs') =>
      (None, {| lockPath := lockPath fl; file := true |},
       write_info pid now fs', (ops ++ [OpCreate; OpWrite])%list)
  | (OpenExist, fs') => (Some (already_running fl), fl, fs', (ops ++ [OpCreate])%list)
  | (OpenDenied, fs') =>
      (Some "failed to create lock file: permission denied", fl, fs',
       (ops ++ [OpCreate])%list)
  end.

(** [FileLock.Acquire], run by process [pid] at time [now]: the error,
    the lock object and the file system afterwards, and the calls made. *)
Definition Acquire (fl : FileLock) (pid now : Z) (fs : FS)
    : option error * FileLock * FS * list FsOp :=
  match marker fs with
  | Some info =>
      if (Hour <? Since now (ModTime info))%Z
      then create_marker fl pid now (os_Remove fs).2 [OpStat; OpRemove]
      else (Some (already_running fl), fl, fs, [OpStat])
  | None => create_marker fl pid now fs [OpStat]
  end.

(** [FileLock.Release] (and [ForceRelease], which differs in the message
    only). *)
Definition Release (fl : FileLock) (fs : FS) : option error * FileLock * FS :=
  let fl' := {| lockPath := lockPath fl; file := false |} in
  match os_Remove fs with
  | (RemoveDenied, fs') => (Some "failed to remove lock file: permission denied", fl', fs')
  | (_, fs') => (None, fl', fs')
  end.

End Lock.

(** ** Package [terraform]: the state-comparator adapter *)

Module Terraform.
Import Os Config World GoStrings.
Local Open Scope go_scope.

(** [buildEnv]: the process environment, with [TF_IN_AUTOMATION=true]
    added unless the variable has a non-empty value. *)
Definition buildEnv (env : Env) : Env :=
  if String.eqb (Getenv "TF_IN_AUTOMATION" env) ""
  then <["TF_IN_AUTOMATION" := "true"]> env
  else env.

(** The closure [cleanupLockFiles] of [CheckDrift]. Whether a removal
    fails only selects a warning print. *)
Definition cleanupLockFiles (projectPath : string) : M unit :=
  emit (Remove projectPath ".terraform.lock.hcl");;
  emit (Remove projectPath ".terraform.tfstate.lock.info").

Definition init_args : list string :=
  ["init"; "-input=false"; "-no-color"; "-upgrade=false"].

Definition plan_args : list string :=
  ["plan"; "-input=false"; "-no-color"; "-detailed-exitcode"].

(** [runTerraformInit]: the output and the error. *)
Definition runTerraformInit (w : World) (projectPath : string) : M (string * option error) :=
  when (lockfile_found w projectPath) (emit (Remove projectPath ".terraform.lock.hcl"));;
  e <- get_env;;
  emit (Exec init_args projectPath (buildEnv e));;
  let run := terraform_init w projectPath (buildEnv e) in
  let output := run.2 in
  match run.1 with
  | RunOk => ret (output, None)
  | _ =>
      if Contains output "Error loading backend config"
         || Contains output "Backend initialization required"
         || Contains output "Error configuring the backend"
      then ret (output,
                Some ("backend initialization failed - may need manual intervention: "
                      ++ output))
      else if Contains output "Could not load plugin"
              || Contains output "Provider produced inconsistent"
      then ret (output,
                Some ("provider initialization failed - check provider versions: "
                      ++ output))
      else ret (output, Some ("terraform init failed: " ++ output))
  end.

(** [runTerraformPlan]: the output, the exit code and the error. *)
Definition runTerraformPlan (w : World) (projectPath : string)
    : M (string * Z * option error) :=
  e <- get_env;;
  emit (Exec plan_args projectPath (buildEnv e));;
  let run := terraform_plan w projectPath (buildEnv e) in
  let output := run.2 in
  match run.1 with
  | StartError msg =>
      ret (output, 1%Z, Some ("failed to execute terraform plan: " ++ msg))
  | r =>
      let exitCode := match r with ExitError c _ => c | _ => 0%Z end in
      if (exitCode =? 2)%Z then ret (output, exitCode, None)
      else if negb (exitCode =? 0)%Z
      then ret (output, exitCode,
                Some ("terraform plan failed with exit code " ++ pretty exitCode
                      ++ ": " ++ output))
      else ret (output, exitCode, None)
  end.

(** [CheckDrift]: the plan output, the exit code and the error. *)
Definition CheckDrift (w : World) (projectPath : string)
    : M (string * Z * option error) :=
  if path_missing w projectPath
  then ret ("", 1%Z, Some ("project path does not exist: " ++ projectPath))
  else
    init <- runTerraformInit w projectPath;;
    match init.2 with
    | Some err =>
        cleanupLockFiles projectPath;;
        ret (init.1, 1%Z, Some ("terraform init failed: " ++ err))
    | None =>
        plan <- runTerraformPlan w projectPath;;
        let planOutput := plan.1.1 in
        let exitCode := plan.1.2 in
        match plan.2 with
        | Some err =>
            if negb (exitCode =? 2)%Z
            then cleanupLockFiles projectPath;;
                 ret (planOutput, exitCode, Some ("terraform plan failed: " ++ err))
            else ret (planOutput, exitCode, None)
        | None => ret (planOutput, exitCode, None)
        end
    end.

(** [ValidateTerraformInstallation]. *)
Definition ValidateTerraformInstallation (w : World) : M (option error) :=
  e <- get_env;;
  emit (Exec ["version"] "" e);;
  match terraform_version w with
  | RunOk => ret None
  | ExitError _ msg | StartError msg =>
      ret (Some ("terraform is not installed or not in PATH: " ++ msg))
  end.

(** *** [ExtractPlanSummary] *)

(** The locals of the scan over the lines. *)
Record Scan := {
  summary : list string;
  resourceChanges : list string;
  captureChanges : bool
}.

Definition is_summary_line (line : string) : bool :=
  Contains line "Plan:" || Contains line "No changes" || Contains line "to add"
  || Contains line "to change" || Contains line "to destroy".

Definition has_change_marker (trimmedLine : string) : bool :=
  HasPrefix trimmedLine "#" || HasPrefix trimmedLine "~"
  || HasPrefix trimmedLine "+" || HasPrefix trimmedLine "-".

Definition names_a_change (line : string) : bool :=
  Contains line "will be"
  && (Contains line "created" || Contains line "destroyed"
      || Contains line "updated" || Contains line "replaced").

Definition section_rule : string := "─────────────".

(** One turn of [for i, line := range lines], [n] being [len(lines)]. *)
Definition scan_line (n i : Z) (line : string) (s : Scan) : Scan :=
  let trimmedLine := TrimSpace line in
  let summary1 :=
    if is_summary_line line then (summary s ++ [trimmedLine])%list else summary s in
  if Contains line "Terraform will perform the following actions:"
  then {| summary := summary1; resourceChanges := resourceChanges s;
          captureChanges := true |}
  else
    let changes1 :=
      if captureChanges s && (length (resourceChanges s) <? 10)%nat
         && has_change_marker trimmedLine
      then (resourceChanges s ++ [trimmedLine])%list
      else resourceChanges s in
    let changes2 :=
      if names_a_change line && (length changes1 <? 10)%nat
      then (changes1 ++ [trimmedLine])%list
      else changes1 in
    let capture1 :=
      if captureChanges s && (Contains line section_rule || (n - 10 <? i)%Z)
      then false
      else captureChanges s in
    {| summary := summary1; resourceChanges := changes2; captureChanges := capture1 |}.

Fixpoint scan_lines (n i : Z) (lines : list string) (s : Scan) : Scan :=
  match lines with
  | [] => s
  | line :: rest => scan_lines n (i + 1)%Z rest (scan_line n i line s)
  end.

Definition more_changes_marker : string :=
  nl ++ "  ... (more changes, see full plan for details)".

Definition generic_summary : string := "Drift detected in Terraform configuration".

(** The text built from the scan's result. *)
Definition render (s : Scan) : string :=
  (if (0 <? length (summary s))%nat then Join (summary s) nl else generic_summary)
  ++ (if (0 <? length (resourceChanges s))%nat
      then nl ++ nl ++ "Resource Changes Detected:"
           ++ String.concat "" (List.map (fun change => nl ++ "  " ++ change)
                                         (resourceChanges s))
           ++ (if (length (resourceChanges s) =? 10)%nat then more_changes_marker else "")
      else "").

Definition scan (planOutput : string) : Scan :=
  let lines := SplitLines planOutput in
  scan_lines (Z.of_nat (length lines)) 0 lines
    {| summary := []; resourceChanges := []; captureChanges := false |}.

Definition ExtractPlanSummary (planOutput : string) : string :=
  render (scan planOutput).

End Terraform.

(** ** Package [notifier]: Slack delivery with retries *)

Module Notifier.
Import Os Config World.
Local Open Scope go_scope.

Definition maxPlanLength : nat := 2000.

(** The plan output as [SendSlackRichNotification] sends it. *)
Definition truncate_plan (planOutput : string) : string :=
  if (maxPlanLength <? String.length planOutput)%nat
  then String.substring 0 maxPlanLength planOutput ++ nl ++ "... (truncated)"
  else planOutput.

Definition rich_message (projectName driftSummary planOutput : string) (now : Z)
    : SlackMessage :=
  {| Text := ":rotating_light: *Drift Detected in Project: " ++ projectName ++ "*";
     Username := "TerraDrift Watcher";
     IconEmoji := ":warning:";
     Attachments :=
       [ {| Color := "danger";
            Title := "Configuration Drift Alert";
            Attachment_Text := driftSummary;
            Footer := "TerraDrift Watcher";
            FooterIcon := "https://www.terraform.io/favicon.ico";
            Timestamp := now;
            Fields :=
              [ {| Field_Title := "Project"; Field_Value := projectName;
                   Field_Short := true |};
                {| Field_Title := "Status"; Field_Value := "Drift Detected";
                   Field_Short := true |} ] |};
         {| Color := "warning";
            Title := "Plan Output";
            Attachment_Text := "```" ++ truncate_plan planOutput ++ "```";
            Footer := "";
            FooterIcon := "";
            Timestamp := 0;
            Fields := [] |} ] |}.

(** [client.Do(req)]: the request goes out and the world answers. *)
Definition client_Do (w : World) (url : string) (body : SlackMessage) : M HttpResult :=
  fun s =>
    (http_do w (requests s) url,
     {| env := env s; requests := S (requests s);
        trace := trace s ++ [Post url body] |}).

(** What [SendSlackRichNotification] makes of the answer. *)
Definition response_error (r : HttpResult) : option error :=
  match r with
  | TransportError msg => Some ("failed to send Slack notification: " ++ msg)
  | Response status =>
      if (status =? 200)%Z then None
      else Some ("Slack webhook returned status " ++ pretty status)
  end.

(** [SendSlackRichNotification]: one delivery attempt. Marshalling a
    message of strings, integers and booleans to JSON cannot fail. *)
Definition SendSlackRichNotification (w : World)
    (webhookURL projectName driftSummary planOutput : string) : M (option error) :=
  if String.eqb webhookURL "" then ret (Some "webhook URL is empty")
  else
    fun s =>
      let slackMsg :=
        rich_message projectName driftSummary planOutput (unix_now w (requests s)) in
      match new_request_error w webhookURL with
      | Some msg => (Some ("failed to create HTTP request: " ++ msg), s)
      | None => (resp <- client_Do w webhookURL slackMsg;; ret (response_error resp)) s
      end.

Definition Second : Z := 1000000000.

(** [time.Duration(1<<uint(attempt-1)) * time.Second], in 64-bit
    arithmetic; used for [attempt >= 1]. *)
Definition backoff (attempt : Z) : Z :=
  Int64.wrap (Int64.wrap (Z.shiftl 1 (attempt - 1)) * Second).

(** How [%w] prints the last error. *)
Definition show_error (e : option error) : string :=
  match e with
  | Some msg => msg
  | None => "%!w(<nil>)"
  end.

(** The loop [for attempt := a; attempt <= maxRetries; attempt++] with
    [n] turns left, around one attempt [send], and the return that
    follows it.  *)
Fixpoint retry_loop (send : M (option error)) (maxRetries : Z) (n : nat)
    (attempt : Z) (lastErr : option error) : M (option error) :=
  match n with
  | O =>
      ret (Some ("failed after " ++ pretty (Int64.wrap (maxRetries + 1))
                 ++ " retries: " ++ show_error lastErr))
  | S n' =>
      when (0 <? attempt)%Z
        (log (LogRetry attempt maxRetries (backoff attempt));;
         emit (Sleep (backoff attempt)));;
      err <- send;;
      match err with
      | None =>
          when (0 <? attempt)%Z (log (LogRetrySucceeded (attempt + 1)));;
          ret None
      | Some e => retry_loop send maxRetries n' (attempt + 1)%Z (Some e)
      end
  end.

(** [SendSlackRichNotificationWithRetry]. The loop runs for
    [attempt = 0 .. maxRetries], that is [maxRetries + 1] turns at most.
    (With [maxRetries] the largest [int] the Go loop's condition never
    fails; the embedding is for smaller values.) *)
Definition SendSlackRichNotificationWithRetry (w : World)
    (webhookURL projectName driftSummary planOutput : string) (maxRetries : Z)
    : M (option error) :=
  retry_loop (SendSlackRichNotification w webhookURL projectName driftSummary planOutput)
    maxRetries (Z.to_nat (maxRetries + 1)) 0 None.

End Notifier.

(** ** Package [detector]: the orchestration engine *)

Module Detector.
Import Os Config World GoStrings Credentials.
Local Open Scope go_scope.

(** [setAuthEnvironment] on the process state. *)
Definition setAuthEnvironmentM (cfg : Config) (profileName : string) : M (option error) :=
  fun s =>
    let r := setAuthEnvironment cfg profileName (env s) in
    (r.1, {| env := r.2; requests := requests s; trace := trace s |}).

(** [sendNotification]. *)
Definition sendNotification (w : World) (cfg : Config)
    (notifierName projectName summary planOutput : string) : M (option error) :=
  match GetNotifier cfg notifierName with
  | inr err => ret (Some err)
  | inl notifierCfg =>
      if explicitly_disabled (Notifier_Enabled notifierCfg)
      then log (LogSkipNotifier notifierName);; ret None
      else if String.eqb (Notifier_Type notifierCfg) "slack" then
        match Notifier_Config notifierCfg !! SlackWebhookURL with
        | None =>
            ret (Some ("slack webhook URL not configured for notifier '"
                       ++ notifierName ++ "'"))
        | Some webhookURL =>
            Notifier.SendSlackRichNotificationWithRetry w webhookURL projectName
              summary planOutput 3
        end
      else if String.eqb (Notifier_Type notifierCfg) "teams" then
        log (LogTeamsNotImplemented notifierName);; ret None
      else if String.eqb (Notifier_Type notifierCfg) "email" then
        log (LogEmailNotImplemented notifierName);; ret None
      else
        ret (Some ("unknown notifier type '" ++ Notifier_Type notifierCfg
                   ++ "' for notifier '" ++ notifierName ++ "'"))
  end.

(** The locals of [RunWithResult], and the number of
    [defer clearAuthEnvironment()] statements executed so far: a deferred
    call runs when [RunWithResult] returns. *)
Record Locals := {
  hasErrors : bool;
  driftFound : bool;
  deferred : nat
}.

Definition set_hasErrors (l : Locals) : Locals :=
  {| hasErrors := true; driftFound := driftFound l; deferred := deferred l |}.

Definition set_driftFound (l : Locals) : Locals :=
  {| hasErrors := hasErrors l; driftFound := true; deferred := deferred l |}.

Definition defer_clear (l : Locals) : Locals :=
  {| hasErrors := hasErrors l; driftFound := driftFound l; deferred := S (deferred l) |}.

(** The non-verbose console sample: the first ten non-empty lines that
    are no refresh boilerplate. *)
Definition relevant (line : string) : bool :=
  let trimmed := TrimSpace line in
  negb (String.eqb trimmed "") && negb (HasPrefix trimmed "Refreshing")
  && negb (HasPrefix trimmed "Reading...") && negb (HasPrefix trimmed "Read complete").

Fixpoint relevant_lines (planLines relevantLines : list string) : list string :=
  match planLines with
  | [] => relevantLines
  | line :: rest =>
      if relevant line then
        let relevantLines' := (relevantLines ++ [line])%list in
        if (10 <=? length relevantLines')%nat then relevantLines'
        else relevant_lines rest relevantLines'
      else relevant_lines rest relevantLines
  end.

Definition print_details (planOutput : string) : M unit :=
  e <- get_env;;
  if String.eqb (Getenv "TERRADRIFT_VERBOSE" e) "true"
  then log (LogFullPlan (SplitLines planOutput))
  else
    let relevantLines := relevant_lines (SplitLines planOutput) [] in
    when (0 <? length relevantLines)%nat (log (LogDriftDetails relevantLines)).

(** One turn of the loop over [project.Notifiers]; the accumulator is
    [hasErrors] and [notificationsSent]. *)
Definition notify_one (w : World) (cfg : Config) (projectName summary planOutput : string)
    (notifierName : string) (acc : bool * nat) : M (bool * nat) :=
  err <- sendNotification w cfg notifierName projectName summary planOutput;;
  match err with
  | Some e => log (LogNotifyError notifierName projectName e);; ret (true, acc.2)
  | None => log (LogNotifySent notifierName projectName);; ret (acc.1, S acc.2)
  end.

(** [case 2] of the switch on the exit code. *)
Definition on_drift (w : World) (cfg : Config) (project : Project) (planOutput : string)
    (l : Locals) : M Locals :=
  log (LogDriftAlert (Project_Name project));;
  let summary := Terraform.ExtractPlanSummary planOutput in
  log (LogDriftSummary (Project_Name project) summary);;
  print_details planOutput;;
  acc <- for_each (notify_one w cfg (Project_Name project) summary planOutput)
           (Project_Notifiers project) (hasErrors l, 0%nat);;
  when ((acc.2 =? 0)%nat && (0 <? length (Project_Notifiers project))%nat)
    (log LogNoNotificationsWarning);;
  ret {| hasErrors := acc.1; driftFound := true; deferred := deferred l |}.

(** The three arms of [switch exitCode]: [case 0], [case 2], [default]. *)
Inductive Outcome := NoDrift | DriftDetected | Failed.

Definition classify (exitCode : Z) : Outcome :=
  if (exitCode =? 0)%Z then NoDrift
  else if (exitCode =? 2)%Z then DriftDetected
  else Failed.

(** The loop body from [terraform.CheckDrift] on. *)
Definition check_project (w : World) (cfg : Config) (project : Project) (l : Locals)
    : M Locals :=
  r <- Terraform.CheckDrift w (Project_Path project);;
  let planOutput := r.1.1 in
  let exitCode := r.1.2 in
  let err := r.2 in
  match classify exitCode with
  | NoDrift =>
      log (LogNoDrift (Project_Name project));; ret l
  | DriftDetected =>
      on_drift w cfg project planOutput l
  | Failed =>
      match err with
      | Some e => log (LogCheckError (Project_Name project) e planOutput)
      | None => log (LogUnexpectedExit exitCode (Project_Name project))
      end;;
      ret (set_hasErrors l)
  end.

(** The body of [for _, project := range cfg.Projects]. *)
Definition process_project (w : World) (cfg : Config) (project : Project) (l : Locals)
    : M Locals :=
  if explicitly_disabled (Project_Enabled project)
  then log (LogSkipProject (Project_Name project));; ret l
  else
    log (LogChecking (Project_Name project));;
    if negb (String.eqb (Project_AuthProfile project) "") then
      err <- setAuthEnvironmentM cfg (Project_AuthProfile project);;
      match err with
      | Some e =>
          log (LogAuthError (Project_Name project) e);;
          ret (set_hasErrors l)
      | None => check_project w cfg project (defer_clear l)
      end
    else check_project w cfg project l.

(** The deferred [clearAuthEnvironment()] calls, run at return. *)
Fixpoint run_deferred (n : nat) : M unit :=
  match n with
  | O => ret tt
  | S n' => modify_env clearAuthEnvironment;; run_deferred n'
  end.

Definition completed_with_errors : error := "drift detection completed with errors".

(** The loop of [RunWithResult] over a list of projects. *)
Definition run_projects (w : World) (cfg : Config) (projects : list Project)
    (l : Locals) : M Locals :=
  for_each (process_project w cfg) projects l.

(** [RunWithResult]. The goroutine that waits for SIGINT or SIGTERM is
    outside this sequential embedding. *)
Definition RunWithResult (w : World) (cfg : Config) : M (bool * option error) :=
  verr <- Terraform.ValidateTerraformInstallation w;;
  match verr with
  | Some e => ret (false, Some ("terraform validation failed: " ++ e))
  | None =>
      log LogStart;;
      l <- run_projects w cfg (Projects cfg)
             {| hasErrors := false; driftFound := false; deferred := 0 |};;
      log LogCompleted;;
      run_deferred (deferred l);;
      if hasErrors l then ret (driftFound l, Some completed_with_errors)
      else ret (driftFound l, None)
  end.

End Detector.

(** ** Vocabulary of the statements *)

Module Spec.
Import Os Config World.

(** The exit code of a command that ran. *)
Definition exit_code (r : CmdResult) : option Z :=
  match r with
  | RunOk => Some 0%Z
  | ExitError c _ => Some c
  | StartError _ => None
  end.

(** [st] with more events on its trace. *)
Definition with_events (st : St) (new : list Event) : St :=
  {| env := env st; requests := requests st; trace := trace st ++ new |}.

(** The events of [st'] that [st] does not have yet. *)
Definition new_events (st st' : St) : list Event :=
  drop (length (trace st)) (trace st').

(** The events [terraform.CheckDrift] causes: commands and removals. *)
Definition is_command (e : Event) : bool :=
  match e with
  | Exec _ _ _ | Remove _ _ => true
  | _ => false
  end.

(** The events [sendNotification] causes: requests, waits, and the
    notifier's own log lines. *)
Definition is_delivery (e : Event) : bool :=
  match e with
  | Post _ _ | Sleep _ => true
  | Log (LogRetry _ _ _) | Log (LogRetrySucceeded _) => true
  | Log (LogSkipNotifier _) | Log (LogTeamsNotImplemented _)
  | Log (LogEmailNotImplemented _) => true
  | _ => false
  end.

(** The log lines that report a per-project error: the credential
    profile could not be applied, the check failed (path, init or plan) or
    ended with an unexpected code, a notification could not be sent. *)
Definition is_error_line (e : Event) : bool :=
  match e with
  | Log (LogAuthError _ _) | Log (LogCheckError _ _ _)
  | Log (LogUnexpectedExit _ _) | Log (LogNotifyError _ _ _) => true
  | _ => false
  end.

(** The log line that reports drift. *)
Definition is_drift_line (e : Event) : bool :=
  match e with
  | Log (LogDriftAlert _) => true
  | _ => false
  end.

(** The projects whose check was started, in order. *)
Definition started (tr : list Event) : list string :=
  omap (fun e => match e with Log (LogChecking name) => Some name | _ => None end) tr.

Definition errors_logged (tr : list Event) : bool := List.existsb is_error_line tr.

Definition drift_logged (tr : list Event) : bool := List.existsb is_drift_line tr.

(** An event that is none of the three above. *)
Definition is_quiet (e : Event) : bool :=
  match e with
  | Log (LogChecking _) => false
  | _ => negb (is_error_line e) && negb (is_drift_line e)
  end.

(** The names of the projects not explicitly disabled, in order. *)
Definition enabled_names (projects : list Project) : list string :=
  List.map Project_Name
    (List.filter (fun p => negb (explicitly_disabled (Project_Enabled p))) projects).

(** The flags [l'] are the flags [l] updated by what the events [new]
    report, and [new] starts the checks of [names]. *)
Definition accounts (l l' : Detector.Locals) (new : list Event) (names : list string)
    : Prop :=
  Detector.hasErrors l' = Detector.hasErrors l || errors_logged new
  /\ Detector.driftFound l' = Detector.driftFound l || drift_logged new
  /\ started new = names.

(** The warning that drift went unnotified. *)
Definition is_unnotified_warning (e : Event) : bool :=
  match e with
  | Log LogNoNotificationsWarning => true
  | _ => false
  end.

Definition no_unnotified_warning (e : Event) : bool := negb (is_unnotified_warning e).

(** *** Delivery attempts *)

(** An attempt gets as far as the HTTP request: the URL is not empty and
    [http.NewRequest] accepts it. *)
Definition reaches_network (w : World) (url : string) : bool :=
  negb (String.eqb url "")
  && match new_request_error w url with None => true | Some _ => false end.

(** What an attempt made when [n] requests have gone out returns. *)
Definition attempt_outcome (w : World) (url : string) (n : nat) : option error :=
  if String.eqb url "" then Some "webhook URL is empty"
  else match new_request_error w url with
       | Some msg => Some ("failed to create HTTP request: " ++ msg)
       | None => Notifier.response_error (http_do w n url)
       end.

(** What attempt number [i] (from 0) of a retrying send returns, when
    [n0] requests had gone out before the send began: each earlier
    attempt that reached the network sent one request. *)
Definition outcome (w : World) (url : string) (n0 i : nat) : option error :=
  attempt_outcome w url (if reaches_network w url then n0 + i else n0)%nat.

(** Attempt [j] is the first to succeed. *)
Definition first_success (w : World) (url : string) (n0 j : nat) : Prop :=
  (forall i, (i < j)%nat -> is_Some (outcome w url n0 i)) /\ outcome w url n0 j = None.

(** The durations slept, in order. *)
Definition waits (tr : list Event) : list Z :=
  omap (fun e => match e with Sleep d => Some d | _ => None end) tr.

(** The attempt numbers of the retries announced on the log, in order. *)
Definition retries (tr : list Event) : list Z :=
  omap (fun e => match e with Log (LogRetry a _ _) => Some a | _ => None end) tr.

(** The requests sent. *)
Definition posts (tr : list Event) : list Event :=
  List.filter (fun e => match e with Post _ _ => true | _ => false end) tr.

(** The attempt numbers from [k] on, [m] of them, that are retries. *)
Definition retry_numbers (k m : nat) : list Z :=
  List.map Z.of_nat (List.filter (fun a => (0 <? a)%nat) (seq k m)).

(** The events before attempt number [k], and after it when it succeeds. *)
Definition announce (mr : Z) (k : nat) : list Event :=
  if (0 <? k)%nat
  then [Log (LogRetry (Z.of_nat k) mr (Notifier.backoff (Z.of_nat k)));
        Sleep (Notifier.backoff (Z.of_nat k))]
  else [].

Definition celebrate (k : nat) : list Event :=
  if (0 <? k)%nat then [Log (LogRetrySucceeded (Z.of_nat k + 1))] else [].

(** From [st] to [st'], [m] attempts numbered from [k] were made: the
    retries among them were announced and waited for, each for its
    [backoff]; each attempt sent one request if attempts reach the
    network, none otherwise; the environment is as before. *)
Definition attempted (w : World) (url : string) (st st' : St) (k m : nat) : Prop :=
  exists new,
    trace st' = (trace st ++ new)%list
    /\ retries new = retry_numbers k m
    /\ waits new = List.map Notifier.backoff (retry_numbers k m)
    /\ length (posts new) = (if reaches_network w url then m else 0)%nat
    /\ requests st' = (requests st + (if reaches_network w url then m else 0))%nat
    /\ env st' = env st.

(** The terraform commands run, each with its directory, its subcommand
    and the value of the variable [k] in the environment it was given. *)
Definition commands_with (k : string) (tr : list Event)
    : list (string * string * option string) :=
  omap (fun e => match e with
                 | Exec args dir e => Some (dir, List.hd "" args, e !! k)
                 | _ => None
                 end) tr.

(** The computation unsets no variable. *)
Definition keeps_variables {A : Type} (m : M A) : Prop :=
  forall st k, is_Some (env st !! k) -> is_Some (env (m st).2 !! k).

(** The project's turn applies a credential profile: it is not disabled
    and it names a profile that exists. *)
Definition applies_profile (cfg : Config) (p : Project) : bool :=
  negb (explicitly_disabled (Project_Enabled p))
  && negb (String.eqb (Project_AuthProfile p) "")
  && match GetAuthProfile cfg (Project_AuthProfile p) with
     | inl _ => true
     | inr _ => false
     end.

(** [c] is the trimmed text of a line of [lines] that [ok] accepts. *)
Definition captured_from (ok : string -> string -> bool) (lines : list string)
    (c : string) : Prop :=
  exists line, In line lines /\ c = GoStrings.TrimSpace line /\ ok line c = true.

(** A line the scan takes for a resource-change entry: its trimmed text
    begins with a change marker, or it names a change. *)
Definition looks_like_entry (line trimmed : string) : bool :=
  Terraform.has_change_marker trimmed || Terraform.names_a_change line.

Definition looks_like_summary (line trimmed : string) : bool :=
  Terraform.is_summary_line line.

(** The scan's invariant: at most ten entries, each from a line that looks
    like one; summary lines from lines that look like summaries. *)
Definition scan_ok (lines : list string) (s : Terraform.Scan) : Prop :=
  (length (Terraform.resourceChanges s) <= 10)%nat
  /\ Forall (captured_from looks_like_entry lines) (Terraform.resourceChanges s)
  /\ Forall (captured_from looks_like_summary lines) (Terraform.summary s).

(** Every event the computation adds to the trace satisfies [p]. *)
Definition writes {A : Type} (p : Event -> bool) (m : M A) : Prop :=
  forall st, exists new,
    trace (m st).2 = (trace st ++ new)%list /\ Forall (fun e => p e = true) new.

(** What the console shows of a drifted plan, given the environment. *)
Definition details_events (e : Env) (planOutput : string) : list Event :=
  if String.eqb (Getenv "TERRADRIFT_VERBOSE" e) "true"
  then [Log (LogFullPlan (GoStrings.SplitLines planOutput))]
  else
    match Detector.relevant_lines (GoStrings.SplitLines planOutput) [] with
    | [] => []
    | lines => [Log (LogDriftDetails lines)]
    end.

(** The warning [sendNotification] logs for a notifier that is not
    disabled and whose type is "teams" or "email"; [None] for every other
    notifier name. *)
Definition unimplemented_warning (cfg : Config) (notifierName : string) : option LogMsg :=
  match GetNotifier cfg notifierName with
  | inl n =>
      if explicitly_disabled (Notifier_Enabled n) then None
      else if String.eqb (Notifier_Type n) "teams"
      then Some (LogTeamsNotImplemented notifierName)
      else if String.eqb (Notifier_Type n) "email"
      then Some (LogEmailNotImplemented notifierName)
      else None
  | inr _ => None
  end.

(** The two lines a notifier of an unimplemented kind leaves on the log
    when a drift alert for [projectName] is dispatched to it. *)
Definition unimplemented_events (cfg : Config) (projectName notifierName : string)
    : list Event :=
  match unimplemented_warning cfg notifierName with
  | Some m => [Log m; Log (LogNotifySent notifierName projectName)]
  | None => []
  end.

End Spec.

(** ** Concrete inputs *)

Module Examples.
Import Os Config World.

(** A world in which terraform runs and reports no change, and every
    webhook answers 200. *)
Definition calm : World :=
  {| terraform_version := RunOk;
     path_missing := fun _ => false;
     lockfile_found := fun _ => false;
     terraform_init := fun _ _ => (RunOk, "");
     terraform_plan := fun _ _ => (RunOk, "No changes.");
     new_request_error := fun _ => None;
     http_do := fun _ _ => Response 200;
     unix_now := fun _ => 0%Z |}.

(** The same world with webhooks that always answer 500. *)
Definition webhook_down : World :=
  {| terraform_version := RunOk;
     path_missing := fun _ => false;
     lockfile_found := fun _ => false;
     terraform_init := fun _ _ => (RunOk, "");
     terraform_plan := fun _ _ => (RunOk, "No changes.");
     new_request_error := fun _ => None;
     http_do := fun _ _ => Response 500;
     unix_now := fun _ => 0%Z |}.

(** A world in which every plan exits with code 2. *)
Definition drifted : World :=
  {| terraform_version := RunOk;
     path_missing := fun _ => false;
     lockfile_found := fun _ => false;
     terraform_init := fun _ _ => (RunOk, "");
     terraform_plan :=
       fun _ _ => (ExitError 2 "exit status 2", "Plan: 1 to add, 0 to change, 0 to destroy.");
     new_request_error := fun _ => None;
     http_do := fun _ _ => Response 200;
     unix_now := fun _ => 0%Z |}.

Definition start : St := {| env := ∅; requests := 0; trace := [] |}.

Definition aws_prod : AuthProfile :=
  {| AuthProfile_Name := "aws-prod"; AuthProfile_Provider := "aws";
     AuthProfile_Config := {[ "access_key_id" := "AKIA"; "AWS_PROFILE" := "prod" ]} |}.

Definition azure_dev : AuthProfile :=
  {| AuthProfile_Name := "azure-dev"; AuthProfile_Provider := "azure";
     AuthProfile_Config := {[ "client_id" := "cid" ]} |}.

Definition project_a : Project :=
  {| Project_Name := "a"; Project_Path := "/a"; Project_AuthProfile := "aws-prod";
     Project_Notifiers := []; Project_Enabled := Some true |}.

Definition project_b : Project :=
  {| Project_Name := "b"; Project_Path := "/b"; Project_AuthProfile := "azure-dev";
     Project_Notifiers := []; Project_Enabled := None |}.

Definition teams_alerts : Notifier :=
  {| Notifier_Name := "teams-alerts"; Notifier_Type := "teams";
     Notifier_Config := {[ "webhook_url" := "https://outlook.example/hook" ]};
     Notifier_Enabled := Some true |}.

Definition email_ops : Notifier :=
  {| Notifier_Name := "email-ops"; Notifier_Type := "email";
     Notifier_Config := {[ "smtp_host" := "smtp.example" ]};
     Notifier_Enabled := None |}.

Definition slack_off : Notifier :=
  {| Notifier_Name := "slack-off"; Notifier_Type := "slack";
     Notifier_Config := {[ "webhook_url" := "https://hooks.example/T0" ]};
     Notifier_Enabled := Some false |}.

Definition project_c : Project :=
  {| Project_Name := "c"; Project_Path := "/c"; Project_AuthProfile := "";
     Project_Notifiers := ["teams-alerts"; "email-ops"]; Project_Enabled := Some true |}.

Definition project_off : Project :=
  {| Project_Name := "staging"; Project_Path := "/staging"; Project_AuthProfile := "aws-prod";
     Project_Notifiers := ["teams-alerts"]; Project_Enabled := Some false |}.

Definition notified : Config :=
  {| Projects := [project_off; project_c];
     AuthProfiles := [aws_prod];
     Notifiers := [teams_alerts; email_ops; slack_off] |}.

(** Every plan exits with code 2 and every webhook answers 500. *)
Definition drifted_webhook_down : World :=
  {| terraform_version := RunOk;
     path_missing := fun _ => false;
     lockfile_found := fun _ => false;
     terraform_init := fun _ _ => (RunOk, "");
     terraform_plan :=
       fun _ _ => (ExitError 2 "exit status 2", "Plan: 1 to add, 0 to change, 0 to destroy.");
     new_request_error := fun _ => None;
     http_do := fun _ _ => Response 500;
     unix_now := fun _ => 0%Z |}.

Definition slack_main : Notifier :=
  {| Notifier_Name := "slack-main"; Notifier_Type := "slack";
     Notifier_Config := {[ "webhook_url" := "https://hooks.example/T1" ]};
     Notifier_Enabled := Some true |}.

Definition project_d : Project :=
  {| Project_Name := "d"; Project_Path := "/d"; Project_AuthProfile := "";
     Project_Notifiers := ["slack-main"]; Project_Enabled := None |}.

Definition project_e : Project :=
  {| Project_Name := "e"; Project_Path := "/e"; Project_AuthProfile := "no-such-profile";
     Project_Notifiers := []; Project_Enabled := None |}.

(** A project whose profile is unknown, a disabled one, and one whose
    alert cannot be delivered. *)
Definition alerting : Config :=
  {| Projects := [project_e; project_off; project_d];
     AuthProfiles := [aws_prod];
     Notifiers := [slack_main; teams_alerts] |}.

(** A plan output of ten lines, each naming one resource change. *)
Definition ten_entries : list string :=
  List.map (fun r => "# aws_instance." ++ r ++ " will be created")
    ["a"; "b"; "c"; "d"; "e"; "f"; "g"; "h"; "i"; "j"].

Definition ten_changes : string := GoStrings.Join ten_entries nl.

(** One project, alerting through one Slack webhook. *)
Definition one_project : Config :=
  {| Projects := [project_d]; AuthProfiles := []; Notifiers := [slack_main] |}.

Definition two_projects : Config :=
  {| Projects := [project_a; project_b];
     AuthProfiles := [aws_prod; azure_dev];
     Notifiers := [] |}.

End Examples.

(** ** What makes a project fail, read off the world *)

Module Causes.
Import Os Config World.

(** How the check of a project ends, given what the world answers in the
    environment [e]. *)
Inductive Verdict :=
| Clean
| Drift (planOutput : string)
| PathNotFound
| InitFailure
| CompareFailure.

Definition verdict (w : World) (path : string) (e : Env) : Verdict :=
  if path_missing w path then PathNotFound
  else
    match (terraform_init w path (Terraform.buildEnv e)).1 with
    | RunOk =>
        match Spec.exit_code (terraform_plan w path (Terraform.buildEnv e)).1 with
        | Some c =>
            if (c =? 0)%Z then Clean
            else if (c =? 2)%Z
            then Drift (terraform_plan w path (Terraform.buildEnv e)).2
            else CompareFailure
        | None => CompareFailure
        end
    | _ => InitFailure
    end.

(** A delivery begun when [n] requests have gone out is exhausted: none
    of its four attempts succeeds. *)
Definition exhausted (w : World) (url : string) (n : nat) : bool :=
  List.forallb (fun i => match Spec.outcome w url n i with
                         | Some _ => true
                         | None => false
                         end) (seq 0 4).

(** The attempts it makes: up to the first that succeeds, four at most. *)
Definition attempts_made (w : World) (url : string) (n : nat) : nat :=
  match List.find (fun i => match Spec.outcome w url n i with
                            | None => true
                            | Some _ => false
                            end) (seq 0 4) with
  | Some j => S j
  | None => 4
  end.

(** Whether the notification through the notifier [name] fails when [n]
    requests have gone out, and the request count after it. It fails when
    the delivery is exhausted, and when the notifier cannot be used as
    configured. *)
Definition delivery (w : World) (cfg : Config) (name : string) (n : nat) : bool * nat :=
  match GetNotifier cfg name with
  | inr _ => (true, n)
  | inl nc =>
      if explicitly_disabled (Notifier_Enabled nc) then (false, n)
      else if String.eqb (Notifier_Type nc) "slack" then
        match Notifier_Config nc !! SlackWebhookURL with
        | None => (true, n)
        | Some url =>
            (exhausted w url n,
             (n + if Spec.reaches_network w url then attempts_made w url n else 0)%nat)
        end
      else if String.eqb (Notifier_Type nc) "teams" || String.eqb (Notifier_Type nc) "email"
      then (false, n)
      else (true, n)
  end.

(** The same for the notifiers of a project, one after the other. *)
Fixpoint deliveries (w : World) (cfg : Config) (names : list string) (n : nat)
    : bool * nat :=
  match names with
  | [] => (false, n)
  | name :: rest =>
      let d := delivery w cfg name n in
      let r := deliveries w cfg rest d.2 in
      (d.1 || r.1, r.2)
  end.

(** The environment once the project's profile is applied, if it names
    one; nothing when the profile is not found. *)
Definition credentials (cfg : Config) (p : Project) (e : Env) : option Env :=
  if String.eqb (Project_AuthProfile p) "" then Some e
  else match GetAuthProfile cfg (Project_AuthProfile p) with
       | inl a => Some (Credentials.apply_profile a e)
       | inr _ => None
       end.

(** What a project's turn comes to. *)
Record Turn := {
  turn_project : string;
  (** it produced a per-project error *)
  failed : bool;
  (** its plan showed drift *)
  drifted : bool;
  env_after : Env;
  requests_after : nat
}.

(** The turn of project [p], begun in the environment [e] when [n]
    requests have gone out: a disabled project does nothing; a profile
    that is not found, a missing path, a failed init and a failed plan are
    errors; drift is an error when one of its notifications fails. *)
Definition turn (w : World) (cfg : Config) (p : Project) (e : Env) (n : nat) : Turn :=
  if explicitly_disabled (Project_Enabled p)
  then {| turn_project := Project_Name p; failed := false; drifted := false;
          env_after := e; requests_after := n |}
  else
    match credentials cfg p e with
    | None => {| turn_project := Project_Name p; failed := true; drifted := false;
                 env_after := e; requests_after := n |}
    | Some e1 =>
        match verdict w (Project_Path p) e1 with
        | Clean => {| turn_project := Project_Name p; failed := false; drifted := false;
                      env_after := e1; requests_after := n |}
        | Drift _ =>
            {| turn_project := Project_Name p;
               failed := (deliveries w cfg (Project_Notifiers p) n).1;
               drifted := true;
               env_after := e1;
               requests_after := (deliveries w cfg (Project_Notifiers p) n).2 |}
        | PathNotFound | InitFailure | CompareFailure =>
            {| turn_project := Project_Name p; failed := true; drifted := false;
               env_after := e1; requests_after := n |}
        end
    end.

(** The turns of the projects, in order, each begun where the one before
    it ended. *)
Fixpoint turns (w : World) (cfg : Config) (projects : list Project) (e : Env) (n : nat)
    : list Turn :=
  match projects with
  | [] => []
  | p :: rest =>
      let t := turn w cfg p e n in
      t :: turns w cfg rest (env_after t) (requests_after t)
  end.

End Causes.

(** ** Package [config]: loading and validation *)

Module Loader.
Import Os Config.

(** The loop over [config.AuthProfiles], from the map built so far. *)
Fixpoint check_profiles (profiles : list AuthProfile) (authProfiles : gmap string bool)
    : gmap string bool + error :=
  match profiles with
  | [] => inl authProfiles
  | profile :: rest =>
      if String.eqb (AuthProfile_Name profile) ""
      then inr "auth profile found with empty name"
      else if String.eqb (AuthProfile_Provider profile) ""
      then inr ("auth profile " ++ AuthProfile_Name profile ++ " has no provider specified")
      else check_profiles rest (<[AuthProfile_Name profile := true]> authProfiles)
  end.

(** The loop over [config.Notifiers]. *)
Fixpoint check_notifiers (ns : list Notifier) (notifiers : gmap string string)
    : gmap string string + error :=
  match ns with
  | [] => inl notifiers
  | notifier :: rest =>
      if String.eqb (Notifier_Name notifier) ""
      then inr "notifier found with empty name"
      else if String.eqb (Notifier_Type notifier) ""
      then inr ("notifier " ++ Notifier_Name notifier ++ " has no type specified")
      else check_notifiers rest (<[Notifier_Name notifier := Notifier_Type notifier]> notifiers)
  end.

(** The loop over [project.Notifiers]. *)
Fixpoint check_references (projectName : string) (names : list string)
    (notifiers : gmap string string) : option error :=
  match names with
  | [] => None
  | notifierName :: rest =>
      match notifiers !! notifierName with
      | None =>
          Some ("project " ++ projectName ++ " references unknown notifier: "
                ++ notifierName)
      | Some _ => check_references projectName rest notifiers
      end
  end.

(** The body of the loop over [config.Projects]; [stat_fails] tells
    whether [os.Stat] of a path returns an error. *)
Definition validate_project (stat_fails : string -> bool)
    (authProfiles : gmap string bool) (notifiers : gmap string string)
    (project : Project) : option error :=
  if String.eqb (Project_Name project) "" then Some "project found with empty name"
  else if String.eqb (Project_Path project) ""
  then Some ("project " ++ Project_Name project ++ " has no path specified")
  else if stat_fails (Project_Path project)
  then Some ("project " ++ Project_Name project ++ " path not found: "
             ++ Project_Path project)
  else if negb (String.eqb (Project_AuthProfile project) "")
          && negb (default false (authProfiles !! Project_AuthProfile project))
  then Some ("project " ++ Project_Name project ++ " references unknown auth profile: "
             ++ Project_AuthProfile project)
  else check_references (Project_Name project) (Project_Notifiers project) notifiers.

Fixpoint validate_projects (stat_fails : string -> bool)
    (authProfiles : gmap string bool) (notifiers : gmap string string)
    (projects : list Project) : option error :=
  match projects with
  | [] => None
  | project :: rest =>
      match validate_project stat_fails authProfiles notifiers project with
      | Some err => Some err
      | None => validate_projects stat_fails authProfiles notifiers rest
      end
  end.

(** [validateConfig]. *)
Definition validateConfig (stat_fails : string -> bool) (config : Config) : option error :=
  if (length (Projects config) =? 0)%nat then Some "no projects defined in configuration"
  else
    match check_profiles (AuthProfiles config) ∅ with
    | inr err => Some err
    | inl authProfiles =>
        match check_notifiers (Notifiers config) ∅ with
        | inr err => Some err
        | inl notifiers =>
            validate_projects stat_fails authProfiles notifiers (Projects config)
        end
    end.

(** What reading the file, expanding the environment variables in it and
    unmarshalling the YAML come to. *)
Inductive ParseResult :=
| ReadError (msg : string)
| ParseError (msg : string)
| Parsed (config : Config).

(** The file system and the YAML decoder, as [LoadConfig] uses them. *)
Record Files := {
  (** [os.ReadFile], [os.ExpandEnv] and [yaml.Unmarshal] of a path in an
      environment *)
  parse : string -> Env -> ParseResult;
  (** [filepath.Dir] *)
  Dir : string -> string;
  (** [filepath.IsAbs] *)
  IsAbs : string -> bool;
  (** [filepath.Clean(filepath.Join(dir, p))] *)
  CleanJoin : string -> string -> string;
  (** [os.Stat] returns an error *)
  stat_fails : string -> bool
}.

Definition default_enabled (e : option bool) : option bool :=
  match e with
  | None => Some true
  | Some b => Some b
  end.

Definition default_project (p : Project) : Project :=
  {| Project_Name := Project_Name p; Project_Path := Project_Path p;
     Project_AuthProfile := Project_AuthProfile p;
     Project_Notifiers := Project_Notifiers p;
     Project_Enabled := default_enabled (Project_Enabled p) |}.

Definition default_notifier (n : Notifier) : Notifier :=
  {| Notifier_Name := Notifier_Name n; Notifier_Type := Notifier_Type n;
     Notifier_Config := Notifier_Config n;
     Notifier_Enabled := default_enabled (Notifier_Enabled n) |}.

(** The body of the loop that resolves relative project paths. *)
Definition resolve_path (f : Files) (configDir : string) (p : Project) : Project :=
  if String.eqb (Project_Path p) "" then p
  else if negb (IsAbs f (Project_Path p))
  then {| Project_Name := Project_Name p;
          Project_Path := CleanJoin f configDir (Project_Path p);
          Project_AuthProfile := Project_AuthProfile p;
          Project_Notifiers := Project_Notifiers p;
          Project_Enabled := Project_Enabled p |}
  else p.

(** [LoadConfig] of [path], in the environment [env]. *)
Definition LoadConfig (f : Files) (path : string) (env : Env) : Config + error :=
  match parse f path env with
  | ReadError msg => inr ("failed to read config file " ++ path ++ ": " ++ msg)
  | ParseError msg => inr ("failed to parse config file " ++ path ++ ": " ++ msg)
  | Parsed config =>
      let config :=
        {| Projects := List.map (resolve_path f (Dir f path))
                         (List.map default_project (Projects config));
           AuthProfiles := AuthProfiles config;
           Notifiers := List.map default_notifier (Notifiers config) |} in
      match validateConfig (stat_fails f) config with
      | Some err => inr ("invalid configuration: " ++ err)
      | None => inl config
      end
  end.

End Loader.

(** ** Package [cmd]: the run command *)

Module Cmd.
Import Os Config World Lock Loader.

(** [FileLock.ForceRelease]. *)
Definition ForceRelease (fl : FileLock) (fs : FS) : option error * FileLock * FS :=
  let fl' := {| lockPath := lockPath fl; file := false |} in
  match os_Remove fs with
  | (RemoveDenied, fs') =>
      (Some "failed to force remove lock file: permission denied", fl', fs')
  | (_, fs') => (None, fl', fs')
  end.

(** The flags of the run command. *)
Record Flags := {
  verbose : bool;
  failOnDrift : bool;
  forceLock : bool
}.

(** The lines the run command logs itself. *)
Inductive CmdLogMsg :=
| LogForceReleaseFailed (err : error)
| LogReleaseFailed (err : error)
| LogLoading (configFile : string)
| LogVerbose
| LogLoaded
| LogFound (projects authProfiles notifiers : nat).

(** The process: the lock directory, the engine's state, and the command's
    own lines. (The command's lines and the engine's are kept apart: the
    engine runs between [LogFound] and the deferred release.) *)
Record Proc := {
  fs : FS;
  st : St;
  console : list CmdLogMsg
}.

(** [runDriftDetection] from the [defer] of the release to its return:
    the error returned, the state, the lines logged. *)
Definition run_locked (w : World) (f : Files) (flags : Flags) (configFile : string)
    (s : St) : option error * St * list CmdLogMsg :=
  let s1 :=
    if verbose flags
    then {| env := Setenv "TERRADRIFT_VERBOSE" "true" (env s); requests := requests s;
            trace := trace s |}
    else s in
  let logs1 := (LogLoading configFile :: if verbose flags then [LogVerbose] else [])%list in
  match LoadConfig f configFile (env s1) with
  | inr err => (Some ("failed to load configuration: " ++ err), s1, logs1)
  | inl cfg =>
      let logs2 :=
        (logs1 ++ [LogLoaded;
                   LogFound (length (Projects cfg)) (length (AuthProfiles cfg))
                     (length (Notifiers cfg))])%list in
      let r := Detector.RunWithResult w cfg s1 in
      match r.1.2 with
      | Some runErr => (Some ("drift detection failed: " ++ runErr), r.2, logs2)
      | None =>
          if r.1.1 && failOnDrift flags
          then (Some "drift detected (exiting with code 2)", r.2, logs2)
          else (None, r.2, logs2)
      end
  end.

(** [runDriftDetection], run by process [pid] at time [now], the lock
    being at [lockPath] (the temporary directory's
    [terradrift-watcher.lock]). No other process touches the lock
    directory meanwhile. *)
Definition runDriftDetection (w : World) (f : Files) (flags : Flags)
    (configFile lockPath : string) (pid now : Z) (p : Proc) : option error * Proc :=
  let fileLock := {| lockPath := lockPath; file := false |} in
  let forced :=
    if forceLock flags then
      match ForceRelease fileLock (fs p) with
      | (Some err, fl, fs') => (fl, fs', [LogForceReleaseFailed err])
      | (None, fl, fs') => (fl, fs', [])
      end
    else (fileLock, fs p, []) in
  match Acquire forced.1.1 pid now forced.1.2 with
  | (Some err, _, fs', _) =>
      (Some ("failed to acquire lock: " ++ err),
       {| fs := fs'; st := st p; console := (console p ++ forced.2)%list |})
  | (None, fl, fs', _) =>
      let r := run_locked w f flags configFile (st p) in
      let released := Release fl fs' in
      (r.1.1,
       {| fs := released.2; st := r.1.2;
          console := (console p ++ forced.2 ++ r.2
                      ++ match released.1.1 with
                         | Some err => [LogReleaseFailed err]
                         | None => []
                         end)%list |})
  end.

(** [Execute], once the root command has returned, with the run
    command's error or none: the status it ends the process with. (A
    signal handled in [RunWithResult] ends the process before that, with
    status 130; like the handler, that is outside this embedding.) *)
Definition Execute (err : option error) : Z :=
  match err with
  | Some _ => 1%Z
  | None => 0%Z
  end.

End Cmd.

(** ** Example runs of the command *)

Module MoreExamples.
Import Os Config World Lock Loader Cmd.

(** The configuration file parses to [Examples.notified]; every path is
    absolute and exists. *)
Definition files : Files :=
  {| parse := fun _ _ => Parsed Examples.notified;
     Dir := fun _ => "/etc/terradrift";
     IsAbs := fun _ => true;
     CleanJoin := fun dir p => dir ++ "/" ++ p;
     stat_fails := fun _ => false |}.

(** No marker in a writable lock directory, nothing done yet. *)
Definition idle : Proc :=
  {| fs := {| marker := None; dir_writable := true |};
     st := Examples.start;
     console := [] |}.

(** Another instance took the lock at time 0. *)
Definition held : Proc :=
  {| fs := {| marker := Some {| ModTime := 0; content := [(7, 0)]%Z |};
              dir_writable := true |};
     st := Examples.start;
     console := [] |}.

Definition plain : Flags := {| verbose := false; failOnDrift := false; forceLock := false |}.

Definition fail_on_drift : Flags :=
  {| verbose := false; failOnDrift := true; forceLock := false |}.

Definition lock_path : string := "/tmp/terradrift-watcher.lock".

(** A world in which [terraform] is not on the path. *)
Definition no_terraform : World :=
  {| terraform_version := StartError "executable file not found in $PATH";
     path_missing := fun _ => false;
     lockfile_found := fun _ => false;
     terraform_init := fun _ _ => (StartError "not found", "");
     terraform_plan := fun _ _ => (StartError "not found", "");
     new_request_error := fun _ => None;
     http_do := fun _ _ => Response 200;
     unix_now := fun _ => 0%Z |}.

End MoreExamples.

(** ** More vocabulary, for the properties beyond the engine's contract *)

Module Vocabulary.
Import Os Config World.



(** The removal of the state lock file, which only the clean-up after a
    failure asks for. *)
Definition is_cleanup (e : Event) : bool :=
  match e with
  | Remove _ file => String.eqb file ".terraform.tfstate.lock.info"
  | _ => false
  end.

(** The log line for an exit code the engine did not expect. *)
Definition is_unexpected_exit (e : Event) : bool :=
  match e with
  | Log (LogUnexpectedExit _ _) => true
  | _ => false
  end.

Definition expected (e : Event) : bool := negb (is_unexpected_exit e).

(** A request or a wait. *)
Definition is_network (e : Event) : bool :=
  match e with
  | Post _ _ | Sleep _ => true
  | _ => false
  end.

Definition off_network (e : Event) : bool := negb (is_network e).

(** The events hold no request and no wait, or they hold a drift alert. *)
Definition offline_or_drift (new : list Event) : Prop :=
  Forall (fun e => off_network e = true) new \/ Spec.drift_logged new = true.

(** The waits of a send with three retries, all of them made. *)
Definition engine_waits : list Z :=
  [Notifier.Second; 2 * Notifier.Second; 4 * Notifier.Second]%Z.

(** The notifier cannot be used as configured: there is none of that
    name, or it is enabled and is a slack notifier without [webhook_url],
    or of a type that is none of slack, teams, email. *)
Definition misconfigured (cfg : Config) (notifierName : string) : bool :=
  match GetNotifier cfg notifierName with
  | inr _ => true
  | inl n =>
      negb (explicitly_disabled (Notifier_Enabled n))
      && (if String.eqb (Notifier_Type n) "slack"
          then match Notifier_Config n !! SlackWebhookURL with
               | None => true
               | Some _ => false
               end
          else negb (String.eqb (Notifier_Type n) "teams")
               && negb (String.eqb (Notifier_Type n) "email"))
  end.

(** The computation sends at most [n] requests. *)
Definition sends_at_most {A : Type} (n : nat) (m : M A) : Prop :=
  forall st, (requests st <= requests (m st).2 <= requests st + n)%nat.

(** How many notifier names the projects that are not disabled list. *)
Definition notifier_references (projects : list Project) : nat :=
  length (List.flat_map Project_Notifiers
            (List.filter (fun p => negb (explicitly_disabled (Project_Enabled p)))
               projects)).

(** What [validateConfig] asks of a configuration, in terms of the
    lookups the engine makes. *)
Definition well_formed (stat_fails : string -> bool) (cfg : Config) : Prop :=
  Projects cfg <> []
  /\ Forall (fun a => AuthProfile_Name a <> "" /\ AuthProfile_Provider a <> "")
       (AuthProfiles cfg)
  /\ Forall (fun n => Notifier_Name n <> "" /\ Notifier_Type n <> "") (Notifiers cfg)
  /\ Forall (fun p =>
               Project_Name p <> "" /\ Project_Path p <> ""
               /\ stat_fails (Project_Path p) = false
               /\ (Project_AuthProfile p = ""
                   \/ exists a, GetAuthProfile cfg (Project_AuthProfile p) = inl a)
               /\ Forall (fun name => exists n, GetNotifier cfg name = inl n)
                    (Project_Notifiers p))
       (Projects cfg).

(** The line that reports a credential profile that could not be applied. *)
Definition is_auth_error (e : Event) : bool :=
  match e with
  | Log (LogAuthError _ _) => true
  | _ => false
  end.

Definition no_auth_error (e : Event) : bool := negb (is_auth_error e).

(** The run is refused: it is not forced and a marker at most one hour
    old is in place. *)
Definition refused (flags : Cmd.Flags) (now : Z) (fs : Lock.FS) : bool :=
  negb (Cmd.forceLock flags)
  && match Lock.marker fs with
     | Some info => negb (Lock.Hour <? now - Lock.ModTime info)%Z
     | None => false
     end.

(** No profile of [cfg] has a key stored under the variable [k], and
    [clearAuthEnvironment] does not unset it. *)
Definition untouched_by (cfg : Config) (k : string) : Prop :=
  (k ∉ Credentials.cleared_variables)
  /\ Forall (fun a =>
               k ∉ List.map (fun kv => Credentials.variable_of (AuthProfile_Provider a) kv.1)
                     (map_to_list (AuthProfile_Config a)))
       (AuthProfiles cfg).

(** The form in which a plan is shown fits the value [v] of
    [TERRADRIFT_VERBOSE]: in full when it is "true", as a sample
    otherwise. *)
Definition details_fit (v : option string) (e : Event) : bool :=
  match e with
  | Log (LogFullPlan _) => String.eqb (default "" v) "true"
  | Log (LogDriftDetails _) => negb (String.eqb (default "" v) "true")
  | _ => true
  end.

(** The two lines that show a plan. *)
Definition is_details (e : Event) : bool :=
  match e with
  | Log (LogFullPlan _) | Log (LogDriftDetails _) => true
  | _ => false
  end.

(** The computation leaves the variable [k] as it is, and every event it
    adds satisfies [q] at the value of [k]. *)
Definition steady {A : Type} (k : string) (q : option string -> Event -> bool)
    (m : M A) : Prop :=
  forall st,
    env (m st).2 !! k = env st !! k
    /\ exists new,
         trace (m st).2 = (trace st ++ new)%list
         /\ Forall (fun e => q (env st !! k) e = true) new.

Definition offline_unless_drift {A : Type} (m : M A) : Prop :=
  forall st, exists new,
    trace (m st).2 = (trace st ++ new)%list /\ offline_or_drift new.

End Vocabulary.

(** * Properties *)

Local Open Scope Z_scope.
Local Open Scope list_scope.

(** ** Credential scope *)

Section CredentialFacts.
Import Os Config Credentials.

Lemma unset_all_lookup (l : list string) (env : gmap string string) (k : string) :
  List.fold_left (fun e x => Unsetenv x e) l env !! k
  = if bool_decide (k ∈ l) then None else env !! k.
Proof.
  revert env. induction l as [|x l IH]; intros env; cbn [List.fold_left].
  - case_bool_decide as H; [by apply elem_of_nil in H | done].
  - rewrite IH. unfold Unsetenv.
    destruct (decide (k = x)) as [->|Hne].
    + rewrite lookup_delete_eq.
      destruct (bool_decide_reflect (x ∈ x :: l)) as [_|Hn]; [| set_solver].
      by destruct (bool_decide (x ∈ l)).
    + rewrite lookup_delete_ne by done.
      destruct (bool_decide_reflect (k ∈ l)) as [Hin|Hnin];
        destruct (bool_decide_reflect (k ∈ x :: l)) as [Hin'|Hnin']; try done.
      * exfalso. apply Hnin'. by apply list_elem_of_further.
      * apply elem_of_cons in Hin' as [?|?]; done.
Qed.

Lemma clear_lookup (env : gmap string string) (k : string) :
  clearAuthEnvironment env !! k
  = if bool_decide (k ∈ cleared_variables) then None else env !! k.
Proof. apply unset_all_lookup. Qed.

Lemma clear_idempotent (env : gmap string string) :
  clearAuthEnvironment (clearAuthEnvironment env) = clearAuthEnvironment env.
Proof.
  apply map_eq; intros k. rewrite !clear_lookup. by case_bool_decide.
Qed.

End CredentialFacts.

Section Credentials_claims.
Import Os Config Credentials.

(** C2 (amended). After [clearAuthEnvironment], whatever profile was
    applied before it (or none), a variable is unset if it is one of the
    ten names of [cleared_variables] and is left as it was otherwise; and
    clearing twice is clearing once. *)
Theorem clear_unsets_exactly_the_fixed_variables
    (p : AuthProfile) (env : gmap string string) (k : string) :
  clearAuthEnvironment (apply_profile p env) !! k
    = (if bool_decide (k ∈ cleared_variables) then None else apply_profile p env !! k)
  /\ clearAuthEnvironment env !! k
    = (if bool_decide (k ∈ cleared_variables) then None else env !! k)
  /\ clearAuthEnvironment (clearAuthEnvironment env) = clearAuthEnvironment env.
Proof.
  split; [apply clear_lookup | split; [apply clear_lookup | apply clear_idempotent]].
Qed.

(** C2, as stated, fails: the AWS profile of [Examples.aws_prod] holds the
    key [AWS_PROFILE], which [setAuthEnvironment] stores under its own
    name; it is set after the profile is applied to the empty environment
    and still set after [clearAuthEnvironment]. *)
Lemma passthrough_variable_survives_clear :
  apply_profile Examples.aws_prod ∅ !! "AWS_PROFILE" = Some "prod"
  /\ clearAuthEnvironment (apply_profile Examples.aws_prod ∅) !! "AWS_PROFILE"
     = Some "prod".
Proof. split; vm_compute; reflexivity. Qed.

End Credentials_claims.

(** ** The run lock *)

Section Lock_claims.
Import Config Lock.

(** Saturation of the age does not change its comparison with an hour. *)
Lemma stale_iff (now t : Z) : (Hour <? Since now t) = (Hour <? now - t).
Proof.
  unfold Since, Int64.saturate, Int64.min_int, Int64.max_int, Hour, Second.
  destruct (Z.ltb_spec (3600 * 1000000000) (now - t));
    destruct (Z.ltb_spec (3600 * 1000000000)
                (Z.max (- 2 ^ 63) (Z.min (2 ^ 63 - 1) (now - t)))); lia.
Qed.

(** C4. With a marker in place: if its age is at most one hour, [Acquire]
    fails with the already-running error after the [os.Stat] alone, and
    lock object and file system are as before; if it is older (and the
    directory lets the process remove and create entries), the marker is
    removed, created anew once, and [Acquire] succeeds, the new marker
    dated [now] and holding the holder's line. *)
Theorem Acquire_with_marker (fl : FileLock) (pid now : Z) (fs : FS) (info : Marker) :
  marker fs = Some info ->
  (now - ModTime info <= Hour ->
     Acquire fl pid now fs = (Some (already_running fl), fl, fs, [OpStat]))
  /\ (Hour < now - ModTime info -> dir_writable fs = true ->
     Acquire fl pid now fs
     = (None,
        {| lockPath := lockPath fl; file := true |},
        {| marker := Some {| ModTime := now; content := [(pid, now)] |};
           dir_writable := true |},
        [OpStat; OpRemove; OpCreate; OpWrite])).
Proof.
  intros Hm. unfold Acquire. rewrite Hm, stale_iff. split.
  - intros Hage. destruct (Z.ltb_spec Hour (now - ModTime info)); [lia | done].
  - intros Hage Hw. destruct (Z.ltb_spec Hour (now - ModTime info)); [| lia].
    unfold os_Remove. rewrite Hm, Hw. reflexivity.
Qed.

(** C4 at a marker written 2 hours before, and one written 10 minutes
    before. *)
Lemma Acquire_with_marker_witness :
  Acquire {| lockPath := "/tmp/terradrift-watcher.lock"; file := false |} 42
    (600 * Second)
    {| marker := Some {| ModTime := 0; content := [(7, 0)] |}; dir_writable := true |}
  = (Some "another instance is already running (lock file: /tmp/terradrift-watcher.lock)",
     {| lockPath := "/tmp/terradrift-watcher.lock"; file := false |},
     {| marker := Some {| ModTime := 0; content := [(7, 0)] |}; dir_writable := true |},
     [OpStat])
  /\
  Acquire {| lockPath := "/tmp/terradrift-watcher.lock"; file := false |} 42
    (7200 * Second)
    {| marker := Some {| ModTime := 0; content := [(7, 0)] |}; dir_writable := true |}
  = (None,
     {| lockPath := "/tmp/terradrift-watcher.lock"; file := true |},
     {| marker := Some {| ModTime := 7200 * Second; content := [(42, 7200 * Second)] |};
        dir_writable := true |},
     [OpStat; OpRemove; OpCreate; OpWrite]).
Proof.
  split.
  - apply (Acquire_with_marker
             {| lockPath := "/tmp/terradrift-watcher.lock"; file := false |} 42
             (600 * Second)
             {| marker := Some {| ModTime := 0; content := [(7, 0)] |};
                dir_writable := true |}
             {| ModTime := 0; content := [(7, 0)] |}); [reflexivity | vm_compute; discriminate].
  - apply (Acquire_with_marker
             {| lockPath := "/tmp/terradrift-watcher.lock"; file := false |} 42
             (7200 * Second)
             {| marker := Some {| ModTime := 0; content := [(7, 0)] |};
                dir_writable := true |}
             {| ModTime := 0; content := [(7, 0)] |}); reflexivity.
Defined.

End Lock_claims.

(** ** The state-comparator adapter *)

Ltac exec :=
  repeat (progress
    (unfold World.when, World.log, World.bind, World.emit, World.ret, World.get_env,
       World.modify_env;
     cbn [fst snd World.env World.requests World.trace])).

Tactic Notation "exec" "in" hyp(H) :=
  repeat (progress
    (unfold World.when, World.log, World.bind, World.emit, World.ret, World.get_env,
       World.modify_env in H;
     cbn [fst snd World.env World.requests World.trace] in H)).

Section Terraform_claims.
Import Os Config World Terraform Detector Spec.

(** A successful [terraform init] gives its output and no error, and
    leaves the environment alone. *)
Lemma runTerraformInit_ok (w : World) (path : string) (st : St) :
  (terraform_init w path (buildEnv (env st))).1 = RunOk ->
  (runTerraformInit w path st).1 = ((terraform_init w path (buildEnv (env st))).2, None)
  /\ env (runTerraformInit w path st).2 = env st.
Proof.
  intros Hinit. unfold runTerraformInit.
  destruct (lockfile_found w path); exec; rewrite Hinit; split; reflexivity.
Qed.

(** What [runTerraformPlan] returns when the command ran and exited with
    code [c]. *)
Lemma runTerraformPlan_exit (w : World) (path : string) (st : St) (c : Z) :
  exit_code (terraform_plan w path (buildEnv (env st))).1 = Some c ->
  (runTerraformPlan w path st).1
  = ((terraform_plan w path (buildEnv (env st))).2, c,
     if (c =? 0) || (c =? 2) then None
     else Some ("terraform plan failed with exit code " ++ pretty c ++ ": "
                ++ (terraform_plan w path (buildEnv (env st))).2)%string).
Proof.
  intros Hc. unfold runTerraformPlan. exec.
  destruct (terraform_plan w path (buildEnv (env st))) as [run output]; cbn [fst snd] in *.
  destruct run as [|code msg|msg]; cbn [exit_code] in Hc; [| |discriminate];
    injection Hc as <-; [reflexivity|].
  destruct (Z.eqb_spec code 2) as [->|Hne2]; [reflexivity|].
  destruct (Z.eqb_spec code 0) as [->|Hne0]; reflexivity.
Qed.

(** The same for [CheckDrift], after a successful init. *)
Lemma CheckDrift_exit (w : World) (path : string) (st : St) (c : Z) :
  path_missing w path = false ->
  (terraform_init w path (buildEnv (env st))).1 = RunOk ->
  exit_code (terraform_plan w path (buildEnv (env st))).1 = Some c ->
  (CheckDrift w path st).1
  = ((terraform_plan w path (buildEnv (env st))).2, c,
     if (c =? 0) || (c =? 2) then None
     else Some ("terraform plan failed: " ++ "terraform plan failed with exit code "
                ++ pretty c ++ ": "
                ++ (terraform_plan w path (buildEnv (env st))).2)%string).
Proof.
  intros Hpath Hinit Hplan. unfold CheckDrift. rewrite Hpath.
  destruct (runTerraformInit_ok w path st Hinit) as [Hr Henv].
  rewrite <- Henv in Hplan. apply runTerraformPlan_exit in Hplan. rewrite Henv in Hplan.
  unfold bind. rewrite Hr. cbn [fst snd]. rewrite Hplan. cbn [fst snd].
  destruct (Z.eqb_spec c 0) as [->|Hne0]; [reflexivity|].
  destruct (Z.eqb_spec c 2) as [->|Hne2]; reflexivity.
Qed.

(** C3. On an existing project path whose init phase succeeds,
    [CheckDrift] returns the plan's output and exit code; for exit code 0
    the error is nil and the engine's switch takes the no-drift arm, for
    exit code 2 the error is nil and the switch takes the drift arm, for
    every other code the error is not nil and the switch takes the error
    arm. *)
Theorem CheckDrift_classifies_exit_code (w : World) (path : string) (st : St) (c : Z) :
  path_missing w path = false ->
  (terraform_init w path (buildEnv (env st))).1 = RunOk ->
  exit_code (terraform_plan w path (buildEnv (env st))).1 = Some c ->
  (CheckDrift w path st).1.1 = ((terraform_plan w path (buildEnv (env st))).2, c)
  /\ (c = 0 -> (CheckDrift w path st).1.2 = None /\ classify c = NoDrift)
  /\ (c = 2 -> (CheckDrift w path st).1.2 = None /\ classify c = DriftDetected)
  /\ (c <> 0 -> c <> 2 -> is_Some (CheckDrift w path st).1.2 /\ classify c = Failed).
Proof.
  intros Hpath Hinit Hplan. rewrite (CheckDrift_exit w path st c Hpath Hinit Hplan).
  cbn [fst snd]. unfold classify. split; [reflexivity|].
  split; [intros ->; done|]. split; [intros ->; done|].
  intros Hne0 Hne2.
  rewrite (proj2 (Z.eqb_neq c 0) Hne0), (proj2 (Z.eqb_neq c 2) Hne2). cbn. eauto.
Qed.

(** C3 at exit code 2: the plan of [drifted] reports one resource to add. *)
Lemma CheckDrift_classifies_exit_code_witness :
  (CheckDrift Examples.drifted "/a" Examples.start).1.1
    = ("Plan: 1 to add, 0 to change, 0 to destroy.", 2)
  /\ (CheckDrift Examples.drifted "/a" Examples.start).1.2 = None
  /\ classify 2 = DriftDetected.
Proof.
  destruct (CheckDrift_classifies_exit_code Examples.drifted "/a" Examples.start 2
              eq_refl eq_refl eq_refl) as (H1 & _ & H2 & _).
  destruct (H2 eq_refl) as [H3 H4].
  exact (conj H1 (conj H3 H4)).
Defined.

End Terraform_claims.

(** ** The engine: skipped projects and channels *)

Section Skips.
Import Os Config World Terraform Detector Spec.

Lemma with_events_nil (st : St) : with_events st [] = st.
Proof. destruct st; unfold with_events; cbn. by rewrite app_nil_r. Qed.

Lemma with_events_app (st : St) (a b : list Event) :
  with_events (with_events st a) b = with_events st (a ++ b).
Proof. unfold with_events; cbn. by rewrite app_assoc. Qed.

Lemma for_each_app {A B : Type} (body : A -> B -> M B) (l1 l2 : list A) (acc : B) (st : St) :
  for_each body (l1 ++ l2) acc st
  = for_each body l2 (for_each body l1 acc st).1 (for_each body l1 acc st).2.
Proof.
  revert acc st. induction l1 as [|x l1 IH]; intros acc st; [reflexivity|].
  cbn [for_each app]. unfold bind. apply IH.
Qed.

(** C7. A project whose enabled flag is explicitly false leaves the
    engine's flags, the environment and the request count as they are, and
    adds one line to the trace, the skip notice: no command is run and no
    alert is sent for it. In a run, the loop goes on after it from the
    very flags and state it had before it. *)
Theorem disabled_project_is_skipped (w : World) (cfg : Config) (p : Project)
    (l : Locals) (st : St) (before after : list Project) :
  Project_Enabled p = Some false ->
  process_project w cfg p l st = (l, with_events st [Log (LogSkipProject (Project_Name p))])
  /\ run_projects w cfg (before ++ p :: after) l st
     = run_projects w cfg after (run_projects w cfg before l st).1
         (with_events (run_projects w cfg before l st).2
            [Log (LogSkipProject (Project_Name p))]).
Proof.
  intros Hoff.
  assert (Hp : forall l' st', process_project w cfg p l' st'
               = (l', with_events st' [Log (LogSkipProject (Project_Name p))])).
  { intros l' st'. unfold process_project. rewrite Hoff. reflexivity. }
  split; [apply Hp|].
  unfold run_projects. rewrite for_each_app. cbn [for_each]. unfold bind at 1.
  rewrite Hp. reflexivity.
Qed.

(** C7 on the disabled project of [Examples.notified]. *)
Lemma disabled_project_is_skipped_witness :
  process_project Examples.drifted Examples.notified Examples.project_off
    {| hasErrors := false; driftFound := false; deferred := 0 |} Examples.start
  = ({| hasErrors := false; driftFound := false; deferred := 0 |},
     with_events Examples.start [Log (LogSkipProject "staging")]).
Proof.
  exact (proj1 (disabled_project_is_skipped Examples.drifted Examples.notified
                  Examples.project_off
                  {| hasErrors := false; driftFound := false; deferred := 0 |}
                  Examples.start [] [] eq_refl)).
Defined.

(** C9. Dispatching to a notifier whose enabled flag is explicitly false
    returns nil and adds one line to the trace, the skip notice: no
    request goes out, whatever the notifier's type and configuration. *)
Theorem disabled_notifier_is_success (w : World) (cfg : Config) (n : Notifier)
    (notifierName projectName summary planOutput : string) (st : St) :
  GetNotifier cfg notifierName = inl n ->
  Notifier_Enabled n = Some false ->
  sendNotification w cfg notifierName projectName summary planOutput st
  = (None, with_events st [Log (LogSkipNotifier notifierName)]).
Proof.
  intros Hget Hoff. unfold sendNotification. rewrite Hget, Hoff. reflexivity.
Qed.

(** C9 on the disabled Slack notifier of [Examples.notified], in a world
    whose webhooks would answer 500. *)
Lemma disabled_notifier_is_success_witness :
  sendNotification Examples.webhook_down Examples.notified "slack-off" "c" "summary"
    "plan" Examples.start
  = (None, with_events Examples.start [Log (LogSkipNotifier "slack-off")]).
Proof.
  exact (disabled_notifier_is_success Examples.webhook_down Examples.notified
           Examples.slack_off "slack-off" "c" "summary" "plan" Examples.start
           eq_refl eq_refl).
Defined.

End Skips.

(** ** What each part of the program adds to the trace *)

Section Writes.
Import Os Config World Terraform Notifier Detector Spec.
Context {A : Type} (p : Event -> bool).

Lemma writes_ret (a : A) : writes p (ret a).
Proof. intros st. exists []. by rewrite app_nil_r. Qed.

Lemma writes_bind {B : Type} (m : M B) (k : B -> M A) :
  writes p m -> (forall b, writes p (k b)) -> writes p (bind m k).
Proof.
  intros Hm Hk st. unfold bind.
  destruct (Hm st) as (n1 & H1 & F1).
  destruct (Hk (m st).1 (m st).2) as (n2 & H2 & F2).
  exists (n1 ++ n2). rewrite H2, H1, app_assoc. split; [done | by apply Forall_app].
Qed.

Lemma writes_mono (q : Event -> bool) (m : M A) :
  (forall e, q e = true -> p e = true) -> writes q m -> writes p m.
Proof.
  intros Hqp Hm st. destruct (Hm st) as (new & H & F). exists new. split; [done|].
  eapply Forall_impl; [exact F | exact Hqp].
Qed.

End Writes.

Section Writes_unit.
Import Os Config World Terraform Notifier Detector Spec.
Context (p : Event -> bool).

Lemma writes_emit (e : Event) : p e = true -> writes p (emit e).
Proof. intros He st. exists [e]. split; [done | by constructor]. Qed.

Lemma writes_get_env : writes p get_env.
Proof. intros st. exists []. by rewrite app_nil_r. Qed.

Lemma writes_modify_env (f : Env -> Env) : writes p (modify_env f).
Proof. intros st. exists []. cbn. by rewrite app_nil_r. Qed.

Lemma writes_when (c : bool) (m : M unit) : writes p m -> writes p (when c m).
Proof. intros Hm. destruct c; [exact Hm | apply writes_ret]. Qed.

Lemma writes_for_each {X B : Type} (body : X -> B -> M B) (l : list X) (acc : B) :
  (forall x b, writes p (body x b)) -> writes p (for_each body l acc).
Proof.
  intros Hbody. revert acc. induction l as [|x l IH]; intros acc; cbn [for_each].
  - apply writes_ret.
  - apply writes_bind; [apply Hbody | exact IH].
Qed.

End Writes_unit.

(** Breaks a computation into its statements. *)
Ltac writes_step :=
  first
    [ apply writes_ret
    | apply writes_get_env
    | apply writes_modify_env
    | apply writes_emit; reflexivity
    | apply writes_when
    | apply writes_bind; [| intros ?]
    | match goal with
      | |- Spec.writes _ (match ?x with _ => _ end) => destruct x
      end ].

Section Writes_program.
Import Os Config World Terraform Notifier Detector Spec.

Lemma writes_CheckDrift (w : World) (path : string) :
  writes is_command (CheckDrift w path).
Proof.
  unfold CheckDrift, runTerraformInit, runTerraformPlan, cleanupLockFiles, log.
  repeat writes_step.
Qed.

Lemma writes_Validate (w : World) : writes is_command (ValidateTerraformInstallation w).
Proof. unfold ValidateTerraformInstallation. repeat writes_step. Qed.

Lemma writes_send (w : World) (url pn ds po : string) :
  writes is_delivery (SendSlackRichNotification w url pn ds po).
Proof.
  unfold SendSlackRichNotification. destruct (String.eqb url ""); [apply writes_ret|].
  intros st. destruct (new_request_error w url).
  - exists []. by rewrite app_nil_r.
  - eexists [_]. split; [reflexivity | by constructor].
Qed.

Lemma writes_retry_loop (send : M (option error)) (maxRetries : Z) (n : nat)
    (attempt : Z) (lastErr : option error) :
  writes is_delivery send ->
  writes is_delivery (retry_loop send maxRetries n attempt lastErr).
Proof.
  intros Hsend. revert attempt lastErr.
  induction n as [|n IH]; intros attempt lastErr; cbn [retry_loop]; unfold log.
  - apply writes_ret.
  - apply writes_bind; [repeat writes_step|intros _].
    apply writes_bind; [exact Hsend|intros [e|]]; [apply IH | repeat writes_step].
Qed.

Lemma writes_sendNotification (w : World) (cfg : Config) (name pn s po : string) :
  writes is_delivery (sendNotification w cfg name pn s po).
Proof.
  unfold sendNotification, SendSlackRichNotificationWithRetry, log.
  repeat first [ apply writes_retry_loop, writes_send | writes_step ].
Qed.

End Writes_program.

(** ** The engine's flags and the log *)

Section Flags.
Import Os Config World Terraform Notifier Detector Spec.

Lemma quiet_silent (new : list Event) :
  Forall (fun e => is_quiet e = true) new ->
  errors_logged new = false /\ drift_logged new = false /\ started new = [].
Proof.
  unfold errors_logged, drift_logged, started.
  induction 1 as [|e new He _ (IH1 & IH2 & IH3)]; [done|].
  cbn [List.existsb omap list_omap]. rewrite IH1, IH2.
  change (omap ?f new) with (started new) in *. 
  destruct e as [[]| | | |]; cbn in He |- *; try discriminate; try done.
Qed.

Lemma command_quiet (e : Event) : is_command e = true -> is_quiet e = true.
Proof. by destruct e as [[]| | | |]. Qed.

Lemma delivery_quiet (e : Event) : is_delivery e = true -> is_quiet e = true.
Proof. by destruct e as [[]| | | |]. Qed.

Lemma errors_logged_app (a b : list Event) :
  errors_logged (a ++ b) = errors_logged a || errors_logged b.
Proof. apply existsb_app. Qed.

Lemma drift_logged_app (a b : list Event) :
  drift_logged (a ++ b) = drift_logged a || drift_logged b.
Proof. apply existsb_app. Qed.

Lemma started_app (a b : list Event) : started (a ++ b) = started a ++ started b.
Proof. apply omap_app. Qed.

End Flags.

Section Accounting.
Import Os Config World Terraform Notifier Detector Spec.
Context (w : World) (cfg : Config).

Lemma writes_print_details (planOutput : string) :
  writes is_quiet (print_details planOutput).
Proof.
  unfold print_details, log. apply writes_bind; [apply writes_get_env | intros e].
  destruct (String.eqb _ _); repeat writes_step.
Qed.

Lemma notify_one_accounts (pn s po name : string) (acc : bool * nat) (st : St) :
  exists new,
    trace (notify_one w cfg pn s po name acc st).2 = trace st ++ new
    /\ (notify_one w cfg pn s po name acc st).1.1 = acc.1 || errors_logged new
    /\ drift_logged new = false /\ started new = [].
Proof.
  unfold notify_one, bind, log.
  destruct (writes_sendNotification w cfg name pn s po st) as (n1 & H1 & F1).
  destruct (quiet_silent n1 (Forall_impl _ _ _ F1 delivery_quiet)) as (E1 & D1 & K1).
  destruct (sendNotification w cfg name pn s po st) as [[e|] st1]; cbn [fst snd] in *.
  - exists (n1 ++ [Log (LogNotifyError name pn e)]). cbn. rewrite H1, app_assoc.
    rewrite errors_logged_app, drift_logged_app, started_app, E1, D1, K1. cbn.
    by rewrite orb_true_r.
  - exists (n1 ++ [Log (LogNotifySent name pn)]). cbn. rewrite H1, app_assoc.
    rewrite errors_logged_app, drift_logged_app, started_app, E1, D1, K1. cbn.
    by rewrite orb_false_r.
Qed.

Lemma notify_all_accounts (pn s po : string) (names : list string) (acc : bool * nat)
    (st : St) :
  exists new,
    trace (for_each (notify_one w cfg pn s po) names acc st).2 = trace st ++ new
    /\ (for_each (notify_one w cfg pn s po) names acc st).1.1 = acc.1 || errors_logged new
    /\ drift_logged new = false /\ started new = [].
Proof.
  revert acc st. induction names as [|name names IH]; intros acc st; cbn [for_each].
  - exists []. cbn. by rewrite app_nil_r, orb_false_r.
  - unfold bind.
    destruct (notify_one_accounts pn s po name acc st) as (n1 & H1 & E1 & D1 & K1).
    destruct (IH (notify_one w cfg pn s po name acc st).1
                 (notify_one w cfg pn s po name acc st).2) as (n2 & H2 & E2 & D2 & K2).
    exists (n1 ++ n2). rewrite H2, H1, app_assoc, E2, E1.
    rewrite errors_logged_app, drift_logged_app, started_app, D1, D2, K1, K2.
    by rewrite orb_assoc.
Qed.

Lemma on_drift_accounts (p : Project) (planOutput : string) (l : Locals) (st : St) :
  exists new,
    trace (on_drift w cfg p planOutput l st).2 = trace st ++ new
    /\ accounts l (on_drift w cfg p planOutput l st).1 new []
    /\ deferred (on_drift w cfg p planOutput l st).1 = deferred l.
Proof.
  remember (on_drift w cfg p planOutput l st) as res eqn:Hres.
  unfold on_drift in Hres. exec in Hres.
  set (st1 := {| env := env st; requests := _; trace := _ |}) in Hres.
  assert (Ht1 : trace st1
                = trace st ++ [Log (LogDriftAlert (Project_Name p));
                               Log (LogDriftSummary (Project_Name p)
                                      (ExtractPlanSummary planOutput))]).
  { subst st1. cbn [trace]. by rewrite <- app_assoc. }
  clearbody st1.
  destruct (writes_print_details planOutput st1) as (n1 & H1 & Q1).
  apply quiet_silent in Q1 as (E1 & D1 & K1).
  set (st2 := (print_details planOutput st1).2) in *. clearbody st2.
  destruct (notify_all_accounts (Project_Name p) (ExtractPlanSummary planOutput)
              planOutput (Project_Notifiers p) (hasErrors l, 0%nat) st2)
    as (n2 & H2 & E2 & D2 & K2).
  set (r := for_each _ _ _ st2) in *. clearbody r. destruct r as [[he sent] st3].
  cbn [fst snd] in *.
  destruct ((sent =? 0)%nat && (0 <? length (Project_Notifiers p))%nat);
    subst res; cbn [fst snd trace hasErrors driftFound deferred]; unfold accounts;
    cbn [hasErrors driftFound].
  - exists ([Log (LogDriftAlert (Project_Name p));
             Log (LogDriftSummary (Project_Name p) (ExtractPlanSummary planOutput))]
            ++ n1 ++ n2 ++ [Log LogNoNotificationsWarning]).
    split; [| split; [|reflexivity]].
    + rewrite H2, H1, Ht1. by rewrite <- !app_assoc.
    + rewrite !errors_logged_app, !drift_logged_app, !started_app, E1, D1, K1, D2, K2, E2.
      cbn. by rewrite orb_false_r, orb_true_r.
  - exists ([Log (LogDriftAlert (Project_Name p));
             Log (LogDriftSummary (Project_Name p) (ExtractPlanSummary planOutput))]
            ++ n1 ++ n2).
    split; [| split; [|reflexivity]].
    + rewrite H2, H1, Ht1. by rewrite <- !app_assoc.
    + rewrite !errors_logged_app, !drift_logged_app, !started_app, E1, D1, K1, D2, K2, E2.
      cbn. by rewrite orb_true_r.
Qed.

Lemma check_project_accounts (p : Project) (l : Locals) (st : St) :
  exists new,
    trace (check_project w cfg p l st).2 = trace st ++ new
    /\ accounts l (check_project w cfg p l st).1 new []
    /\ deferred (check_project w cfg p l st).1 = deferred l.
Proof.
  remember (check_project w cfg p l st) as res eqn:Hres.
  unfold check_project in Hres. exec in Hres.
  destruct (writes_CheckDrift w (Project_Path p) st) as (n1 & H1 & F1).
  destruct (quiet_silent n1 (Forall_impl _ _ _ F1 command_quiet)) as (E1 & D1 & K1).
  set (r := CheckDrift w (Project_Path p) st) in *. clearbody r.
  destruct r as [[[planOutput exitCode] err] st1]. cbn [fst snd] in *.
  destruct (classify exitCode).
  - subst res. cbn [fst snd trace].
    exists (n1 ++ [Log (LogNoDrift (Project_Name p))]). unfold accounts.
    rewrite H1, app_assoc, errors_logged_app, drift_logged_app, started_app, E1, D1, K1.
    cbn. by rewrite !orb_false_r.
  - destruct (on_drift_accounts p planOutput l st1) as (n2 & H2 & (E2 & D2 & K2) & Hd).
    subst res. exists (n1 ++ n2). unfold accounts.
    rewrite H2, H1, app_assoc, E2, D2, Hd.
    rewrite errors_logged_app, drift_logged_app, started_app, E1, D1, K1, K2. done.
  - assert (Hlog : exists e, is_error_line e = true /\ is_drift_line e = false
                     /\ started [e] = [] /\ res = (set_hasErrors l, with_events st1 [e])).
    { destruct err as [e|]; subst res; eexists (Log _); repeat split; reflexivity. }
    destruct Hlog as (e & He & Hd & Hk & ->). cbn [fst snd with_events trace].
    exists (n1 ++ [e]). unfold accounts. cbn [hasErrors driftFound set_hasErrors deferred].
    rewrite H1, app_assoc, errors_logged_app, drift_logged_app, started_app, E1, D1, K1, Hk.
    unfold errors_logged, drift_logged. cbn [List.existsb]. rewrite He, Hd.
    by rewrite ?orb_true_r, ?orb_false_r.
Qed.

Lemma process_project_accounts (p : Project) (l : Locals) (st : St) :
  exists new,
    trace (process_project w cfg p l st).2 = trace st ++ new
    /\ accounts l (process_project w cfg p l st).1 new
         (if explicitly_disabled (Project_Enabled p) then [] else [Project_Name p]).
Proof.
  remember (process_project w cfg p l st) as res eqn:Hres.
  unfold process_project in Hres.
  destruct (explicitly_disabled (Project_Enabled p)).
  - subst res. exists [Log (LogSkipProject (Project_Name p))]. unfold accounts. cbn.
    by rewrite !orb_false_r.
  - exec in Hres.
    set (st1 := {| env := env st; requests := _; trace := _ |}) in Hres.
    assert (Ht1 : trace st1 = trace st ++ [Log (LogChecking (Project_Name p))])
      by reflexivity.
    clearbody st1.
    destruct (negb (String.eqb (Project_AuthProfile p) "")).
    + unfold setAuthEnvironmentM in Hres. cbn [fst snd] in Hres.
      destruct (Credentials.setAuthEnvironment cfg (Project_AuthProfile p) (env st1))
        as [[e|] env1]; cbn [fst snd] in Hres.
      * subst res. cbn [fst snd trace].
        exists [Log (LogChecking (Project_Name p));
                Log (LogAuthError (Project_Name p) e)].
        unfold accounts. rewrite Ht1, <- app_assoc. cbn.
        by rewrite orb_true_r, orb_false_r.
      * set (st2 := {| env := env1; requests := _; trace := _ |}) in Hres.
        destruct (check_project_accounts p (defer_clear l) st2)
          as (n2 & H2 & (E2 & D2 & K2) & _).
        subst res. exists (Log (LogChecking (Project_Name p)) :: n2). unfold accounts.
        rewrite H2, E2, D2. subst st2. cbn [trace hasErrors driftFound defer_clear].
        rewrite Ht1, <- app_assoc.
        change (started (Log (LogChecking (Project_Name p)) :: n2))
          with (Project_Name p :: started n2).
        by rewrite K2.
    + destruct (check_project_accounts p l st1) as (n2 & H2 & (E2 & D2 & K2) & _).
      subst res. exists (Log (LogChecking (Project_Name p)) :: n2). unfold accounts.
      rewrite H2, E2, D2, Ht1, <- app_assoc.
      change (started (Log (LogChecking (Project_Name p)) :: n2))
        with (Project_Name p :: started n2).
      by rewrite K2.
Qed.

Lemma run_projects_accounts (projects : list Project) (l : Locals) (st : St) :
  exists new,
    trace (run_projects w cfg projects l st).2 = trace st ++ new
    /\ accounts l (run_projects w cfg projects l st).1 new (enabled_names projects).
Proof.
  unfold run_projects. revert l st.
  induction projects as [|p projects IH]; intros l st; cbn [for_each].
  - exists []. unfold accounts. cbn. by rewrite app_nil_r, !orb_false_r.
  - unfold bind.
    destruct (process_project_accounts p l st) as (n1 & H1 & E1 & D1 & K1).
    destruct (IH (process_project w cfg p l st).1 (process_project w cfg p l st).2)
      as (n2 & H2 & E2 & D2 & K2).
    exists (n1 ++ n2). unfold accounts.
    rewrite H2, H1, app_assoc, E2, E1, D2, D1.
    rewrite errors_logged_app, drift_logged_app, started_app, K1, K2, !orb_assoc.
    unfold enabled_names. cbn [List.filter].
    by destruct (explicitly_disabled (Project_Enabled p)).
Qed.

End Accounting.

Section Aggregate.
Import Os Config World Terraform Notifier Detector Spec.

Lemma run_deferred_trace (n : nat) (st : St) :
  trace (run_deferred n st).2 = trace st.
Proof.
  revert st. induction n as [|n IH]; intros st; cbn [run_deferred]; [reflexivity|].
  unfold bind. rewrite IH. reflexivity.
Qed.

Lemma new_events_app (st st' : St) (new : list Event) :
  trace st' = trace st ++ new -> new_events st st' = new.
Proof. intros H. unfold new_events. rewrite H. by rewrite drop_app_length. Qed.

(** Once terraform is found, [RunWithResult] starts the check of every
    project that is not disabled, in configuration order, whatever
    happened to the projects before it; what it returns can be read off
    its log: the completed-with-errors error exactly when some per-project
    error line was logged, the drift flag exactly when some drift alert
    line was logged. *)
Lemma RunWithResult_logged (w : World) (cfg : Config) (st : St) :
  terraform_version w = RunOk ->
  (RunWithResult w cfg st).1.2
    = (if errors_logged (new_events st (RunWithResult w cfg st).2)
       then Some completed_with_errors else None)
  /\ (RunWithResult w cfg st).1.1
    = drift_logged (new_events st (RunWithResult w cfg st).2)
  /\ started (new_events st (RunWithResult w cfg st).2) = enabled_names (Projects cfg).
Proof.
  intros Hv.
  remember (RunWithResult w cfg st) as res eqn:Hres.
  unfold RunWithResult, ValidateTerraformInstallation in Hres. rewrite Hv in Hres.
  exec in Hres.
  set (st1 := {| env := env st; requests := _; trace := _ |}) in Hres.
  assert (Ht1 : trace st1
                = trace st ++ [Exec ["version"] EmptyString (env st); Log LogStart]).
  { subst st1. cbn [trace]. by rewrite <- app_assoc. }
  clearbody st1.
  destruct (run_projects_accounts w cfg (Projects cfg)
              {| hasErrors := false; driftFound := false; deferred := 0 |} st1)
    as (n & Hn & E & D & K).
  set (r := run_projects w cfg (Projects cfg) _ st1) in *. clearbody r.
  destruct r as [l st2]. cbn [fst snd hasErrors driftFound] in *.
  assert (Hnew : new_events st res.2
                 = [Exec ["version"] EmptyString (env st); Log LogStart] ++ n
                   ++ [Log LogCompleted]).
  { apply new_events_app. subst res.
    destruct (hasErrors l); cbn [snd]; rewrite run_deferred_trace; cbn [trace];
      by rewrite Hn, Ht1, <- !app_assoc. }
  rewrite Hnew, !errors_logged_app, !drift_logged_app, !started_app, K.
  cbn [errors_logged drift_logged started List.existsb omap list_omap is_error_line
         is_drift_line orb app].
  rewrite !orb_false_r, app_nil_r. subst res.
  cbn [orb] in E, D. rewrite <- E, <- D. by destruct (hasErrors l).
Qed.

End Aggregate.

(** ** The kinds of failed checks *)

Section Failed_checks.
Import Os Config World Terraform Notifier Detector Spec.
Context (w : World) (cfg : Config).

(** A missing project path and a failed init both end [CheckDrift] with
    exit code 1 and an error. *)
Lemma CheckDrift_missing_path (path : string) (st : St) :
  path_missing w path = true ->
  CheckDrift w path st = (("", 1, Some ("project path does not exist: " ++ path)%string), st).
Proof. intros H. unfold CheckDrift. by rewrite H. Qed.

Lemma CheckDrift_failed_init (path : string) (st : St) :
  path_missing w path = false ->
  (terraform_init w path (buildEnv (env st))).1 <> RunOk ->
  (CheckDrift w path st).1.1.2 = 1 /\ is_Some (CheckDrift w path st).1.2.
Proof.
  intros Hpath Hinit. unfold CheckDrift. rewrite Hpath.
  unfold runTerraformInit, cleanupLockFiles.
  destruct (lockfile_found w path); exec;
    (destruct (terraform_init w path (buildEnv (env st))) as [[| |] output];
     cbn [fst snd] in *; [done| |]);
    repeat (match goal with |- context [if ?b then _ else _] => destruct b end);
    cbn [fst snd]; eauto.
Qed.

(** A check that ends with an exit code other than 0 and 2 sets the
    error flag and logs an error line. *)
Lemma check_project_failed (p : Project) (l : Locals) (st : St) :
  classify (CheckDrift w (Project_Path p) st).1.1.2 = Failed ->
  hasErrors (check_project w cfg p l st).1 = true
  /\ errors_logged (new_events st (check_project w cfg p l st).2) = true.
Proof.
  intros Hc.
  destruct (writes_CheckDrift w (Project_Path p) st) as (n1 & H1 & _).
  remember (check_project w cfg p l st) as res eqn:Hres.
  unfold check_project in Hres. exec in Hres.
  set (r := CheckDrift w (Project_Path p) st) in *. clearbody r.
  destruct r as [[[planOutput exitCode] err] st1]. cbn [fst snd] in *.
  rewrite Hc in Hres.
  assert (Hlog : exists e, res = (set_hasErrors l, with_events st1 [e])
                           /\ is_error_line e = true).
  { destruct err as [e|]; subst res; eexists (Log _); split; reflexivity. }
  destruct Hlog as (e & -> & He). cbn [fst snd with_events trace]. split; [reflexivity|].
  rewrite (new_events_app st _ (n1 ++ [e]))
    by (unfold with_events; cbn [trace]; by rewrite H1, app_assoc).
  rewrite errors_logged_app. unfold errors_logged at 2. cbn [List.existsb].
  by rewrite He, orb_true_r.
Qed.

(** A project whose credential profile cannot be applied gets the error
    flag and an error line, and its check is not run. *)
Lemma auth_failure_skips_check (p : Project) (l : Locals) (st : St) (err : error) :
  explicitly_disabled (Project_Enabled p) = false ->
  Project_AuthProfile p <> ""%string ->
  GetAuthProfile cfg (Project_AuthProfile p) = inr err ->
  process_project w cfg p l st
  = (set_hasErrors l,
     with_events st [Log (LogChecking (Project_Name p));
                     Log (LogAuthError (Project_Name p) err)]).
Proof.
  intros Hon Hname Hget. unfold process_project. rewrite Hon.
  destruct (String.eqb_spec (Project_AuthProfile p) "") as [|_]; [done|].
  cbn [negb]. exec. unfold setAuthEnvironmentM, Credentials.setAuthEnvironment.
  rewrite Hget. cbn [fst snd]. exec. unfold with_events. cbn [env requests trace].
  by rewrite <- app_assoc.
Qed.

End Failed_checks.

(** ** Notifier kinds without an implementation *)

Section Unimplemented.
Import Os Config World Terraform Notifier Detector Spec.
Context (w : World) (cfg : Config).

Lemma sendNotification_unimplemented (name pn s po : string) (m : LogMsg) (st : St) :
  unimplemented_warning cfg name = Some m ->
  sendNotification w cfg name pn s po st = (None, with_events st [Log m]).
Proof.
  unfold unimplemented_warning, sendNotification.
  destruct (GetNotifier cfg name) as [n|]; [|discriminate].
  destruct (explicitly_disabled (Notifier_Enabled n)); [discriminate|].
  destruct (String.eqb_spec (Notifier_Type n) "teams") as [Ht|_].
  - rewrite Ht. cbn. by intros [= <-].
  - destruct (String.eqb_spec (Notifier_Type n) "email") as [He|_]; [|discriminate].
    rewrite He. cbn. by intros [= <-].
Qed.

Lemma notify_one_unimplemented (name pn s po : string) (m : LogMsg) (acc : bool * nat)
    (st : St) :
  unimplemented_warning cfg name = Some m ->
  notify_one w cfg pn s po name acc st
  = ((acc.1, S acc.2), with_events st [Log m; Log (LogNotifySent name pn)]).
Proof.
  intros Hm. unfold notify_one, bind.
  rewrite (sendNotification_unimplemented name pn s po m st Hm).
  cbn [fst snd]. unfold log, emit, ret, with_events. cbn. by rewrite <- app_assoc.
Qed.

Lemma delivery_no_warning (e : Event) :
  is_delivery e = true -> no_unnotified_warning e = true.
Proof. by destruct e as [[]| | | |]. Qed.

Lemma writes_notify_one (pn s po name : string) (acc : bool * nat) :
  writes no_unnotified_warning (notify_one w cfg pn s po name acc).
Proof.
  unfold notify_one, log. apply writes_bind.
  - eapply writes_mono; [exact delivery_no_warning | apply writes_sendNotification].
  - intros [e|]; repeat writes_step.
Qed.

Lemma writes_print_details_no_warning (planOutput : string) :
  writes no_unnotified_warning (print_details planOutput).
Proof.
  unfold print_details, log. apply writes_bind; [apply writes_get_env | intros e].
  destruct (String.eqb _ _); repeat writes_step.
Qed.

(** The count of notifications sent never goes down. *)
Lemma notify_all_count (pn s po : string) (names : list string) (acc : bool * nat)
    (st : St) :
  (acc.2 <= (for_each (notify_one w cfg pn s po) names acc st).1.2)%nat.
Proof.
  revert acc st. induction names as [|name names IH]; intros acc st; cbn [for_each].
  - reflexivity.
  - unfold bind. etransitivity; [|apply IH].
    unfold notify_one, bind, log, emit, ret.
    destruct (sendNotification w cfg name pn s po st) as [[e|] st1]; cbn; lia.
Qed.

(** It goes up when one of the notifiers is of an unimplemented kind. *)
Lemma notify_all_counts_unimplemented (pn s po name : string) (names : list string)
    (acc : bool * nat) (st : St) :
  name ∈ names -> is_Some (unimplemented_warning cfg name) ->
  (acc.2 < (for_each (notify_one w cfg pn s po) names acc st).1.2)%nat.
Proof.
  intros Hin [m Hm]. revert acc st.
  induction names as [|x names IH]; intros acc st; [by apply elem_of_nil in Hin|].
  cbn [for_each]. unfold bind.
  apply elem_of_cons in Hin as [<-|Hin].
  - rewrite (notify_one_unimplemented name pn s po m acc st Hm). cbn [fst snd].
    eapply Nat.lt_le_trans; [|apply notify_all_count]. cbn. lia.
  - eapply Nat.le_lt_trans; [|apply (IH Hin)].
    unfold notify_one, bind, log, emit, ret.
    destruct (sendNotification w cfg x pn s po st) as [[e|] st1]; cbn; lia.
Qed.

Lemma no_warning_none (new : list Event) :
  Forall (fun e => no_unnotified_warning e = true) new ->
  List.existsb is_unnotified_warning new = false.
Proof.
  induction 1 as [|e new He _ IH]; [done|]. cbn [List.existsb]. rewrite IH.
  unfold no_unnotified_warning in He. by destruct (is_unnotified_warning e).
Qed.

Lemma on_drift_no_warning (p : Project) (planOutput name : string) (l : Locals) (st : St) :
  name ∈ Project_Notifiers p -> is_Some (unimplemented_warning cfg name) ->
  List.existsb is_unnotified_warning (new_events st (on_drift w cfg p planOutput l st).2)
  = false.
Proof.
  intros Hin Hm.
  remember (on_drift w cfg p planOutput l st) as res eqn:Hres.
  unfold on_drift in Hres. exec in Hres.
  set (st1 := {| env := env st; requests := _; trace := _ |}) in Hres.
  assert (Ht1 : trace st1
                = trace st ++ [Log (LogDriftAlert (Project_Name p));
                               Log (LogDriftSummary (Project_Name p)
                                      (ExtractPlanSummary planOutput))]).
  { subst st1. cbn [trace]. by rewrite <- app_assoc. }
  clearbody st1.
  destruct (writes_print_details_no_warning planOutput st1) as (n1 & H1 & Q1).
  set (st2 := (print_details planOutput st1).2) in *. clearbody st2.
  destruct (writes_for_each no_unnotified_warning
              (notify_one w cfg (Project_Name p) (ExtractPlanSummary planOutput) planOutput)
              (Project_Notifiers p) (hasErrors l, 0%nat)
              (fun x b => writes_notify_one _ _ _ x b) st2) as (n2 & H2 & Q2).
  pose proof (notify_all_counts_unimplemented (Project_Name p)
                (ExtractPlanSummary planOutput) planOutput name (Project_Notifiers p)
                (hasErrors l, 0%nat) st2 Hin Hm) as Hsent.
  set (r := for_each _ _ _ st2) in *. clearbody r. destruct r as [[he sent] st3].
  cbn [fst snd] in *.
  destruct sent as [|sent]; [lia|]. cbn [Nat.eqb andb] in Hres.
  subst res. cbn [snd].
  rewrite (new_events_app st st3 ([Log (LogDriftAlert (Project_Name p));
                               Log (LogDriftSummary (Project_Name p)
                                      (ExtractPlanSummary planOutput))] ++ n1 ++ n2)).
  - rewrite !existsb_app, (no_warning_none n1 Q1), (no_warning_none n2 Q2). reflexivity.
  - by rewrite H2, H1, Ht1, <- !app_assoc.
Qed.

End Unimplemented.

Section Unimplemented_claim.
Import Os Config World Terraform Notifier Detector Spec.

(** C10. Dispatching a drift alert to a notifier that is not disabled and
    whose type is "teams" or "email" returns nil and adds one line to the
    trace, the not-implemented warning: no request goes out, nothing is
    waited for, nothing is retried. The engine counts it as a notification
    sent and leaves its error flag alone; and in a drifted project that
    lists such a notifier the warning that no notification was sent is not
    logged. *)
Theorem unimplemented_kinds_report_success (w : World) (cfg : Config) (n : Notifier)
    (name pn s po : string) (acc : bool * nat) (st : St)
    (p : Project) (planOutput : string) (l : Locals) :
  GetNotifier cfg name = inl n ->
  explicitly_disabled (Notifier_Enabled n) = false ->
  Notifier_Type n = "teams"%string \/ Notifier_Type n = "email"%string ->
  exists m,
    (m = LogTeamsNotImplemented name \/ m = LogEmailNotImplemented name)
    /\ sendNotification w cfg name pn s po st = (None, with_events st [Log m])
    /\ notify_one w cfg pn s po name acc st
       = ((acc.1, S acc.2), with_events st [Log m; Log (LogNotifySent name pn)])
    /\ (name ∈ Project_Notifiers p ->
        List.existsb is_unnotified_warning
          (new_events st (on_drift w cfg p planOutput l st).2) = false).
Proof.
  intros Hget Hon Hty.
  assert (Hm : exists m, (m = LogTeamsNotImplemented name \/ m = LogEmailNotImplemented name)
                         /\ unimplemented_warning cfg name = Some m).
  { unfold unimplemented_warning. rewrite Hget, Hon.
    destruct Hty as [-> | ->]; cbn; eauto. }
  destruct Hm as (m & Hkind & Hm). exists m. split; [exact Hkind|].
  split; [by apply sendNotification_unimplemented|].
  split; [by apply notify_one_unimplemented|].
  intros Hin. eapply on_drift_no_warning; eauto.
Qed.

(** C10 on the Teams notifier of [Examples.notified], for the drifted
    project [Examples.project_c]. *)
Lemma unimplemented_kinds_report_success_witness :
  exists m,
    (m = LogTeamsNotImplemented "teams-alerts" \/ m = LogEmailNotImplemented "teams-alerts")
    /\ sendNotification Examples.webhook_down Examples.notified "teams-alerts" "c"
         "summary" "plan" Examples.start
       = (None, with_events Examples.start [Log m])
    /\ notify_one Examples.webhook_down Examples.notified "c" "summary" "plan"
         "teams-alerts" (false, 0%nat) Examples.start
       = ((false, 1%nat),
          with_events Examples.start [Log m; Log (LogNotifySent "teams-alerts" "c")])
    /\ List.existsb is_unnotified_warning
         (new_events Examples.start
            (on_drift Examples.webhook_down Examples.notified Examples.project_c "plan"
               {| hasErrors := false; driftFound := false; deferred := 0 |}
               Examples.start).2) = false.
Proof.
  destruct (unimplemented_kinds_report_success Examples.webhook_down Examples.notified
              Examples.teams_alerts "teams-alerts" "c" "summary" "plan" (false, 0%nat)
              Examples.start Examples.project_c "plan"
              {| hasErrors := false; driftFound := false; deferred := 0 |}
              eq_refl eq_refl (or_introl eq_refl)) as (m & Hm & H1 & H2 & H3).
  exists m. split; [exact Hm|]. split; [exact H1|]. split; [exact H2|].
  apply H3. apply list_elem_of_here.
Defined.

End Unimplemented_claim.

(** ** Delivery with retries *)

Section Retry.
Import Os Config World Notifier Spec.
Context (w : World) (url pn ds po : string).

Local Abbreviation send := (SendSlackRichNotification w url pn ds po).

(** One attempt: its result, and the request it sends if it gets that far. *)
Lemma send_run (st : St) :
  send st
  = (attempt_outcome w url (requests st),
     if reaches_network w url
     then {| env := env st; requests := S (requests st);
             trace := trace st
                      ++ [Post url (rich_message pn ds po (unix_now w (requests st)))] |}
     else st).
Proof.
  unfold send, SendSlackRichNotification, attempt_outcome, reaches_network.
  destruct (String.eqb url ""); [reflexivity|].
  destruct (new_request_error w url); reflexivity.
Qed.

Lemma outcome_0 (n0 : nat) : outcome w url n0 0 = attempt_outcome w url n0.
Proof. unfold outcome. destruct (reaches_network w url); by rewrite ?Nat.add_0_r. Qed.

Lemma outcome_S (st : St) (i : nat) :
  outcome w url (requests st) (S i) = outcome w url (requests (send st).2) i.
Proof.
  rewrite send_run. unfold outcome. cbn [snd].
  destruct (reaches_network w url); cbn [requests]; [|reflexivity].
  f_equal. lia.
Qed.

Lemma retry_numbers_S (k m : nat) :
  retry_numbers k (S m)
  = (if (0 <? k)%nat then [Z.of_nat k] else []) ++ retry_numbers (S k) m.
Proof. unfold retry_numbers. cbn [seq List.filter]. by destruct (0 <? k)%nat. Qed.

(** One turn of the loop. *)
Lemma retry_loop_turn (mr : Z) (n k : nat) (lastErr : option error) (st : St) :
  retry_loop send mr (S n) (Z.of_nat k) lastErr st
  = match (send (with_events st (announce mr k))).1 with
    | None => (None, with_events (send (with_events st (announce mr k))).2 (celebrate k))
    | Some e =>
        retry_loop send mr n (Z.of_nat (S k)) (Some e)
          (send (with_events st (announce mr k))).2
    end.
Proof.
  cbn [retry_loop]. unfold announce, celebrate.
  replace (0 <? Z.of_nat k) with (0 <? k)%nat by (by destruct k).
  replace (Z.of_nat k + 1) with (Z.of_nat (S k)) by lia.
  unfold bind at 1.
  assert (Hpre : forall evs : list Event,
             when (0 <? k)%nat (log (LogRetry (Z.of_nat k) mr (backoff (Z.of_nat k)));;
                                emit (Sleep (backoff (Z.of_nat k))))%go st
             = (tt, with_events st
                      (if (0 <? k)%nat
                       then [Log (LogRetry (Z.of_nat k) mr (backoff (Z.of_nat k)));
                             Sleep (backoff (Z.of_nat k))]
                       else []))).
  { intros _. destruct (0 <? k)%nat; cbn [when].
    - unfold bind, log, emit, with_events. cbn. by rewrite <- app_assoc.
    - unfold ret. by rewrite with_events_nil. }
  rewrite (Hpre []). cbn [fst snd]. unfold bind at 1.
  destruct (send _) as [[e|] st2]; cbn [fst snd]; [reflexivity|].
  destruct (0 <? k)%nat; cbn [when]; unfold bind, log, emit, ret, with_events; cbn;
    [reflexivity | by rewrite app_nil_r; destruct st2].
Qed.

Lemma retries_app (a b : list Event) : retries (a ++ b) = retries a ++ retries b.
Proof. apply omap_app. Qed.

Lemma waits_app (a b : list Event) : waits (a ++ b) = waits a ++ waits b.
Proof. apply omap_app. Qed.

Lemma posts_app (a b : list Event) : posts (a ++ b) = posts a ++ posts b.
Proof. apply List.filter_app. Qed.

(** One announced attempt. *)
Lemma attempted_one (mr : Z) (k : nat) (st : St) :
  attempted w url st (send (with_events st (announce mr k))).2 k 1.
Proof.
  rewrite send_run. cbn [snd]. unfold attempted.
  exists (announce mr k
          ++ if reaches_network w url
             then [Post url (rich_message pn ds po (unix_now w (requests st)))]
             else []).
  rewrite retries_app, waits_app, posts_app, length_app, retry_numbers_S.
  unfold announce, retry_numbers.
  destruct (reaches_network w url); destruct (0 <? k)%nat;
    cbn; rewrite ?app_nil_r, <- ?app_assoc, ?Nat.add_0_r; repeat split; try done; lia.
Qed.

Lemma attempted_S (st st1 st2 : St) (k m : nat) :
  attempted w url st st1 k 1 -> attempted w url st1 st2 (S k) m ->
  attempted w url st st2 k (S m).
Proof.
  intros (n1 & T1 & R1 & W1 & P1 & Q1 & E1) (n2 & T2 & R2 & W2 & P2 & Q2 & E2).
  exists (n1 ++ n2).
  rewrite retries_app, waits_app, posts_app, length_app, R1, R2, W1, W2, P1, P2.
  rewrite T2, T1, Q2, Q1, E2, E1, app_assoc, (retry_numbers_S k m), (retry_numbers_S k 0).
  unfold retry_numbers at 2 4. cbn [seq List.filter List.map].
  rewrite !app_nil_r, List.map_app.
  destruct (reaches_network w url); repeat split; try done; lia.
Qed.

Lemma attempted_celebrate (st st' : St) (k m j : nat) :
  attempted w url st st' k m -> attempted w url st (with_events st' (celebrate j)) k m.
Proof.
  intros (n1 & T1 & R1 & W1 & P1 & Q1 & E1).
  exists (n1 ++ celebrate j). unfold with_events. cbn [trace requests env].
  rewrite retries_app, waits_app, posts_app, length_app, R1, W1, P1, T1, Q1, E1, app_assoc.
  unfold celebrate. destruct (0 <? j)%nat; cbn; rewrite ?app_nil_r, ?Nat.add_0_r; done.
Qed.

Lemma with_events_requests (st : St) (evs : list Event) :
  requests (with_events st evs) = requests st.
Proof. reflexivity. Qed.

(** The loop when attempt [j] of those left is the first to succeed. *)
Lemma retry_loop_success (mr : Z) (j : nat) :
  forall (n k : nat) (lastErr : option error) (st : St),
    (j < n)%nat -> first_success w url (requests st) j ->
    (retry_loop send mr n (Z.of_nat k) lastErr st).1 = None
    /\ attempted w url st (retry_loop send mr n (Z.of_nat k) lastErr st).2 k (S j).
Proof.
  induction j as [|j IH]; intros n k lastErr st Hn [Hfail Hok];
    (destruct n as [|n]; [lia|]); rewrite retry_loop_turn.
  - pose proof (attempted_one mr k st) as Hone.
    rewrite send_run in *. cbn [fst snd] in *.
    rewrite with_events_requests, <- outcome_0, Hok.
    split; [reflexivity|]. cbn [snd]. by apply attempted_celebrate.
  - pose proof (attempted_one mr k st) as Hone.
    destruct (Hfail 0%nat ltac:(lia)) as [e He]. rewrite outcome_0 in He.
    assert (Hs : (send (with_events st (announce mr k))).1 = Some e).
    { rewrite send_run. cbn [fst]. by rewrite with_events_requests. }
    rewrite Hs.
    destruct (IH n (S k) (Some e) (send (with_events st (announce mr k))).2) as [Hr Ha].
    + lia.
    + split.
      * intros i Hi. rewrite <- outcome_S, with_events_requests. apply Hfail. lia.
      * by rewrite <- outcome_S, with_events_requests.
    + split; [exact Hr|]. eapply attempted_S; eauto.
Qed.

(** The loop when every attempt left fails. *)
Lemma retry_loop_exhausted (mr : Z) (n : nat) :
  forall (k : nat) (lastErr : option error) (st : St),
    (forall i, (i < n)%nat -> is_Some (outcome w url (requests st) i)) ->
    (retry_loop send mr n (Z.of_nat k) lastErr st).1
    = Some ("failed after " ++ pretty (Int64.wrap (mr + 1)) ++ " retries: "
            ++ show_error (match n with
                           | O => lastErr
                           | S n' => outcome w url (requests st) n'
                           end))%string
    /\ attempted w url st (retry_loop send mr n (Z.of_nat k) lastErr st).2 k n.
Proof.
  induction n as [|n IH]; intros k lastErr st Hfail.
  - cbn [retry_loop]. split; [reflexivity|]. exists []. cbn.
    rewrite app_nil_r. unfold retry_numbers. cbn.
    destruct (reaches_network w url); repeat split; try done; lia.
  - rewrite retry_loop_turn.
    pose proof (attempted_one mr k st) as Hone.
    destruct (Hfail 0%nat ltac:(lia)) as [e He]. rewrite outcome_0 in He.
    assert (Hs : (send (with_events st (announce mr k))).1 = Some e).
    { rewrite send_run. cbn [fst]. by rewrite with_events_requests. }
    rewrite Hs.
    destruct (IH (S k) (Some e) (send (with_events st (announce mr k))).2) as [Hr Ha].
    + intros i Hi. rewrite <- outcome_S, with_events_requests. apply Hfail. lia.
    + split; [| eapply attempted_S; eauto].
      rewrite Hr. destruct n as [|n'].
      * by rewrite outcome_0, He.
      * by rewrite <- outcome_S, with_events_requests.
Qed.

End Retry.

Section Retry_claim.
Import Os Config World Notifier Spec.

Lemma wrap_small (z : Z) : Int64.min_int <= z <= Int64.max_int -> Int64.wrap z = z.
Proof.
  unfold Int64.wrap, Int64.min_int, Int64.max_int. intros H.
  rewrite Z.mod_small; lia.
Qed.

(** Up to the 34th retry the wait is [2 ^ (a - 1)] seconds. *)
Lemma backoff_doubles (a : Z) : 1 <= a <= 34 -> backoff a = 2 ^ (a - 1) * Second.
Proof.
  intros Ha. unfold backoff. rewrite Z.shiftl_1_l.
  assert (Hlo : 1 <= 2 ^ (a - 1)) by (apply (Z.pow_le_mono_r 2 0 (a - 1)); lia).
  assert (Hhi : 2 ^ (a - 1) <= 2 ^ 33) by (apply Z.pow_le_mono_r; lia).
  change (2 ^ 33) with 8589934592 in Hhi.
  unfold Second.
  rewrite (wrap_small (2 ^ (a - 1)))
    by (unfold Int64.min_int, Int64.max_int; lia).
  apply wrap_small. unfold Int64.min_int, Int64.max_int. lia.
Qed.

Lemma retry_numbers_0 (m : nat) :
  retry_numbers 0 m = List.map Z.of_nat (seq 1 (m - 1)).
Proof.
  destruct m as [|m]; [reflexivity|]. unfold retry_numbers. cbn [seq List.filter Nat.ltb Nat.leb].
  replace (S m - 1)%nat with m by lia. f_equal.
  generalize 0%nat. induction m as [|m IH]; intros k; [reflexivity|].
  cbn [seq List.filter]. replace (0 <? S k)%nat with true by reflexivity.
  by rewrite IH.
Qed.

(** Either some attempt among the first [n] is the first to succeed, or
    all of them fail. *)
Lemma first_success_or_none (w : World) (url : string) (n0 n : nat) :
  (exists j, (j < n)%nat /\ first_success w url n0 j)
  \/ (forall i, (i < n)%nat -> is_Some (outcome w url n0 i)).
Proof.
  induction n as [|n [(j & Hj & Hs)|Hall]].
  - right. intros i Hi. lia.
  - left. exists j. split; [lia | exact Hs].
  - destruct (outcome w url n0 n) as [e|] eqn:Hn.
    + right. intros i Hi. destruct (decide (i = n)) as [->|]; [by rewrite Hn|].
      apply Hall. lia.
    + left. exists n. split; [lia|]. split; [exact Hall | exact Hn].
Qed.

Lemma attempted_new_events (w : World) (url : string) (st st' : St) (m : nat) :
  attempted w url st st' 0 m ->
  retries (new_events st st') = List.map Z.of_nat (seq 1 (m - 1))
  /\ waits (new_events st st')
     = List.map (fun a => backoff (Z.of_nat a)) (seq 1 (m - 1))
  /\ length (posts (new_events st st')) = (if reaches_network w url then m else 0)%nat.
Proof.
  intros (new & T & R & W & P & _). rewrite (new_events_app st st' new T).
  rewrite R, W, P, retry_numbers_0, List.map_map. done.
Qed.

(** For [0 <= maxRetries < 2^63 - 1] the retrying send makes
    [m] attempts, [1 <= m <= maxRetries + 1]: it announces and waits for
    retries number 1 to [m - 1], retry [a] for [backoff a], which is
    [2 ^ (a - 1)] seconds as long as [a <= 34]; it sends one request per
    attempt when the URL is usable, none otherwise. Either it returns nil
    and the last attempt made was the first to succeed, or it made all
    [maxRetries + 1] attempts, all failed, and it returns the last
    attempt's error wrapped with that count. *)
Theorem retry_policy (w : World) (url pn ds po : string) (maxRetries : Z) (st : St) :
  0 <= maxRetries < Int64.max_int ->
  exists m : nat,
    (1 <= m <= Z.to_nat maxRetries + 1)%nat
    /\ retries (new_events st
                  (SendSlackRichNotificationWithRetry w url pn ds po maxRetries st).2)
       = List.map Z.of_nat (seq 1 (m - 1))
    /\ waits (new_events st
                (SendSlackRichNotificationWithRetry w url pn ds po maxRetries st).2)
       = List.map (fun a => backoff (Z.of_nat a)) (seq 1 (m - 1))
    /\ length (posts (new_events st
                 (SendSlackRichNotificationWithRetry w url pn ds po maxRetries st).2))
       = (if reaches_network w url then m else 0)%nat
    /\ (((SendSlackRichNotificationWithRetry w url pn ds po maxRetries st).1 = None
         /\ first_success w url (requests st) (m - 1))
        \/ (m = (Z.to_nat maxRetries + 1)%nat
            /\ (forall i, (i < m)%nat -> is_Some (outcome w url (requests st) i))
            /\ (SendSlackRichNotificationWithRetry w url pn ds po maxRetries st).1
               = Some ("failed after " ++ pretty (maxRetries + 1) ++ " retries: "
                       ++ show_error (outcome w url (requests st) (m - 1)))%string))
    /\ (forall a, 1 <= a <= 34 -> backoff a = 2 ^ (a - 1) * Second).
Proof.
  intros Hmr. unfold SendSlackRichNotificationWithRetry.
  replace (Z.to_nat (maxRetries + 1)) with (S (Z.to_nat maxRetries)) by lia.
  destruct (first_success_or_none w url (requests st) (S (Z.to_nat maxRetries)))
    as [(j & Hj & Hs)|Hall].
  - destruct (retry_loop_success w url pn ds po maxRetries j (S (Z.to_nat maxRetries)) 0
                None st Hj Hs) as [Hr Ha].
    change (Z.of_nat 0) with 0 in Hr, Ha.
    apply attempted_new_events in Ha as (R & W & P).
    exists (S j). cbn [Nat.sub] in *. rewrite Nat.sub_0_r in *.
    split; [lia|]. split; [exact R|]. split; [exact W|]. split; [exact P|].
    split; [left; split; [exact Hr | exact Hs] | exact backoff_doubles].
  - destruct (retry_loop_exhausted w url pn ds po maxRetries (S (Z.to_nat maxRetries)) 0
                None st Hall) as [Hr Ha].
    change (Z.of_nat 0) with 0 in Hr, Ha.
    apply attempted_new_events in Ha as (R & W & P).
    exists (S (Z.to_nat maxRetries)). cbn [Nat.sub] in *. rewrite Nat.sub_0_r in *.
    split; [lia|]. split; [exact R|]. split; [exact W|]. split; [exact P|].
    split; [right | exact backoff_doubles].
    split; [lia|]. split; [exact Hall|].
    rewrite Hr. rewrite wrap_small by (unfold Int64.min_int, Int64.max_int in *; lia).
    reflexivity.
Qed.

End Retry_claim.

Section Retry_examples.
Import Os Config World Notifier Spec.

(** Three retries, the engine's setting, against a webhook that
    always answers 500. *)
Lemma retry_policy_witness :
  0 <= 3 < Int64.max_int
  /\ exists m : nat,
       (1 <= m <= 4)%nat
       /\ waits (new_events Examples.start
                   (SendSlackRichNotificationWithRetry Examples.webhook_down
                      "https://hooks.example/T1" "d" "summary" "plan" 3
                      Examples.start).2)
          = List.map (fun a => backoff (Z.of_nat a)) (seq 1 (m - 1)).
Proof.
  assert (H : 0 <= 3 < Int64.max_int) by (unfold Int64.max_int; lia).
  split; [exact H|].
  destruct (retry_policy Examples.webhook_down "https://hooks.example/T1" "d" "summary"
              "plan" 3 Examples.start H) as (m & Hm & _ & W & _).
  exists m. split; [exact Hm | exact W].
Defined.


End Retry_examples.

(** ** Credentials across projects *)

Section Leak.
Import Os Config World Terraform Detector Spec.

(** C1 fails on [Examples.two_projects]: project [a] uses an AWS profile,
    project [b] an Azure profile. The deferred [clearAuthEnvironment]
    calls run when [RunWithResult] returns, not at the end of a project's
    turn: the terraform commands of [b] run with the access key applied
    for [a] in their environment, and with [a]'s [AWS_PROFILE]; the key is
    unset only in the final environment. *)
Theorem credentials_outlive_their_project :
  commands_with "AWS_ACCESS_KEY_ID"
    (trace (RunWithResult Examples.calm Examples.two_projects Examples.start).2)
  = [ ("", "version", None);
      ("/a", "init", Some "AKIA"); ("/a", "plan", Some "AKIA");
      ("/b", "init", Some "AKIA"); ("/b", "plan", Some "AKIA") ]%string
  /\ commands_with "ARM_CLIENT_ID"
       (trace (RunWithResult Examples.calm Examples.two_projects Examples.start).2)
     = [ ("", "version", None);
         ("/a", "init", None); ("/a", "plan", None);
         ("/b", "init", Some "cid"); ("/b", "plan", Some "cid") ]%string
  /\ env (RunWithResult Examples.calm Examples.two_projects Examples.start).2
       !! "AWS_ACCESS_KEY_ID"%string = None
  /\ (RunWithResult Examples.calm Examples.two_projects Examples.start).1 = (false, None).
Proof. repeat split; vm_compute; reflexivity. Qed.

End Leak.

(** ** The plan summary *)

Section Summary.
Import GoStrings World Terraform Spec.

(** C8 fails on [Examples.ten_changes]: the plan output has exactly ten
    lines, each a resource-change entry; all ten are captured, there is
    none beyond them, and the summary still ends with the marker that says
    there are more. *)
Theorem marker_after_exactly_ten_entries :
  SplitLines Examples.ten_changes = Examples.ten_entries
  /\ resourceChanges (scan Examples.ten_changes) = Examples.ten_entries
  /\ ExtractPlanSummary Examples.ten_changes
     = (generic_summary ++ nl ++ nl ++ "Resource Changes Detected:"
        ++ String.concat "" (List.map (fun c => nl ++ "  " ++ c) Examples.ten_entries)
        ++ nl ++ "  ... (more changes, see full plan for details)")%string.
Proof. repeat split; vm_compute; reflexivity. Qed.

End Summary.

(** ** The environment during and after a run *)

Section Keeps.
Import Os Config World Terraform Notifier Detector Spec Credentials.

Lemma keeps_ret {A : Type} (a : A) : keeps_variables (ret a).
Proof. by intros st k H. Qed.

Lemma keeps_bind {A B : Type} (m : M B) (f : B -> M A) :
  keeps_variables m -> (forall b, keeps_variables (f b)) -> keeps_variables (bind m f).
Proof. intros Hm Hf st k H. unfold bind. by apply Hf, Hm. Qed.

Lemma keeps_emit (e : Event) : keeps_variables (emit e).
Proof. by intros st k H. Qed.

Lemma keeps_get_env : keeps_variables get_env.
Proof. by intros st k H. Qed.

Lemma keeps_when (c : bool) (m : M unit) : keeps_variables m -> keeps_variables (when c m).
Proof. intros Hm. destruct c; [exact Hm | apply keeps_ret]. Qed.

Lemma keeps_for_each {X B : Type} (body : X -> B -> M B) (l : list X) (acc : B) :
  (forall x b, keeps_variables (body x b)) -> keeps_variables (for_each body l acc).
Proof.
  intros Hbody. revert acc. induction l as [|x l IH]; intros acc; cbn [for_each].
  - apply keeps_ret.
  - apply keeps_bind; [apply Hbody | exact IH].
Qed.

End Keeps.

Ltac keeps_step :=
  first
    [ apply keeps_ret
    | apply keeps_get_env
    | apply keeps_emit
    | apply keeps_when
    | apply keeps_bind; [| intros ?]
    | match goal with
      | |- Spec.keeps_variables (match ?x with _ => _ end) => destruct x
      end ].

Section Keeps_program.
Import Os Config World Terraform Notifier Detector Spec Credentials.

Lemma Setenv_keeps (key value k : string) (e : gmap string string) :
  is_Some (e !! k) -> is_Some (Setenv key value e !! k).
Proof.
  intros H. unfold Setenv. destruct (setenv_accepts key value); [|exact H].
  destruct (decide (key = k)) as [->|Hne];
    [rewrite lookup_insert_eq; eauto | by rewrite lookup_insert_ne].
Qed.

Lemma apply_pairs_keeps (provider k : string) (kvs : list (string * string))
    (e : gmap string string) :
  is_Some (e !! k) -> is_Some (apply_pairs provider kvs e !! k).
Proof.
  unfold apply_pairs. revert e.
  induction kvs as [|kv kvs IH]; intros e H; cbn [List.fold_left]; [exact H|].
  by apply IH, Setenv_keeps.
Qed.

Lemma keeps_setAuthEnvironmentM (cfg : Config) (name : string) :
  keeps_variables (setAuthEnvironmentM cfg name).
Proof.
  intros st k H. unfold setAuthEnvironmentM, setAuthEnvironment. cbn [snd env].
  destruct (GetAuthProfile cfg name); cbn [snd]; [by apply apply_pairs_keeps | exact H].
Qed.

Lemma keeps_CheckDrift (w : World) (path : string) : keeps_variables (CheckDrift w path).
Proof.
  unfold CheckDrift, runTerraformInit, runTerraformPlan, cleanupLockFiles.
  repeat keeps_step.
Qed.

Lemma keeps_send (w : World) (url pn ds po : string) :
  keeps_variables (SendSlackRichNotification w url pn ds po).
Proof.
  intros st k H. unfold SendSlackRichNotification.
  destruct (String.eqb url ""); [exact H|].
  destruct (new_request_error w url); exact H.
Qed.

Lemma keeps_retry_loop (send : M (option error)) (maxRetries : Z) (n : nat)
    (attempt : Z) (lastErr : option error) :
  keeps_variables send -> keeps_variables (retry_loop send maxRetries n attempt lastErr).
Proof.
  intros Hsend. revert attempt lastErr.
  induction n as [|n IH]; intros attempt lastErr; cbn [retry_loop]; unfold log.
  - apply keeps_ret.
  - apply keeps_bind; [repeat keeps_step|intros _].
    apply keeps_bind; [exact Hsend|intros [e|]]; [apply IH | repeat keeps_step].
Qed.

Lemma keeps_sendNotification (w : World) (cfg : Config) (name pn s po : string) :
  keeps_variables (sendNotification w cfg name pn s po).
Proof.
  unfold sendNotification, SendSlackRichNotificationWithRetry, log.
  repeat first [ apply keeps_retry_loop, keeps_send | keeps_step ].
Qed.

Lemma keeps_process_project (w : World) (cfg : Config) (p : Project) (l : Locals) :
  keeps_variables (process_project w cfg p l).
Proof.
  unfold process_project, check_project, on_drift, print_details, log.
  repeat first
    [ apply keeps_setAuthEnvironmentM
    | apply keeps_CheckDrift
    | apply keeps_for_each; intros ? ?; unfold notify_one, log
    | apply keeps_sendNotification
    | keeps_step ].
Qed.

(** Whatever the configuration and the world, the loop over the projects
    unsets nothing: a variable set when a project's turn begins, by an
    earlier project's profile or otherwise, is set at every later turn. *)
Lemma run_projects_keeps_variables (w : World) (cfg : Config) (projects : list Project)
    (l : Locals) :
  keeps_variables (run_projects w cfg projects l).
Proof.
  unfold run_projects. apply keeps_for_each. intros p l'. apply keeps_process_project.
Qed.

End Keeps_program.

Section Return.
Import Os Config World Terraform Notifier Detector Spec Credentials.
Context (w : World) (cfg : Config).

Lemma run_deferred_env (n : nat) (st : St) :
  env (run_deferred n st).2 = Nat.iter n clearAuthEnvironment (env st).
Proof.
  revert st. induction n as [|n IH]; intros st; cbn [run_deferred]; [reflexivity|].
  unfold bind. rewrite IH. cbn [modify_env snd env].
  symmetry. apply Nat.iter_succ_r.
Qed.

Lemma cleared_after_deferred (n : nat) (st : St) (k : string) :
  (0 < n)%nat -> k ∈ cleared_variables -> env (run_deferred n st).2 !! k = None.
Proof.
  intros Hn Hk. rewrite run_deferred_env. destruct n as [|n]; [lia|].
  rewrite Nat.iter_succ, clear_lookup. by rewrite bool_decide_eq_true_2.
Qed.

(** A project's turn executes one [defer] if it applies a profile, none
    otherwise. *)
Lemma process_project_deferred (p : Project) (l : Locals) (st : St) :
  deferred (process_project w cfg p l st).1
  = (deferred l + if applies_profile cfg p then 1 else 0)%nat.
Proof.
  unfold process_project, applies_profile.
  destruct (explicitly_disabled (Project_Enabled p)); cbn [negb andb].
  - cbn. lia.
  - exec. destruct (negb (String.eqb (Project_AuthProfile p) "")); cbn [andb].
    + unfold setAuthEnvironmentM, setAuthEnvironment. cbn [fst snd env].
      destruct (GetAuthProfile cfg (Project_AuthProfile p)); cbn [fst snd].
      * match goal with
        | |- context [check_project w cfg p ?l' ?s] =>
            destruct (check_project_accounts w cfg p l' s) as (_ & _ & _ & ->)
        end.
        cbn. lia.
      * cbn. lia.
    + match goal with
      | |- context [check_project w cfg p ?l' ?s] =>
          destruct (check_project_accounts w cfg p l' s) as (_ & _ & _ & ->)
      end.
      lia.
Qed.

Lemma run_projects_deferred (projects : list Project) (l : Locals) (st : St) :
  deferred (run_projects w cfg projects l st).1
  = (deferred l + length (List.filter (applies_profile cfg) projects))%nat.
Proof.
  unfold run_projects. revert l st.
  induction projects as [|p projects IH]; intros l st; cbn [for_each List.filter].
  - cbn. lia.
  - unfold bind. rewrite IH, process_project_deferred.
    destruct (applies_profile cfg p); cbn [length]; lia.
Qed.

End Return.

Section At_return.
Import Os Config World Terraform Notifier Detector Spec Credentials.

(** When terraform is found and some project's turn applies a credential
    profile, none of the ten variables of [cleared_variables] is set when
    [RunWithResult] has returned. *)
Theorem fixed_variables_unset_at_return (w : World) (cfg : Config) (st : St)
    (p : Project) (k : string) :
  terraform_version w = RunOk ->
  p ∈ Projects cfg -> applies_profile cfg p = true ->
  k ∈ cleared_variables ->
  env (RunWithResult w cfg st).2 !! k = None.
Proof.
  intros Hv Hp Happ Hk.
  remember (RunWithResult w cfg st) as res eqn:Hres.
  unfold RunWithResult, ValidateTerraformInstallation in Hres. rewrite Hv in Hres.
  exec in Hres.
  set (st1 := {| env := env st; requests := _; trace := _ |}) in Hres. clearbody st1.
  pose proof (run_projects_deferred w cfg (Projects cfg)
                {| hasErrors := false; driftFound := false; deferred := 0 |} st1) as Hd.
  cbn [deferred] in Hd.
  assert (Hpos : (0 < length (List.filter (applies_profile cfg) (Projects cfg)))%nat).
  { assert (Hin : p ∈ List.filter (applies_profile cfg) (Projects cfg)).
    { apply list_elem_of_In, List.filter_In. split; [by apply list_elem_of_In | exact Happ]. }
    destruct (List.filter _ _); [by apply elem_of_nil in Hin | cbn; lia]. }
  set (r := run_projects w cfg (Projects cfg) _ st1) in *. clearbody r.
  destruct r as [l st2]. cbn [fst snd] in *.
  subst res. destruct (hasErrors l); cbn [snd];
    apply cleared_after_deferred; first [lia | done].
Qed.

(** On [Examples.two_projects], whose first project applies an AWS
    profile. *)
Lemma fixed_variables_unset_at_return_witness :
  env (RunWithResult Examples.calm Examples.two_projects Examples.start).2
    !! "AWS_SECRET_ACCESS_KEY"%string = None.
Proof.
  apply (fixed_variables_unset_at_return Examples.calm Examples.two_projects
           Examples.start Examples.project_a "AWS_SECRET_ACCESS_KEY" eq_refl).
  - apply list_elem_of_here.
  - reflexivity.
  - apply list_elem_of_further, list_elem_of_here.
Defined.

End At_return.

(** ** More on the run lock *)

Section Lock_more.
Import Config Lock.

(** After a successful [Acquire] at time [now], an [Acquire] at any time
    up to an hour later fails with the already-running error and changes
    nothing. *)
Theorem Acquire_excludes (fl fl' fl2 : FileLock) (pid pid2 now now2 : Z) (fs fs' : FS)
    (ops : list FsOp) :
  Acquire fl pid now fs = (None, fl', fs', ops) ->
  now2 - now <= Hour ->
  Acquire fl2 pid2 now2 fs' = (Some (already_running fl2), fl2, fs', [OpStat]).
Proof.
  intros Hacq Hfresh.
  assert (Hm : exists c, marker fs' = Some {| ModTime := now; content := c |}).
  { unfold Acquire, create_marker, os_OpenFile_excl in Hacq.
    destruct (marker fs) as [info|] eqn:Hinfo.
    - destruct (Hour <? Since now (ModTime info)); [|discriminate].
      unfold os_Remove in Hacq. rewrite Hinfo in Hacq.
      destruct (dir_writable fs); cbn in Hacq.
      + injection Hacq as _ <- _. cbn. eauto.
      + rewrite Hinfo in Hacq. discriminate.
    - destruct (dir_writable fs); cbn in Hacq; [|discriminate].
      injection Hacq as _ <- _. cbn. eauto. }
  destruct Hm as [c Hm].
  unfold Acquire. rewrite Hm, stale_iff. cbn [ModTime].
  by destruct (Z.ltb_spec Hour (now2 - now)); [lia|].
Qed.

(** Acquiring with no marker in a writable directory, then again ten
    minutes later. *)
Lemma Acquire_excludes_witness :
  Acquire {| lockPath := "/tmp/terradrift-watcher.lock"; file := false |} 43
    (600 * Second)
    {| marker := Some {| ModTime := 0; content := [(42, 0)] |}; dir_writable := true |}
  = (Some "another instance is already running (lock file: /tmp/terradrift-watcher.lock)"%string,
     {| lockPath := "/tmp/terradrift-watcher.lock"; file := false |},
     {| marker := Some {| ModTime := 0; content := [(42, 0)] |}; dir_writable := true |},
     [OpStat]).
Proof.
  apply (Acquire_excludes {| lockPath := "/tmp/terradrift-watcher.lock"; file := false |}
           {| lockPath := "/tmp/terradrift-watcher.lock"; file := true |}
           {| lockPath := "/tmp/terradrift-watcher.lock"; file := false |}
           42 43 0 (600 * Second)
           {| marker := None; dir_writable := true |}
           {| marker := Some {| ModTime := 0; content := [(42, 0)] |};
              dir_writable := true |}
           [OpStat; OpCreate; OpWrite]); [reflexivity | vm_compute; discriminate].
Defined.

(** [Release] with no marker in place is no error and changes nothing on
    disk; in a writable directory [Release] removes the marker, and a
    second [Release] is the first case. *)
Theorem Release_idempotent (fl : FileLock) (fs : FS) :
  (marker fs = None -> Release fl fs = (None, {| lockPath := lockPath fl; file := false |}, fs))
  /\ (dir_writable fs = true ->
      (Release fl fs).1.1 = None
      /\ marker (Release fl fs).2 = None
      /\ Release (Release fl fs).1.2 (Release fl fs).2 = Release fl fs).
Proof.
  destruct fs as [m wr]. cbn [marker dir_writable]. split.
  - intros ->. reflexivity.
  - intros ->. destruct m; repeat split; reflexivity.
Qed.

End Lock_more.

(** ** What the plan summary holds *)

Section Summary_more.
Import GoStrings World Terraform Spec.

Lemma scan_line_ok (lines : list string) (n i : Z) (line : string) (s : Scan) :
  In line lines -> scan_ok lines s -> scan_ok lines (scan_line n i line s).
Proof.
  intros Hin (Hlen & Hch & Hsum). unfold scan_line.
  assert (Hsum1 : Forall (captured_from looks_like_summary lines)
                    (if is_summary_line line then summary s ++ [TrimSpace line]
                     else summary s)).
  { destruct (is_summary_line line) eqn:Hs; [|exact Hsum].
    apply Forall_app. split; [exact Hsum|]. constructor; [|constructor].
    exists line. by repeat split. }
  destruct (Contains line "Terraform will perform the following actions:").
  { by repeat split. }
  unfold scan_ok. cbn [summary resourceChanges captureChanges].
  set (c1 := if captureChanges s && (length (resourceChanges s) <? 10)%nat
                && has_change_marker (TrimSpace line)
             then resourceChanges s ++ [TrimSpace line] else resourceChanges s).
  assert (H1 : (length c1 <= 10)%nat /\ Forall (captured_from looks_like_entry lines) c1).
  { subst c1. destruct (captureChanges s); cbn [andb]; [|by split].
    destruct (Nat.ltb_spec (length (resourceChanges s)) 10); cbn [andb]; [|by split].
    destruct (has_change_marker (TrimSpace line)) eqn:Hmark; [|by split].
    split; [rewrite length_app; cbn; lia|].
    apply Forall_app. split; [exact Hch|]. constructor; [|constructor].
    exists line. repeat split; [exact Hin|]. unfold looks_like_entry. by rewrite Hmark. }
  destruct H1 as [Hlen1 Hch1]. clearbody c1.
  split; [|split; [|exact Hsum1]].
  - destruct (names_a_change line); cbn [andb]; [|exact Hlen1].
    destruct (Nat.ltb_spec (length c1) 10); cbn beta iota; [|exact Hlen1].
    rewrite length_app. cbn. lia.
  - destruct (names_a_change line) eqn:Hname; cbn [andb]; [|exact Hch1].
    destruct (length c1 <? 10)%nat; [|exact Hch1].
    apply Forall_app. split; [exact Hch1|]. constructor; [|constructor].
    exists line. repeat split; [exact Hin|]. unfold looks_like_entry.
    by rewrite Hname, orb_true_r.
Qed.

Lemma scan_lines_ok (lines : list string) (n : Z) (rest : list string) :
  forall (i : Z) (s : Scan),
    (forall line, In line rest -> In line lines) ->
    scan_ok lines s -> scan_ok lines (scan_lines n i rest s).
Proof.
  induction rest as [|line rest IH]; intros i s Hsub Hok; cbn [scan_lines]; [exact Hok|].
  apply IH; [intros l Hl; apply Hsub; by right|].
  apply scan_line_ok; [apply Hsub; by left | exact Hok].
Qed.

(** Whatever the plan output, [ExtractPlanSummary] lists at most ten
    entries; each is the trimmed text of a line of the output that begins
    (once trimmed) with [#], [~], [+] or [-], or that holds "will be" and
    one of "created", "destroyed", "updated", "replaced"; and each summary
    line is the trimmed text of a line that holds "Plan:", "No changes",
    "to add", "to change" or "to destroy". *)
Theorem summary_entries (planOutput : string) :
  (length (resourceChanges (scan planOutput)) <= 10)%nat
  /\ Forall (captured_from looks_like_entry (SplitLines planOutput))
       (resourceChanges (scan planOutput))
  /\ Forall (captured_from looks_like_summary (SplitLines planOutput))
       (summary (scan planOutput)).
Proof.
  unfold scan. apply scan_lines_ok; [done|].
  repeat split; cbn; first [lia | constructor].
Qed.

End Summary_more.

(** ** End-to-end runs *)

Section Scenarios.
Import Os Config World Terraform Notifier Detector Spec.

(** One enabled project whose plan exits with 0: no drift, no error, no
    request. *)
Theorem scenario_clean :
  (RunWithResult Examples.calm Examples.one_project Examples.start).1 = (false, None)
  /\ posts (trace (RunWithResult Examples.calm Examples.one_project Examples.start).2) = [].
Proof. split; vm_compute; reflexivity. Qed.

(** One enabled project whose plan exits with 2, one Slack channel that
    answers 200 at once: drift, no error, one request, no wait. *)
Theorem scenario_drift_notified :
  (RunWithResult Examples.drifted Examples.one_project Examples.start).1 = (true, None)
  /\ length (posts (trace (RunWithResult Examples.drifted Examples.one_project
                             Examples.start).2)) = 1%nat
  /\ waits (trace (RunWithResult Examples.drifted Examples.one_project Examples.start).2)
     = [].
Proof. repeat split; vm_compute; reflexivity. Qed.

(** One project whose plan exits with 2, one channel that always answers
    500: four requests (the engine passes three retries), waits of 1, 2
    and 4 seconds, and a result with both the drift flag and the error. *)
Theorem scenario_drift_unnotified :
  (RunWithResult Examples.drifted_webhook_down Examples.one_project Examples.start).1
  = (true, Some completed_with_errors)
  /\ length (posts (trace (RunWithResult Examples.drifted_webhook_down
                             Examples.one_project Examples.start).2)) = 4%nat
  /\ waits (trace (RunWithResult Examples.drifted_webhook_down Examples.one_project
                     Examples.start).2)
     = [1 * Notifier.Second; 2 * Notifier.Second; 4 * Notifier.Second]
  /\ List.existsb is_unnotified_warning
       (trace (RunWithResult Examples.drifted_webhook_down Examples.one_project
                 Examples.start).2) = true.
Proof. repeat split; vm_compute; reflexivity. Qed.

End Scenarios.

(** * Further properties *)

(** ** The comparator, on every input *)

Section CheckDrift_total.
Import Os Config World Terraform Detector Spec Vocabulary.

(** The error [runTerraformInit] returns is nil exactly when the command
    succeeded. *)
Lemma runTerraformInit_error (w : World) (path : string) (st : St) :
  (runTerraformInit w path st).1.2 = None
  <-> (terraform_init w path (buildEnv (env st))).1 = RunOk.
Proof.
  unfold runTerraformInit.
  destruct (lockfile_found w path); exec;
    destruct (terraform_init w path (buildEnv (env st))) as [[| |] output];
    cbn [fst snd];
    repeat (match goal with |- context [if ?b then _ else _] => destruct b end);
    cbn [fst snd]; split; intros H; first [reflexivity | discriminate].
Qed.

Lemma runTerraformInit_frame (w : World) (path : string) (st : St) :
  env (runTerraformInit w path st).2 = env st
  /\ requests (runTerraformInit w path st).2 = requests st.
Proof.
  unfold runTerraformInit.
  destruct (lockfile_found w path); exec;
    destruct (terraform_init w path (buildEnv (env st))) as [[| |] output];
    cbn [fst snd];
    repeat (match goal with |- context [if ?b then _ else _] => destruct b end);
    split; reflexivity.
Qed.

(** [runTerraformPlan]: the error is nil exactly for the codes 0 and 2. *)
Lemma runTerraformPlan_error (w : World) (path : string) (st : St) :
  (runTerraformPlan w path st).1.2 = None
  <-> ((runTerraformPlan w path st).1.1.2 = 0 \/ (runTerraformPlan w path st).1.1.2 = 2).
Proof.
  unfold runTerraformPlan. exec.
  destruct (terraform_plan w path (buildEnv (env st))) as [[|code msg|msg] output];
    cbn [fst snd].
  - split; [by left | done].
  - destruct (Z.eqb_spec code 2) as [->|Hne2]; cbn [fst snd]; [split; [by right | done]|].
    destruct (Z.eqb_spec code 0) as [->|Hne0]; cbn [negb fst snd];
      [split; [by left | done]|].
    split; [discriminate | intros [?|?]; lia].
  - split; [discriminate | intros [?|?]; lia].
Qed.

(** Whatever the path and the world (missing path, failed init, a plan
    that does not start, any exit code), the error [CheckDrift] returns is
    nil exactly when the exit code it returns is 0 or 2. *)
Theorem CheckDrift_error_iff_code (w : World) (path : string) (st : St) :
  (CheckDrift w path st).1.2 = None
  <-> ((CheckDrift w path st).1.1.2 = 0 \/ (CheckDrift w path st).1.1.2 = 2).
Proof.
  unfold CheckDrift, cleanupLockFiles. destruct (path_missing w path).
  { cbn. split; [discriminate | intros [?|?]; lia]. }
  exec.
  destruct (runTerraformInit w path st) as [[out [e|]] st1]; cbn [fst snd].
  { split; [discriminate | intros [?|?]; lia]. }
  pose proof (runTerraformPlan_error w path st1) as Hp.
  destruct (runTerraformPlan w path st1) as [[[pout code] [e|]] st2]; cbn [fst snd] in *.
  - destruct (Z.eqb_spec code 2) as [->|Hne]; cbn [negb fst snd].
    + exfalso. destruct Hp as [_ Hp]. discriminate Hp. by right.
    + split; [discriminate | intros H; apply Hp in H; discriminate].
  - exact Hp.
Qed.

End CheckDrift_total.

Section Unexpected.
Import Os Config World Terraform Notifier Detector Spec Vocabulary.
Context (w : World) (cfg : Config).

Lemma command_expected (e : Event) : is_command e = true -> expected e = true.
Proof. by destruct e as [[]| | | |]. Qed.

Lemma delivery_expected (e : Event) : is_delivery e = true -> expected e = true.
Proof. by destruct e as [[]| | | |]. Qed.

Lemma writes_on_drift_expected (p : Project) (planOutput : string) (l : Locals) :
  writes expected (on_drift w cfg p planOutput l).
Proof.
  unfold on_drift, print_details, log.
  repeat first
    [ apply writes_for_each; intros ? ?; unfold notify_one, log
    | eapply writes_mono; [exact delivery_expected | apply writes_sendNotification]
    | writes_step ].
Qed.

Lemma writes_check_project_expected (p : Project) (l : Locals) :
  writes expected (check_project w cfg p l).
Proof.
  intros st. unfold check_project, bind.
  destruct (writes_mono expected is_command _ command_expected
              (writes_CheckDrift w (Project_Path p)) st) as (n1 & H1 & F1).
  pose proof (CheckDrift_error_iff_code w (Project_Path p) st) as Hcode.
  destruct (CheckDrift w (Project_Path p) st) as [[[planOutput exitCode] err] st1].
  cbn [fst snd] in *. unfold classify.
  destruct (Z.eqb_spec exitCode 0) as [H0|H0].
  - exists (n1 ++ [Log (LogNoDrift (Project_Name p))]). cbn. rewrite H1, app_assoc.
    split; [done|]. apply Forall_app. split; [exact F1 | by repeat constructor].
  - destruct (Z.eqb_spec exitCode 2) as [H2|H2].
    + destruct (writes_on_drift_expected p planOutput l st1) as (n2 & H2' & F2).
      exists (n1 ++ n2). rewrite H2', H1, app_assoc. split; [done|].
      by apply Forall_app.
    + destruct err as [e|]; [| exfalso; destruct (proj1 Hcode eq_refl); lia].
      exists (n1 ++ [Log (LogCheckError (Project_Name p) e planOutput)]).
      cbn. rewrite H1, app_assoc. split; [done|].
      apply Forall_app. split; [exact F1 | by repeat constructor].
Qed.

Lemma writes_process_project_expected (p : Project) (l : Locals) :
  writes expected (process_project w cfg p l).
Proof.
  unfold process_project, log.
  repeat first
    [ apply writes_check_project_expected
    | apply writes_bind; [| intros ?]
    | apply writes_emit; reflexivity
    | apply writes_ret
    | match goal with
      | |- writes _ (setAuthEnvironmentM _ _) =>
          intros st; exists []; cbn; by rewrite app_nil_r
      | |- writes _ (match ?x with _ => _ end) => destruct x
      end ].
Qed.

Lemma writes_run_deferred (p : Event -> bool) (n : nat) : writes p (run_deferred n).
Proof.
  induction n as [|n IH]; cbn [run_deferred]; [apply writes_ret|].
  apply writes_bind; [apply writes_modify_env | intros _; exact IH].
Qed.

Lemma forall_none (p q : Event -> bool) (new : list Event) :
  (forall e, p e = true -> q e = false) ->
  Forall (fun e => p e = true) new -> List.existsb q new = false.
Proof.
  intros Hpq. induction 1 as [|e new He _ IH]; [done|].
  cbn [List.existsb]. by rewrite IH, (Hpq e He).
Qed.

(** The engine's arm for a check that ends with an unexpected exit code
    and no error is never taken: no run logs that line. *)
Theorem unexpected_exit_never_logged (st : St) :
  List.existsb is_unexpected_exit (new_events st (RunWithResult w cfg st).2) = false.
Proof.
  assert (Hw : writes expected (RunWithResult w cfg)).
  { unfold RunWithResult, run_projects, log.
    repeat first
      [ eapply writes_mono; [exact command_expected | apply writes_Validate]
      | apply writes_for_each; intros ? ?; apply writes_process_project_expected
      | apply writes_run_deferred
      | writes_step ]. }
  destruct (Hw st) as (new & Hnew & F).
  rewrite (new_events_app st _ new Hnew).
  apply (forall_none expected); [|exact F].
  intros e. unfold expected. by destruct (is_unexpected_exit e).
Qed.

End Unexpected.

Section CheckDrift_effects.
Import Os Config World Terraform Detector Spec Vocabulary.


(** Reads the new events off a state whose trace is written out. *)
Ltac read_new_events :=
  unfold new_events; cbn [trace snd]; rewrite <- ?app_assoc;
  rewrite ?drop_app_length, ?drop_all.

(** Breaks [CheckDrift] into the cases of the world's answers. *)
Ltac checkdrift_cases w path st :=
  unfold CheckDrift, runTerraformInit, runTerraformPlan, cleanupLockFiles;
  destruct (path_missing w path); cbn [negb andb];
  [ exec | destruct (lockfile_found w path); exec;
     (destruct (terraform_init w path (buildEnv (env st))) as [[| |] output];
      cbn [fst snd];
      repeat (match goal with
              | |- context [GoStrings.Contains ?a ?b] =>
                  destruct (GoStrings.Contains a b); cbn [orb]
              end);
      cbn [fst snd]; exec);
     try (destruct (terraform_plan w path (buildEnv (env st))) as [[|code msg|msg] pout];
          cbn [fst snd Z.eqb Pos.eqb negb];
          try (destruct (Z.eqb_spec code 2) as [->|?]; cbn [negb fst snd];
               [| destruct (Z.eqb_spec code 0) as [->|?]; cbn [negb fst snd];
                  try (destruct (Z.eqb_spec code 2); [lia|cbn [negb]])]);
          exec) ].


(** [CheckDrift] asks for the removal of the state lock file exactly when
    the path exists and it returns an error: after a failed init or a
    failed plan, not after a plan that exits with 0 or 2. *)
Theorem CheckDrift_cleanup (w : World) (path : string) (st : St) :
  List.existsb is_cleanup (new_events st (CheckDrift w path st).2)
  = negb (path_missing w path)
    && match (CheckDrift w path st).1.2 with Some _ => true | None => false end.
Proof.
  checkdrift_cases w path st; read_new_events; reflexivity.
Qed.

End CheckDrift_effects.

(** ** Requests go out for drift only *)

Section Offline.
Import Os Config World Terraform Notifier Detector Spec Vocabulary.
Context (w : World) (cfg : Config).

Lemma command_off_network (e : Event) : is_command e = true -> off_network e = true.
Proof. by destruct e as [[]| | | |]. Qed.

Lemma offline_app (a b : list Event) :
  offline_or_drift a -> offline_or_drift b -> offline_or_drift (a ++ b).
Proof.
  unfold offline_or_drift. rewrite drift_logged_app.
  intros [Fa|Da] [Fb|Db]; rewrite ?Da, ?Db, ?orb_true_r; auto.
  left. by apply Forall_app.
Qed.

Lemma offline_writes {A : Type} (m : M A) :
  writes off_network m -> offline_unless_drift m.
Proof. intros H st. destruct (H st) as (new & E & F). exists new. split; [done | by left]. Qed.

Lemma offline_bind {A B : Type} (m : M A) (f : A -> M B) :
  offline_unless_drift m -> (forall a, offline_unless_drift (f a)) ->
  offline_unless_drift (bind m f).
Proof.
  intros Hm Hf st. unfold bind.
  destruct (Hm st) as (n1 & E1 & O1).
  destruct (Hf (m st).1 (m st).2) as (n2 & E2 & O2).
  exists (n1 ++ n2). rewrite E2, E1, app_assoc. split; [done | by apply offline_app].
Qed.

Lemma offline_for_each {A B : Type} (f : A -> B -> M B) (xs : list A) (b : B) :
  (forall x b', offline_unless_drift (f x b')) -> offline_unless_drift (for_each f xs b).
Proof.
  intros Hf. revert b. induction xs as [|x xs IH]; intros b; cbn [for_each].
  - apply offline_writes, writes_ret.
  - apply offline_bind; [apply Hf | exact IH].
Qed.

Lemma on_drift_alerts (p : Project) (planOutput : string) (l : Locals) :
  offline_unless_drift (on_drift w cfg p planOutput l).
Proof.
  intros st.
  destruct (on_drift_accounts w cfg p planOutput l st) as (new & E & _).
  exists new. split; [exact E|]. right.
  unfold on_drift in E.
  lazymatch type of E with
  | trace (bind (log ?a) ?k st).2 = _ =>
      assert (HK : writes (fun _ => true) (k tt))
  end.
  { unfold print_details, log.
    repeat first
      [ apply writes_for_each; intros ? ?; unfold notify_one, log
      | eapply writes_mono; [| apply writes_sendNotification]; [done]
      | writes_step ]. }
  unfold bind at 1 in E.
  match type of E with trace (_ ?s).2 = _ => destruct (HK s) as (n & En & _) end.
  cbv beta in E. rewrite En in E. unfold log, emit in E. cbn [fst snd trace] in E.
  rewrite <- app_assoc in E. apply app_inv_head in E. by subst new.
Qed.

Lemma check_project_offline (p : Project) (l : Locals) :
  offline_unless_drift (check_project w cfg p l).
Proof.
  unfold check_project. apply offline_bind.
  - apply offline_writes.
    eapply writes_mono; [exact command_off_network | apply writes_CheckDrift].
  - intros [[planOutput exitCode] err]. cbn [fst snd]. destruct (classify exitCode).
    + apply offline_writes. unfold log. repeat writes_step.
    + apply on_drift_alerts.
    + apply offline_writes. unfold log. repeat writes_step.
Qed.

Lemma process_project_offline (p : Project) (l : Locals) :
  offline_unless_drift (process_project w cfg p l).
Proof.
  unfold process_project, log.
  repeat first
    [ apply check_project_offline
    | apply offline_bind; [| intros ?]
    | apply offline_writes; first
        [ apply writes_emit; reflexivity
        | apply writes_ret
        | intros st; exists []; cbn; by rewrite app_nil_r ]
    | match goal with
      | |- offline_unless_drift (match ?x with _ => _ end) => destruct x
      end ].
Qed.

(** A run whose drift flag is false has sent no request and has waited
    for no retry: requests go out for drifted projects only. *)
Theorem no_drift_no_request (st : St) :
  (RunWithResult w cfg st).1.1 = false ->
  List.existsb is_network (new_events st (RunWithResult w cfg st).2) = false.
Proof.
  remember (RunWithResult w cfg st) as res eqn:Hres.
  unfold RunWithResult, ValidateTerraformInstallation in Hres.
  destruct (terraform_version w).
  2,3: subst res; intros _; unfold new_events; exec;
       by rewrite drop_app_length.
  exec in Hres.
  set (st1 := {| env := env st; requests := _; trace := _ |}) in Hres.
  assert (Ht1 : trace st1
                = trace st ++ [Exec ["version"] EmptyString (env st); Log LogStart]).
  { subst st1. cbn [trace]. by rewrite <- app_assoc. }
  clearbody st1.
  destruct (run_projects_accounts w cfg (Projects cfg)
              {| hasErrors := false; driftFound := false; deferred := 0 |} st1)
    as (n & Hn & _ & D & _).
  destruct (offline_for_each (process_project w cfg) (Projects cfg)
              {| hasErrors := false; driftFound := false; deferred := 0 |}
              process_project_offline st1) as (n' & Hn' & O).
  unfold run_projects in *.
  rewrite Hn in Hn'. apply app_inv_head in Hn'. subst n'.
  set (r := for_each _ (Projects cfg) _ st1) in *. clearbody r.
  destruct r as [l st2]. cbn [fst snd hasErrors driftFound orb] in *.
  assert (Hnew : new_events st res.2
                 = [Exec ["version"] EmptyString (env st); Log LogStart] ++ n
                   ++ [Log LogCompleted]).
  { apply new_events_app. subst res.
    destruct (hasErrors l); cbn [snd]; rewrite run_deferred_trace; cbn [trace];
      by rewrite Hn, Ht1, <- !app_assoc. }
  intros Hflag. rewrite Hnew, !existsb_app. cbn [List.existsb is_network orb].
  rewrite orb_false_r.
  assert (Hd : driftFound l = false) by (subst res; by destruct (hasErrors l)).
  destruct O as [F|Dn]; [| congruence].
  apply (forall_none off_network); [| exact F].
  intros e. unfold off_network. by destruct (is_network e).
Qed.

End Offline.

Lemma no_drift_no_request_witness :
  List.existsb Vocabulary.is_network
    (Spec.new_events Examples.start
       (Detector.RunWithResult Examples.calm Examples.one_project Examples.start).2)
  = false.
Proof. apply (no_drift_no_request Examples.calm Examples.one_project). by vm_compute. Defined.

(** ** Delivery: bounds and edge cases *)

Section Delivery.
Import Os Config World Notifier Detector Spec Vocabulary.

(** The retrying send, by cases: some attempt is the first to succeed, or
    all fail. *)
Lemma retry_cases (w : World) (url pn ds po : string) (mr : Z) (st : St) :
  0 <= mr ->
  exists m : nat,
    (1 <= m <= S (Z.to_nat mr))%nat
    /\ attempted w url st (SendSlackRichNotificationWithRetry w url pn ds po mr st).2 0 m
    /\ (((SendSlackRichNotificationWithRetry w url pn ds po mr st).1 = None
         /\ first_success w url (requests st) (m - 1))
        \/ (m = S (Z.to_nat mr)
            /\ (forall i, (i < m)%nat -> is_Some (outcome w url (requests st) i))
            /\ (SendSlackRichNotificationWithRetry w url pn ds po mr st).1
               = Some ("failed after " ++ pretty (Int64.wrap (mr + 1)) ++ " retries: "
                       ++ show_error (outcome w url (requests st) (Z.to_nat mr)))%string)).
Proof.
  intros Hmr. unfold SendSlackRichNotificationWithRetry.
  replace (Z.to_nat (mr + 1)) with (S (Z.to_nat mr)) by lia.
  destruct (first_success_or_none w url (requests st) (S (Z.to_nat mr)))
    as [(j & Hj & Hs)|Hall].
  - destruct (retry_loop_success w url pn ds po mr j (S (Z.to_nat mr)) 0 None st Hj Hs)
      as [Hr Ha].
    change (Z.of_nat 0) with 0 in Hr, Ha.
    exists (S j). cbn [Nat.sub]. rewrite Nat.sub_0_r.
    split; [lia|]. split; [exact Ha|]. by left.
  - destruct (retry_loop_exhausted w url pn ds po mr (S (Z.to_nat mr)) 0 None st Hall)
      as [Hr Ha].
    change (Z.of_nat 0) with 0 in Hr, Ha.
    exists (S (Z.to_nat mr)). split; [lia|]. split; [exact Ha|]. right. done.
Qed.

Lemma unreachable_fails (w : World) (url : string) (n0 i : nat) :
  reaches_network w url = false ->
  outcome w url n0 i = attempt_outcome w url n0
  /\ is_Some (attempt_outcome w url n0).
Proof.
  unfold outcome, reaches_network, attempt_outcome. intros H. rewrite H.
  split; [reflexivity|].
  destruct (String.eqb url ""); [by eexists|].
  destruct (new_request_error w url); [by eexists | discriminate].
Qed.

(** Whatever the notifier and whatever the webhook answers, one
    [sendNotification] sends at most four requests and counts each of them,
    sleeps for the first waits of 1 s, 2 s, 4 s and for nothing else, and
    leaves the environment alone. *)
Theorem sendNotification_bounded (w : World) (cfg : Config)
    (name pn s po : string) (st : St) :
  (length (posts (new_events st (sendNotification w cfg name pn s po st).2)) <= 4)%nat
  /\ requests (sendNotification w cfg name pn s po st).2
     = (requests st
        + length (posts (new_events st (sendNotification w cfg name pn s po st).2)))%nat
  /\ (exists k, waits (new_events st (sendNotification w cfg name pn s po st).2)
                = take k engine_waits)
  /\ env (sendNotification w cfg name pn s po st).2 = env st.
Proof.
  assert (Hstay : forall (r : option error) (evs : list Event),
            (length evs <= 1)%nat -> Forall (fun e => off_network e = true) evs ->
            (length (posts (new_events st (r, with_events st evs).2)) <= 4)%nat
            /\ requests (r, with_events st evs).2
               = (requests st + length (posts (new_events st (r, with_events st evs).2)))%nat
            /\ (exists k, waits (new_events st (r, with_events st evs).2)
                          = take k engine_waits)
            /\ env (r, with_events st evs).2 = env st).
  { intros r evs Hlen Hoff. cbn [snd].
    rewrite (new_events_app st (with_events st evs) evs eq_refl).
    destruct evs as [|e [|? ?]]; [| |cbn in Hlen; lia].
    - cbn. split; [lia|]. split; [lia|]. split; [by exists 0%nat | done].
    - apply Forall_inv in Hoff.
      destruct e as [[]| | | |]; try discriminate; cbn;
        (split; [lia|]); (split; [lia|]); (split; [by exists 0%nat | done]). }
  assert (Hnil : forall r : option error, (r, st) = (r, with_events st [])).
  { intros r. unfold with_events. rewrite app_nil_r. by destruct st. }
  unfold sendNotification.
  destruct (GetNotifier cfg name) as [n|e].
  2: { unfold ret. rewrite Hnil. apply Hstay; [cbn; lia | constructor]. }
  destruct (explicitly_disabled (Notifier_Enabled n)).
  { apply (Hstay None [Log (LogSkipNotifier name)]); [cbn; lia | by repeat constructor]. }
  destruct (String.eqb (Notifier_Type n) "slack").
  - destruct (Notifier_Config n !! SlackWebhookURL) as [url|].
    2: { unfold ret. rewrite Hnil. apply Hstay; [cbn; lia | constructor]. }
    destruct (retry_cases w url pn s po 3 st ltac:(lia))
      as (m & Hm & (new & T & R & W & P & Q & E) & _).
    rewrite (new_events_app _ _ _ T), P, Q, W, E, retry_numbers_0.
    change (Z.to_nat 3) with 3%nat in Hm.
    split; [destruct (reaches_network w url); lia|]. split; [reflexivity|].
    split; [| reflexivity].
    exists (m - 1)%nat.
    destruct m as [|[|[|[|[|m]]]]]; try lia; by vm_compute.
  - destruct (String.eqb (Notifier_Type n) "teams").
    { apply (Hstay None [Log (LogTeamsNotImplemented name)]);
        [cbn; lia | by repeat constructor]. }
    destruct (String.eqb (Notifier_Type n) "email").
    { apply (Hstay None [Log (LogEmailNotImplemented name)]);
        [cbn; lia | by repeat constructor]. }
    unfold ret. rewrite Hnil. apply Hstay; [cbn; lia | constructor].
Qed.

(** A webhook URL that is empty, or that [http.NewRequest] refuses, is no
    less retried: every one of the [maxRetries + 1] attempts is made and
    every retry is waited for, no request goes out, and the error that is
    returned wraps the attempt's. *)
Theorem unusable_url_is_retried (w : World) (url pn ds po : string) (maxRetries : Z)
    (st : St) :
  reaches_network w url = false ->
  0 <= maxRetries < Int64.max_int ->
  (SendSlackRichNotificationWithRetry w url pn ds po maxRetries st).1
  = Some ("failed after " ++ pretty (maxRetries + 1) ++ " retries: "
          ++ show_error (attempt_outcome w url (requests st)))%string
  /\ is_Some (attempt_outcome w url (requests st))
  /\ waits (new_events st (SendSlackRichNotificationWithRetry w url pn ds po maxRetries st).2)
     = List.map (fun a => backoff (Z.of_nat a)) (seq 1 (Z.to_nat maxRetries))
  /\ posts (new_events st (SendSlackRichNotificationWithRetry w url pn ds po maxRetries st).2)
     = []
  /\ requests (SendSlackRichNotificationWithRetry w url pn ds po maxRetries st).2
     = requests st.
Proof.
  intros Hun Hmr.
  destruct (retry_cases w url pn ds po maxRetries st ltac:(lia))
    as (m & Hm & Ha & [[_ [_ Hok]]|(-> & _ & Hr)]).
  { destruct (unreachable_fails w url (requests st) (m - 1) Hun) as [Ho [e He]].
    congruence. }
  destruct (unreachable_fails w url (requests st) (Z.to_nat maxRetries) Hun) as [Ho Hs].
  rewrite Hr, Ho, wrap_small by (unfold Int64.min_int, Int64.max_int in *; lia).
  split; [reflexivity|]. split; [exact Hs|].
  destruct Ha as (new & T & R & W & P & Q & E).
  rewrite (new_events_app _ _ _ T), W, Q, retry_numbers_0, Hun, List.map_map.
  rewrite Hun in P. cbn [Nat.sub]. rewrite Nat.sub_0_r.
  split; [reflexivity|]. split; [| lia].
  by apply length_zero_iff_nil.
Qed.

(** [sendNotification] returns without having done anything at all, no
    line logged, no request, exactly when the notifier is misconfigured,
    and what it returns then is an error. *)
Theorem misconfigured_iff_untouched (w : World) (cfg : Config)
    (name pn s po : string) (st : St) :
  ((sendNotification w cfg name pn s po st).2 = st <-> misconfigured cfg name = true)
  /\ (misconfigured cfg name = true ->
      is_Some (sendNotification w cfg name pn s po st).1).
Proof.
  assert (Hgrow : forall (r : option error) (e : Event),
            (r, with_events st [e]).2 = st <-> false = true).
  { intros r e. split; [|discriminate]. cbn [snd]. intros H.
    apply (f_equal (fun x => length (trace x))) in H. cbn in H.
    rewrite length_app in H. cbn in H. lia. }
  unfold misconfigured, sendNotification.
  destruct (GetNotifier cfg name) as [n|e]; [| by split; [|eexists]].
  destruct (explicitly_disabled (Notifier_Enabled n)); cbn [negb andb].
  { split; [apply (Hgrow None) | discriminate]. }
  destruct (String.eqb (Notifier_Type n) "slack").
  - destruct (Notifier_Config n !! SlackWebhookURL) as [url|]; [| by split; [|eexists]].
    split; [| discriminate]. split; [| discriminate]. intros H.
    destruct (retry_cases w url pn s po 3 st ltac:(lia))
      as (m & Hm & (new & T & R & W & P & Q & E) & Hres).
    rewrite H in T, Q.
    assert (new = []) as ->.
    { apply (f_equal length) in T. rewrite length_app in T.
      destruct new; [done | cbn in T; lia]. }
    destruct (reaches_network w url) eqn:Hreach; [cbn in P; lia|].
    destruct Hres as [[_ [_ Hok]]|(-> & _ & _)].
    + destruct (unreachable_fails w url (requests st) (m - 1) Hreach) as [Ho [e He]].
      congruence.
    + rewrite retry_numbers_0 in R. discriminate R.
  - destruct (String.eqb (Notifier_Type n) "teams"); cbn [negb andb].
    { split; [apply (Hgrow None) | discriminate]. }
    destruct (String.eqb (Notifier_Type n) "email"); cbn [negb andb].
    { split; [apply (Hgrow None) | discriminate]. }
    by split; [|eexists].
Qed.

End Delivery.

Section Delivery_examples.
Import Os Config World Notifier Detector Spec Vocabulary.

(** The engine's three retries against an empty webhook URL: seven
    seconds of waiting for an error known at once. *)
Lemma unusable_url_is_retried_witness :
  (SendSlackRichNotificationWithRetry Examples.calm "" "d" "summary" "plan" 3
     Examples.start).1
  = Some "failed after 4 retries: webhook URL is empty"%string
  /\ waits (new_events Examples.start
              (SendSlackRichNotificationWithRetry Examples.calm "" "d" "summary" "plan" 3
                 Examples.start).2)
     = engine_waits.
Proof.
  destruct (unusable_url_is_retried Examples.calm "" "d" "summary" "plan" 3 Examples.start)
    as (Hr & _ & Hw & _).
  - reflexivity.
  - by vm_compute.
  - split; [rewrite Hr; by vm_compute | rewrite Hw; by vm_compute].
Defined.

End Delivery_examples.

(** ** The network budget of a run *)

Section Budget.
Import Os Config World Notifier Detector Spec Vocabulary.

Lemma sends_ret {A : Type} (a : A) : sends_at_most 0 (ret a).
Proof. intros st. cbn. lia. Qed.

Lemma sends_emit (e : Event) : sends_at_most 0 (emit e).
Proof. intros st. cbn. lia. Qed.

Lemma sends_get_env : sends_at_most 0 get_env.
Proof. intros st. cbn. lia. Qed.

Lemma sends_modify_env (f : Env -> Env) : sends_at_most 0 (modify_env f).
Proof. intros st. cbn. lia. Qed.

Lemma sends_weaken {A : Type} (n n' : nat) (m : M A) :
  (n <= n')%nat -> sends_at_most n m -> sends_at_most n' m.
Proof. intros Hn Hm st. specialize (Hm st). lia. Qed.

Lemma sends_bind {A B : Type} (n1 n2 : nat) (m : M A) (f : A -> M B) :
  sends_at_most n1 m -> (forall a, sends_at_most n2 (f a)) ->
  sends_at_most (n1 + n2) (bind m f).
Proof.
  intros Hm Hf st. unfold bind. specialize (Hm st).
  specialize (Hf (m st).1 (m st).2). lia.
Qed.

Lemma sends_then {A B : Type} (n : nat) (m : M A) (f : A -> M B) :
  sends_at_most 0 m -> (forall a, sends_at_most n (f a)) -> sends_at_most n (bind m f).
Proof. exact (sends_bind 0 n m f). Qed.

Lemma sends_first {A B : Type} (n : nat) (m : M A) (f : A -> M B) :
  sends_at_most n m -> (forall a, sends_at_most 0 (f a)) -> sends_at_most n (bind m f).
Proof.
  intros Hm Hf. apply (sends_weaken (n + 0)); [lia|]. by apply sends_bind.
Qed.

Lemma sends_when (n : nat) (c : bool) (m : M unit) :
  sends_at_most n m -> sends_at_most n (when c m).
Proof.
  intros Hm. destruct c; [exact Hm|].
  apply (sends_weaken 0); [lia | apply sends_ret].
Qed.

Lemma sends_for_each {X B : Type} (cost : X -> nat) (body : X -> B -> M B)
    (l : list X) (acc : B) :
  (forall x b, sends_at_most (cost x) (body x b)) ->
  sends_at_most (list_sum (List.map cost l)) (for_each body l acc).
Proof.
  intros Hbody. revert acc. induction l as [|x l IH]; intros acc; cbn [for_each].
  - apply sends_ret.
  - simpl. apply sends_bind; [apply Hbody | exact IH].
Qed.

End Budget.

Ltac sends_nothing :=
  repeat first
    [ apply sends_ret
    | apply sends_get_env
    | apply sends_emit
    | apply sends_modify_env
    | apply sends_when
    | apply sends_then; [| intros ?]
    | match goal with
      | |- Vocabulary.sends_at_most _ (match ?x with _ => _ end) => destruct x
      | |- Vocabulary.sends_at_most _ (if ?x then _ else _) => destruct x
      end ].

Section Budget_program.
Import Os Config World Terraform Notifier Detector Spec Vocabulary.
Context (w : World) (cfg : Config).

Lemma sends_CheckDrift (path : string) : sends_at_most 0 (CheckDrift w path).
Proof.
  unfold CheckDrift, runTerraformInit, runTerraformPlan, cleanupLockFiles, log.
  sends_nothing.
Qed.

Lemma sends_sendNotification (name pn s po : string) :
  sends_at_most 4 (sendNotification w cfg name pn s po).
Proof.
  unfold sendNotification.
  destruct (GetNotifier cfg name) as [n|e];
    [| apply (sends_weaken 0); [lia | apply sends_ret]].
  destruct (explicitly_disabled (Notifier_Enabled n));
    [apply (sends_weaken 0); [lia | unfold log; sends_nothing]|].
  destruct (String.eqb (Notifier_Type n) "slack").
  - destruct (Notifier_Config n !! SlackWebhookURL) as [url|];
      [| apply (sends_weaken 0); [lia | apply sends_ret]].
    intros st.
    destruct (retry_cases w url pn s po 3 st ltac:(lia))
      as (m & Hm & (new & T & R & W & P & Q & E) & _).
    rewrite Q. change (Z.to_nat 3) with 3%nat in Hm.
    destruct (reaches_network w url); lia.
  - apply (sends_weaken 0); [lia | unfold log; sends_nothing].
Qed.

Lemma sends_notify_one (pn s po name : string) (acc : bool * nat) :
  sends_at_most 4 (notify_one w cfg pn s po name acc).
Proof.
  unfold notify_one. apply sends_first; [apply sends_sendNotification|].
  intros [e|]; unfold log; sends_nothing.
Qed.

Lemma list_sum_const {X : Type} (c : nat) (l : list X) :
  list_sum (List.map (fun _ => c) l) = (c * length l)%nat.
Proof. induction l as [|x l IH]; simpl; lia. Qed.

Lemma sends_on_drift (p : Project) (planOutput : string) (l : Locals) :
  sends_at_most (4 * length (Project_Notifiers p)) (on_drift w cfg p planOutput l).
Proof.
  unfold on_drift, print_details, log.
  apply sends_then; [sends_nothing | intros _].
  apply sends_then; [sends_nothing | intros _].
  apply sends_then; [sends_nothing | intros _].
  apply sends_first; [| intros ?; sends_nothing].
  rewrite <- (list_sum_const 4 (Project_Notifiers p)).
  apply sends_for_each. intros name acc. apply sends_notify_one.
Qed.

Lemma sends_check_project (p : Project) (l : Locals) :
  sends_at_most (4 * length (Project_Notifiers p)) (check_project w cfg p l).
Proof.
  unfold check_project. apply sends_then; [apply sends_CheckDrift|].
  intros [[planOutput exitCode] err]. cbn [fst snd]. destruct (classify exitCode).
  - apply (sends_weaken 0); [lia | unfold log; sends_nothing].
  - apply sends_on_drift.
  - apply (sends_weaken 0); [lia | unfold log; sends_nothing].
Qed.

Lemma sends_setAuthEnvironmentM (name : string) :
  sends_at_most 0 (setAuthEnvironmentM cfg name).
Proof. intros st. cbn. lia. Qed.

Lemma sends_process_project (p : Project) (l : Locals) :
  sends_at_most (if explicitly_disabled (Project_Enabled p) then 0
                 else 4 * length (Project_Notifiers p))
    (process_project w cfg p l).
Proof.
  unfold process_project, log.
  destruct (explicitly_disabled (Project_Enabled p)); [sends_nothing|].
  apply sends_then; [sends_nothing | intros _].
  destruct (negb (String.eqb (Project_AuthProfile p) ""));
    [| apply sends_check_project].
  apply sends_then; [apply sends_setAuthEnvironmentM|].
  intros [e|]; [| apply sends_check_project].
  apply (sends_weaken 0); [lia | sends_nothing].
Qed.

Lemma sends_run_projects (projects : list Project) (l : Locals) :
  sends_at_most (4 * notifier_references projects) (run_projects w cfg projects l).
Proof.
  unfold run_projects.
  eapply sends_weaken; [| apply sends_for_each; intros p l'; apply sends_process_project].
  unfold notifier_references. clear l.
  induction projects as [|p projects IH]; simpl; [lia|].
  destruct (explicitly_disabled (Project_Enabled p)); simpl in *.
  - lia.
  - rewrite length_app. lia.
Qed.

Lemma sends_run_deferred (n : nat) : sends_at_most 0 (run_deferred n).
Proof. induction n as [|n IH]; cbn [run_deferred]; sends_nothing. exact IH. Qed.

(** A whole run sends at most four requests for each notifier name listed
    by a project that is not disabled, whatever terraform and the webhooks
    answer. *)
Theorem run_requests_bounded (st : St) :
  (requests st <= requests (RunWithResult w cfg st).2
   <= requests st + 4 * notifier_references (Projects cfg))%nat.
Proof.
  revert st. change (sends_at_most (4 * notifier_references (Projects cfg))
                       (RunWithResult w cfg)).
  unfold RunWithResult, ValidateTerraformInstallation, log.
  apply sends_then; [sends_nothing | intros verr].
  destruct verr; [apply (sends_weaken 0); [lia | apply sends_ret]|].
  apply sends_then; [sends_nothing | intros _].
  apply sends_first; [apply sends_run_projects | intros l].
  apply sends_then; [sends_nothing | intros _].
  apply sends_then; [apply sends_run_deferred | intros _].
  sends_nothing.
Qed.

End Budget_program.

(** ** Applying a credential profile *)

Section Profile_application.
Import Os Config Credentials.

Lemma Setenv_commute (k1 v1 k2 v2 : string) (env : Env) :
  k1 <> k2 -> Setenv k1 v1 (Setenv k2 v2 env) = Setenv k2 v2 (Setenv k1 v1 env).
Proof.
  intros Hk. unfold Setenv.
  destruct (setenv_accepts k1 v1), (setenv_accepts k2 v2); try reflexivity.
  by apply insert_insert_ne.
Qed.

Lemma Setenv_lookup_ne (k v x : string) (env : Env) :
  x <> k -> Setenv k v env !! x = env !! x.
Proof.
  intros Hx. unfold Setenv. destruct (setenv_accepts k v); [|reflexivity].
  by rewrite lookup_insert_ne.
Qed.

Lemma apply_pairs_cons (provider : string) (kv : string * string)
    (kvs : list (string * string)) (env : Env) :
  apply_pairs provider (kv :: kvs) env
  = apply_pairs provider kvs (Setenv (variable_of provider kv.1) kv.2 env).
Proof. reflexivity. Qed.

(** Variables no key of the profile is stored under are left as they were. *)
Lemma apply_pairs_frame (provider : string) (kvs : list (string * string)) (env : Env)
    (x : string) :
  x ∉ List.map (fun kv => variable_of provider kv.1) kvs ->
  apply_pairs provider kvs env !! x = env !! x.
Proof.
  revert env. induction kvs as [|kv kvs IH]; intros env Hx; [reflexivity|].
  rewrite apply_pairs_cons. cbn [List.map] in Hx.
  apply not_elem_of_cons in Hx as [Hne Hx].
  rewrite IH by exact Hx. by apply Setenv_lookup_ne.
Qed.

(** When no two keys of a profile are stored under the same variable, the
    environment after the profile is applied does not depend on the order
    in which the loop over the map meets the keys: each variable holds the
    value of its key where [os.Setenv] accepts the pair, and every other
    variable is as before. *)
Theorem apply_pairs_any_order (provider : string) (kvs kvs' : list (string * string))
    (env : Env) :
  NoDup (List.map (fun kv => variable_of provider kv.1) kvs) ->
  kvs ≡ₚ kvs' ->
  apply_pairs provider kvs' env = apply_pairs provider kvs env
  /\ (forall k v, (k, v) ∈ kvs ->
        setenv_accepts (variable_of provider k) v = true ->
        apply_pairs provider kvs env !! variable_of provider k = Some v)
  /\ (forall x, x ∉ List.map (fun kv => variable_of provider kv.1) kvs ->
        apply_pairs provider kvs env !! x = env !! x).
Proof.
  intros Hnd Hperm. split; [| split].
  - symmetry. revert env Hnd.
    induction Hperm as [|kv l l' Hp IH|kv1 kv2 l|l l' l'' Hp1 IH1 Hp2 IH2];
      intros env Hnd.
    + reflexivity.
    + rewrite !apply_pairs_cons. apply IH. cbn [List.map] in Hnd.
      by apply NoDup_cons in Hnd as [_ Hnd].
    + rewrite !apply_pairs_cons. f_equal. apply Setenv_commute.
      cbn [List.map] in Hnd. apply NoDup_cons in Hnd as [Hin _].
      intros Heq. apply Hin. rewrite Heq. apply list_elem_of_here.
    + rewrite IH1 by exact Hnd. apply IH2.
      assert (Hmap : List.map (fun kv => variable_of provider kv.1) l
                     ≡ₚ List.map (fun kv => variable_of provider kv.1) l')
        by (by apply Permutation_map).
      by rewrite <- Hmap.
  - clear kvs' Hperm. revert env Hnd.
    induction kvs as [|kv kvs IH]; intros env Hnd k v Hin Hacc.
    + by apply elem_of_nil in Hin.
    + rewrite apply_pairs_cons. cbn [List.map] in Hnd.
      apply NoDup_cons in Hnd as [Hfresh Hnd].
      apply elem_of_cons in Hin as [Heq|Hin].
      * subst kv. rewrite apply_pairs_frame by exact Hfresh. cbn [fst snd].
        unfold Setenv. rewrite Hacc. apply lookup_insert_eq.
      * by apply IH.
  - intros x. apply apply_pairs_frame.
Qed.

(** A profile whose keys are all stored under variables that
    [clearAuthEnvironment] unsets leaves nothing behind: applying it and
    clearing is clearing. *)
Theorem apply_then_clear (provider : string) (kvs : list (string * string)) (env : Env) :
  Forall (fun kv => variable_of provider kv.1 ∈ cleared_variables) kvs ->
  clearAuthEnvironment (apply_pairs provider kvs env) = clearAuthEnvironment env.
Proof.
  intros Hall. apply map_eq. intros x. rewrite !clear_lookup.
  case_bool_decide as Hx; [reflexivity|].
  apply apply_pairs_frame. intros Hin.
  apply list_elem_of_fmap in Hin as (kv & -> & Hkv).
  rewrite Forall_forall in Hall. apply Hx, Hall. exact Hkv.
Qed.

End Profile_application.

Section Profile_examples.
Import Os Config Credentials.

(** The two keys of [Examples.aws_prod], in both orders. *)
Lemma apply_pairs_any_order_witness :
  apply_pairs "aws" [("AWS_PROFILE", "prod"); ("access_key_id", "AKIA")]%string ∅
  = apply_pairs "aws" [("access_key_id", "AKIA"); ("AWS_PROFILE", "prod")]%string ∅
  /\ apply_pairs "aws" [("access_key_id", "AKIA"); ("AWS_PROFILE", "prod")]%string ∅
     !! "AWS_ACCESS_KEY_ID"%string = Some "AKIA"%string.
Proof.
  destruct (apply_pairs_any_order "aws"
              [("access_key_id", "AKIA"); ("AWS_PROFILE", "prod")]%string
              [("AWS_PROFILE", "prod"); ("access_key_id", "AKIA")]%string ∅)
    as (Horder & Hget & _).
  - apply (bool_decide_unpack _). by vm_compute.
  - apply perm_swap.
  - split; [exact Horder|].
    apply (Hget "access_key_id" "AKIA")%string; [apply list_elem_of_here | by vm_compute].
Defined.

(** An Azure profile of the four mapped keys, applied over an environment
    that holds [PATH]. *)
Lemma apply_then_clear_witness :
  clearAuthEnvironment
    (apply_pairs "azure"
       [("client_id", "c"); ("client_secret", "s"); ("subscription_id", "u");
        ("tenant_id", "t")]%string
       {[ "PATH" := "/usr/bin" ]}%string)
  = {[ "PATH" := "/usr/bin" ]}%string.
Proof.
  rewrite apply_then_clear; [by vm_compute|].
  repeat constructor; apply (bool_decide_unpack _); by vm_compute.
Defined.

End Profile_examples.

(** ** Validation and the lookups of the engine *)

Section Validation.
Import Os Config Loader Vocabulary.

Lemma GetAuthProfile_found (cfg : Config) (k : string) :
  (exists a, GetAuthProfile cfg k = inl a)
  <-> List.existsb (fun a => String.eqb (AuthProfile_Name a) k) (AuthProfiles cfg) = true.
Proof.
  unfold GetAuthProfile. induction (AuthProfiles cfg) as [|a l IH]; cbn [List.find List.existsb].
  - split; [intros [a H]; discriminate | discriminate].
  - destruct (String.eqb (AuthProfile_Name a) k); cbn [orb]; [| exact IH].
    split; [done | by eexists].
Qed.

Lemma GetNotifier_found (cfg : Config) (k : string) :
  (exists n, GetNotifier cfg k = inl n)
  <-> List.existsb (fun n => String.eqb (Notifier_Name n) k) (Notifiers cfg) = true.
Proof.
  unfold GetNotifier. induction (Notifiers cfg) as [|n l IH]; cbn [List.find List.existsb].
  - split; [intros [n H]; discriminate | discriminate].
  - destruct (String.eqb (Notifier_Name n) k); cbn [orb]; [| exact IH].
    split; [done | by eexists].
Qed.

Lemma check_profiles_spec (profiles : list AuthProfile) (m : gmap string bool) :
  match check_profiles profiles m with
  | inl m' =>
      Forall (fun a => AuthProfile_Name a <> "" /\ AuthProfile_Provider a <> "")%string
        profiles
      /\ forall k, default false (m' !! k)
                   = default false (m !! k)
                     || List.existsb (fun a => String.eqb (AuthProfile_Name a) k) profiles
  | inr _ =>
      ~ Forall (fun a => AuthProfile_Name a <> "" /\ AuthProfile_Provider a <> "")%string
          profiles
  end.
Proof.
  revert m. induction profiles as [|a l IH]; intros m; cbn [check_profiles List.existsb].
  - split; [constructor | intros k; by rewrite orb_false_r].
  - destruct (String.eqb_spec (AuthProfile_Name a) "") as [Hn|Hn].
    { intros H. apply Forall_inv in H. tauto. }
    destruct (String.eqb_spec (AuthProfile_Provider a) "") as [Hp|Hp].
    { intros H. apply Forall_inv in H. tauto. }
    specialize (IH (<[AuthProfile_Name a := true]> m)).
    destruct (check_profiles l _) as [m'|e].
    + destruct IH as [Hall Hk]. split; [by constructor|].
      intros k. rewrite Hk.
      destruct (String.eqb_spec (AuthProfile_Name a) k) as [->|Hne].
      * rewrite lookup_insert_eq. cbn. by rewrite orb_true_r.
      * rewrite lookup_insert_ne by done. by rewrite orb_false_l.
    + intros H. apply IH. by apply Forall_inv_tail in H.
Qed.

Lemma check_notifiers_spec (ns : list Notifier) (m : gmap string string) :
  match check_notifiers ns m with
  | inl m' =>
      Forall (fun n => Notifier_Name n <> "" /\ Notifier_Type n <> "")%string ns
      /\ forall k, bool_decide (is_Some (m' !! k))
                   = bool_decide (is_Some (m !! k))
                     || List.existsb (fun n => String.eqb (Notifier_Name n) k) ns
  | inr _ =>
      ~ Forall (fun n => Notifier_Name n <> "" /\ Notifier_Type n <> "")%string ns
  end.
Proof.
  revert m. induction ns as [|n l IH]; intros m; cbn [check_notifiers List.existsb].
  - split; [constructor | intros k; by rewrite orb_false_r].
  - destruct (String.eqb_spec (Notifier_Name n) "") as [Hn|Hn].
    { intros H. apply Forall_inv in H. tauto. }
    destruct (String.eqb_spec (Notifier_Type n) "") as [Hp|Hp].
    { intros H. apply Forall_inv in H. tauto. }
    specialize (IH (<[Notifier_Name n := Notifier_Type n]> m)).
    destruct (check_notifiers l _) as [m'|e].
    + destruct IH as [Hall Hk]. split; [by constructor|].
      intros k. rewrite Hk.
      destruct (String.eqb_spec (Notifier_Name n) k) as [->|Hne].
      * rewrite lookup_insert_eq. rewrite (bool_decide_eq_true_2 (is_Some (Some _))) by eauto.
        cbn. by rewrite orb_true_r.
      * rewrite lookup_insert_ne by done. by rewrite orb_false_l.
    + intros H. apply IH. by apply Forall_inv_tail in H.
Qed.

Lemma check_references_spec (projectName : string) (names : list string)
    (notifiers : gmap string string) :
  check_references projectName names notifiers = None
  <-> Forall (fun name => is_Some (notifiers !! name)) names.
Proof.
  induction names as [|name l IH]; cbn [check_references]; [by split|].
  destruct (notifiers !! name) as [t|] eqn:Hl.
  - rewrite IH. split; [intros H; constructor; [by rewrite Hl | done]|].
    intros H. by apply Forall_inv_tail in H.
  - split; [discriminate|]. intros H. apply Forall_inv in H. rewrite Hl in H.
    by destruct H.
Qed.

Lemma validate_projects_spec (stat : string -> bool) (authProfiles : gmap string bool)
    (notifiers : gmap string string) (projects : list Project) :
  validate_projects stat authProfiles notifiers projects = None
  <-> Forall (fun p => validate_project stat authProfiles notifiers p = None) projects.
Proof.
  induction projects as [|p l IH]; cbn [validate_projects]; [by split|].
  destruct (validate_project stat authProfiles notifiers p) eqn:Hp.
  - split; [discriminate|]. intros H. apply Forall_inv in H. congruence.
  - rewrite IH. split; [intros H; by constructor | intros H; by apply Forall_inv_tail in H].
Qed.

(** [validateConfig], by what its loops find in the lists. *)
Lemma validateConfig_checks (stat : string -> bool) (cfg : Config) :
  validateConfig stat cfg = None
  <-> (Projects cfg <> []
       /\ Forall (fun a => AuthProfile_Name a <> "" /\ AuthProfile_Provider a <> "")
            (AuthProfiles cfg)
       /\ Forall (fun n => Notifier_Name n <> "" /\ Notifier_Type n <> "") (Notifiers cfg)
       /\ Forall (fun p =>
                    Project_Name p <> "" /\ Project_Path p <> ""
                    /\ stat (Project_Path p) = false
                    /\ (Project_AuthProfile p = ""
                        \/ List.existsb
                             (fun a => String.eqb (AuthProfile_Name a) (Project_AuthProfile p))
                             (AuthProfiles cfg) = true)
                    /\ Forall (fun name =>
                                 List.existsb
                                   (fun n => String.eqb (Notifier_Name n) name)
                                   (Notifiers cfg) = true)
                         (Project_Notifiers p))
            (Projects cfg))%string.
Proof.
  unfold validateConfig.
  destruct (Projects cfg) as [|p0 ps] eqn:Hprojects.
  { cbn. split; [discriminate | intros [H _]; by destruct H]. }
  rewrite <- Hprojects.
  assert (Hlen : (length (Projects cfg) =? 0)%nat = false) by (by rewrite Hprojects).
  assert (Hne : Projects cfg <> []) by (by rewrite Hprojects).
  rewrite Hlen. clear Hlen Hprojects p0 ps.
  pose proof (check_profiles_spec (AuthProfiles cfg) ∅) as Hprof.
  destruct (check_profiles (AuthProfiles cfg) ∅) as [authProfiles|e].
  2: { split; [discriminate | intros (_ & H & _); by destruct Hprof]. }
  destruct Hprof as [Hprof Hauth].
  pose proof (check_notifiers_spec (Notifiers cfg) ∅) as Hnot.
  destruct (check_notifiers (Notifiers cfg) ∅) as [notifiers|e].
  2: { split; [discriminate | intros (_ & _ & H & _); by destruct Hnot]. }
  destruct Hnot as [Hnot Hnames].
  rewrite validate_projects_spec.
  assert (Hone : forall p,
            validate_project stat authProfiles notifiers p = None
            <-> (Project_Name p <> "" /\ Project_Path p <> ""
                 /\ stat (Project_Path p) = false
                 /\ (Project_AuthProfile p = ""
                     \/ List.existsb
                          (fun a => String.eqb (AuthProfile_Name a) (Project_AuthProfile p))
                          (AuthProfiles cfg) = true)
                 /\ Forall (fun name =>
                              List.existsb (fun n => String.eqb (Notifier_Name n) name)
                                (Notifiers cfg) = true)
                      (Project_Notifiers p))%string).
  { intros p. unfold validate_project.
    destruct (String.eqb_spec (Project_Name p) "") as [Hn|Hn];
      [split; [discriminate | tauto]|].
    destruct (String.eqb_spec (Project_Path p) "") as [Hp|Hp];
      [split; [discriminate | tauto]|].
    destruct (stat (Project_Path p)) eqn:Hs;
      [split; [discriminate | intros (_ & _ & H & _); discriminate]|].
    rewrite Hauth, lookup_empty. cbn [default orb].
    assert (Hrefs : check_references (Project_Name p) (Project_Notifiers p) notifiers = None
                    <-> Forall (fun name =>
                                  List.existsb (fun n => String.eqb (Notifier_Name n) name)
                                    (Notifiers cfg) = true)
                          (Project_Notifiers p)).
    { rewrite check_references_spec. apply Forall_iff. intros name.
      rewrite <- (bool_decide_eq_true (is_Some (notifiers !! name))).
      rewrite Hnames, lookup_empty.
      rewrite (bool_decide_eq_false_2 (is_Some None)) by (intros [? ?]; discriminate).
      done. }
    destruct (String.eqb_spec (Project_AuthProfile p) "") as [Ha|Ha]; cbn [negb andb].
    { rewrite Hrefs. tauto. }
    destruct (List.existsb _ (AuthProfiles cfg)) eqn:Hex; cbn [negb].
    - rewrite Hrefs. tauto.
    - split; [discriminate|]. intros (_ & _ & _ & [H|H] & _); [done | discriminate]. }
  split.
  - intros H. repeat split; try done. eapply Forall_impl; [exact H|].
    intros p Hp. by apply Hone.
  - intros (_ & _ & _ & H). eapply Forall_impl; [exact H|].
    intros p Hp. by apply Hone.
Qed.

(** [validateConfig] accepts a configuration exactly when there is a
    project, every profile has a name and a provider, every notifier a
    name and a type, and every project, disabled or not, has a name and
    a path that [os.Stat] finds, names no profile or one that
    [GetAuthProfile] finds, and lists only notifiers that [GetNotifier]
    finds. *)
Theorem validateConfig_accepts_iff (stat : string -> bool) (cfg : Config) :
  validateConfig stat cfg = None <-> well_formed stat cfg.
Proof.
  rewrite validateConfig_checks. unfold well_formed.
  do 3 (apply and_iff_compat_l). apply Forall_iff. intros p.
  do 3 (apply and_iff_compat_l).
  rewrite <- GetAuthProfile_found. apply and_iff_compat_l, Forall_iff. intros name.
  by rewrite <- GetNotifier_found.
Qed.

End Validation.

(** ** A validated configuration, run *)

Section Validated_run.
Import Os Config World Terraform Notifier Detector Spec Loader Vocabulary.
Context (w : World) (cfg : Config).

Lemma command_no_auth_error (e : Event) : is_command e = true -> no_auth_error e = true.
Proof. by destruct e as [[]| | | |]. Qed.

Lemma delivery_no_auth_error (e : Event) : is_delivery e = true -> no_auth_error e = true.
Proof. by destruct e as [[]| | | |]. Qed.

Lemma writes_check_project_no_auth_error (p : Project) (l : Locals) :
  writes no_auth_error (check_project w cfg p l).
Proof.
  unfold check_project, on_drift, print_details, log.
  repeat first
    [ apply writes_for_each; intros ? ?; unfold notify_one, log
    | eapply writes_mono; [exact delivery_no_auth_error | apply writes_sendNotification]
    | eapply writes_mono; [exact command_no_auth_error | apply writes_CheckDrift]
    | writes_step ].
Qed.

Lemma writes_process_project_no_auth_error (p : Project) (l : Locals) :
  (Project_AuthProfile p = ""%string
   \/ exists a, GetAuthProfile cfg (Project_AuthProfile p) = inl a) ->
  writes no_auth_error (process_project w cfg p l).
Proof.
  intros Hp. unfold process_project, log.
  destruct (explicitly_disabled (Project_Enabled p)); [repeat writes_step|].
  apply writes_bind; [repeat writes_step | intros _].
  destruct (String.eqb_spec (Project_AuthProfile p) "") as [He|He]; cbn [negb];
    [apply writes_check_project_no_auth_error|].
  destruct Hp as [Hp|[a Ha]]; [done|].
  intros st. unfold bind at 1, setAuthEnvironmentM, Credentials.setAuthEnvironment.
  rewrite Ha. cbn [fst snd].
  match goal with
  | |- context [check_project w cfg p ?l' ?s] =>
      destruct (writes_check_project_no_auth_error p l' s) as (new & T & F)
  end.
  exists new. split; [exact T | exact F].
Qed.

Lemma writes_for_each_Forall {X B : Type} (q : Event -> bool) (P : X -> Prop)
    (body : X -> B -> M B) (l : list X) (acc : B) :
  Forall P l -> (forall x b, P x -> writes q (body x b)) ->
  writes q (for_each body l acc).
Proof.
  intros Hl Hbody. revert acc.
  induction Hl as [|x l Hx Hl IH]; intros acc; cbn [for_each].
  - apply writes_ret.
  - apply writes_bind; [by apply Hbody | exact IH].
Qed.

Lemma writes_RunWithResult_no_auth_error :
  Forall (fun p => Project_AuthProfile p = ""%string
                   \/ exists a, GetAuthProfile cfg (Project_AuthProfile p) = inl a)
    (Projects cfg) ->
  writes no_auth_error (RunWithResult w cfg).
Proof.
  intros Hall. unfold RunWithResult, ValidateTerraformInstallation, run_projects, log.
  apply writes_bind; [repeat writes_step | intros verr].
  destruct verr; [apply writes_ret|].
  apply writes_bind; [repeat writes_step | intros _].
  apply writes_bind.
  { eapply writes_for_each_Forall; [exact Hall|].
    intros p l Hp. by apply writes_process_project_no_auth_error. }
  intros l. apply writes_bind; [repeat writes_step | intros _].
  apply writes_bind; [apply writes_run_deferred | intros _].
  destruct (hasErrors l); apply writes_ret.
Qed.

Lemma validated_profiles (stat : string -> bool) :
  validateConfig stat cfg = None ->
  Forall (fun p => Project_AuthProfile p = ""%string
                   \/ exists a, GetAuthProfile cfg (Project_AuthProfile p) = inl a)
    (Projects cfg).
Proof.
  intros H. apply validateConfig_checks in H as (_ & _ & _ & H).
  eapply Forall_impl; [exact H|]. intros p (_ & _ & _ & [Ha|Ha] & _); [by left|].
  right. by apply GetAuthProfile_found.
Qed.

(** On a configuration that [validateConfig] accepts, the engine never
    fails to apply a project's credential profile: no line reports it,
    whatever terraform and the webhooks do. *)
Theorem validated_run_applies_profiles (stat : string -> bool) (st : St) :
  validateConfig stat cfg = None ->
  List.existsb is_auth_error (new_events st (RunWithResult w cfg st).2) = false.
Proof.
  intros Hv.
  destruct (writes_RunWithResult_no_auth_error (validated_profiles stat Hv) st)
    as (new & T & F).
  rewrite (new_events_app _ _ _ T).
  apply (forall_none no_auth_error); [| exact F].
  intros e. unfold no_auth_error. by destruct (is_auth_error e).
Qed.

End Validated_run.

Section Validated_run_example.
Import Os Config World Detector Spec Loader Vocabulary.

Lemma validated_run_applies_profiles_witness :
  List.existsb is_auth_error
    (new_events Examples.start
       (RunWithResult Examples.drifted Examples.notified Examples.start).2) = false.
Proof.
  apply (validated_run_applies_profiles Examples.drifted Examples.notified (fun _ => false)).
  by vm_compute.
Defined.

End Validated_run_example.

(** ** The run command *)

Section Command.
Import Os Config World Lock Detector Spec Loader Cmd Vocabulary.
Context (w : World) (f : Files) (flags : Flags) (configFile lockFile : string)
  (pid now : Z).

(** After [ForceRelease], if forced, no marker is in the way. *)
Lemma Acquire_unrefused (fl : FileLock) (fs0 : FS) :
  dir_writable fs0 = true ->
  match marker fs0 with
  | Some info => (Hour <? now - ModTime info) = true
  | None => True
  end ->
  Acquire fl pid now fs0
  = (None, {| lockPath := lockPath fl; file := true |},
     {| marker := Some {| ModTime := now; content := [(pid, now)] |};
        dir_writable := true |},
     match marker fs0 with
     | Some _ => [OpStat; OpRemove; OpCreate; OpWrite]
     | None => [OpStat; OpCreate; OpWrite]
     end).
Proof.
  intros Hw Hm. unfold Acquire. destruct (marker fs0) as [info|] eqn:Hinfo.
  - rewrite stale_iff, Hm. unfold os_Remove. rewrite Hinfo, Hw. reflexivity.
  - unfold create_marker, os_OpenFile_excl. rewrite Hinfo, Hw. reflexivity.
Qed.

(** In a writable lock directory: a run that is not forced and finds a
    marker at most one hour old returns the lock error and has done
    nothing, the configuration is not even read; every other run gets the
    lock and, however it ends (configuration rejected, engine error,
    drift, success), has removed the marker when it returns. *)
Theorem runDriftDetection_lock (p : Proc) :
  dir_writable (fs p) = true ->
  if refused flags now (fs p)
  then runDriftDetection w f flags configFile lockFile pid now p
       = (Some ("failed to acquire lock: "
                ++ already_running {| lockPath := lockFile; file := false |})%string,
          p)
  else marker (fs (runDriftDetection w f flags configFile lockFile pid now p).2) = None
       /\ (runDriftDetection w f flags configFile lockFile pid now p).1
          = (run_locked w f flags configFile (st p)).1.1
       /\ st (runDriftDetection w f flags configFile lockFile pid now p).2
          = (run_locked w f flags configFile (st p)).1.2.
Proof.
  intros Hw. unfold refused, runDriftDetection.
  destruct (forceLock flags); cbn [negb andb].
  - unfold ForceRelease, os_Remove. rewrite Hw.
    destruct (marker (fs p)) as [info|] eqn:Hinfo; cbn [fst snd];
      (rewrite Acquire_unrefused
         by (cbn [marker dir_writable]; rewrite ?Hinfo; done));
      by cbn.
  - cbn [fst snd]. destruct (marker (fs p)) as [info|] eqn:Hinfo.
    + destruct (Hour <? now - ModTime info) eqn:Hstale; cbn [negb].
      * rewrite Acquire_unrefused by (rewrite ?Hinfo; done). by cbn.
      * unfold Acquire. rewrite Hinfo, stale_iff, Hstale.
        destruct p as [fs0 st0 c0]. cbn [fs st console]. by rewrite app_nil_r.
    + rewrite Acquire_unrefused by (rewrite ?Hinfo; done). by cbn.
Qed.

(** What [RunWithResult] returns with a nil error. *)
Lemma RunWithResult_nil (cfg : Config) (s : St) :
  (RunWithResult w cfg s).1.2 = None ->
  errors_logged (new_events s (RunWithResult w cfg s).2) = false
  /\ (RunWithResult w cfg s).1.1 = drift_logged (new_events s (RunWithResult w cfg s).2).
Proof.
  remember (RunWithResult w cfg s) as res eqn:Hres.
  unfold RunWithResult, Terraform.ValidateTerraformInstallation in Hres.
  destruct (terraform_version w); [| subst res; discriminate..].
  exec in Hres.
  set (st1 := {| env := env s; requests := _; trace := _ |}) in Hres.
  assert (Ht1 : trace st1
                = trace s ++ [Exec ["version"] EmptyString (env s); Log LogStart]).
  { subst st1. cbn [trace]. by rewrite <- app_assoc. }
  clearbody st1.
  destruct (run_projects_accounts w cfg (Projects cfg)
              {| hasErrors := false; driftFound := false; deferred := 0 |} st1)
    as (n & Hn & E & D & K).
  set (r := run_projects w cfg (Projects cfg) _ st1) in *. clearbody r.
  destruct r as [l st2]. cbn [fst snd hasErrors driftFound orb] in *.
  assert (Hnew : new_events s res.2
                 = [Exec ["version"] EmptyString (env s); Log LogStart] ++ n
                   ++ [Log LogCompleted]).
  { apply new_events_app. subst res.
    destruct (hasErrors l); cbn [snd]; rewrite run_deferred_trace; cbn [trace];
      by rewrite Hn, Ht1, <- !app_assoc. }
  rewrite Hnew, !errors_logged_app, !drift_logged_app.
  cbn [errors_logged drift_logged List.existsb is_error_line is_drift_line orb].
  rewrite !orb_false_r, <- E, <- D. subst res.
  destruct (hasErrors l); [discriminate | done].
Qed.

Lemma run_locked_trace_on_failure (s : St) (err : error) :
  LoadConfig f configFile
    (env (if verbose flags
          then {| env := Setenv "TERRADRIFT_VERBOSE" "true" (env s);
                  requests := requests s; trace := trace s |}
          else s)) = inr err ->
  trace (run_locked w f flags configFile s).1.2 = trace s.
Proof.
  intros H. unfold run_locked. rewrite H. cbn [fst snd]. by destruct (verbose flags).
Qed.

(** When the command returns and [Execute] ends the process with status
    0, the run was clean: the engine logged no error line, and under
    [--fail-on-drift] no drift alert either. *)
Theorem exit_status_0_is_clean (p : Proc) :
  Execute (runDriftDetection w f flags configFile lockFile pid now p).1 = 0 ->
  errors_logged
    (new_events (st p) (st (runDriftDetection w f flags configFile lockFile pid now p).2))
  = false
  /\ (failOnDrift flags = true ->
      drift_logged
        (new_events (st p)
           (st (runDriftDetection w f flags configFile lockFile pid now p).2))
      = false).
Proof.
  intros H0. split.
  all: unfold runDriftDetection in *;
    destruct (Acquire _ pid now _) as [[[[e|] fl] fs1] ops]; [discriminate H0|];
    cbn [fst snd st] in *; unfold run_locked in *;
    set (s1 := if verbose flags then _ else st p) in *;
    assert (Hs1 : new_events (st p) = new_events s1)
      by (subst s1; by destruct (verbose flags));
    rewrite Hs1;
    destruct (LoadConfig f configFile (env s1)) as [cfg|e]; [| discriminate H0];
    pose proof (RunWithResult_nil cfg s1) as Hnil;
    destruct (RunWithResult w cfg s1) as [[drift [e|]] s2]; [discriminate H0|];
    cbn [fst snd] in *; destruct (Hnil eq_refl) as [He Hd].
  - destruct (drift && failOnDrift flags); exact He.
  - intros Hf. rewrite Hf, andb_true_r in H0 |- *.
    destruct drift; [discriminate H0|]. cbn [fst snd st]. by rewrite <- Hd.
Qed.

(** However the command is run, the engine never fails to apply a
    project's credential profile: the loader has rejected every
    configuration in which a project names a profile that is not there. *)
Theorem command_applies_profiles (p : Proc) :
  List.existsb is_auth_error
    (new_events (st p) (st (runDriftDetection w f flags configFile lockFile pid now p).2))
  = false.
Proof.
  assert (Hnone : List.existsb is_auth_error (new_events (st p) (st p)) = false).
  { unfold new_events. by rewrite drop_all. }
  unfold runDriftDetection.
  destruct (Acquire _ pid now _) as [[[[e|] fl] fs1] ops]; [exact Hnone|].
  cbn [fst snd st]. unfold run_locked.
  set (s1 := if verbose flags then _ else st p).
  assert (Hs1 : new_events (st p) = new_events s1)
    by (subst s1; by destruct (verbose flags)).
  unfold LoadConfig.
  destruct (parse f configFile (env s1)) as [msg|msg|parsed]; cbn [fst snd];
    [rewrite Hs1; unfold new_events; by rewrite drop_all..|].
  set (cfg := {| Projects := _; AuthProfiles := _; Notifiers := _ |}).
  destruct (validateConfig (stat_fails f) cfg) as [e|] eqn:Hv; cbn [fst snd];
    [rewrite Hs1; unfold new_events; by rewrite drop_all|].
  destruct (writes_RunWithResult_no_auth_error w cfg
              (validated_profiles cfg (stat_fails f) Hv) s1) as (new & T & F).
  assert (Hnew : List.existsb is_auth_error (new_events s1 (RunWithResult w cfg s1).2)
                 = false).
  { rewrite (new_events_app _ _ _ T).
    apply (forall_none no_auth_error); [| exact F].
    intros e. unfold no_auth_error. by destruct (is_auth_error e). }
  rewrite Hs1.
  destruct (RunWithResult w cfg s1) as [[drift [e|]] s2]; cbn [fst snd] in *;
    [exact Hnew|].
  destruct (drift && failOnDrift flags); exact Hnew.
Qed.

End Command.

Section Command_examples.
Import Os Config World Lock Detector Spec Loader Cmd Vocabulary.

(** A run ten minutes after another instance took the lock. *)
Lemma runDriftDetection_lock_witness :
  runDriftDetection Examples.drifted MoreExamples.files MoreExamples.plain "config.yml"
    MoreExamples.lock_path 42 (600 * Second) MoreExamples.held
  = (Some ("failed to acquire lock: another instance is already running "
           ++ "(lock file: /tmp/terradrift-watcher.lock)")%string,
     MoreExamples.held).
Proof.
  exact (runDriftDetection_lock Examples.drifted MoreExamples.files MoreExamples.plain
           "config.yml" MoreExamples.lock_path 42 (600 * Second) MoreExamples.held eq_refl).
Defined.

(** A run that finds nothing to report. *)
Lemma exit_status_0_is_clean_witness :
  Execute (runDriftDetection Examples.calm MoreExamples.files MoreExamples.fail_on_drift
             "config.yml" MoreExamples.lock_path 42 0 MoreExamples.idle).1 = 0
  /\ drift_logged
       (new_events (st MoreExamples.idle)
          (st (runDriftDetection Examples.calm MoreExamples.files
                 MoreExamples.fail_on_drift "config.yml" MoreExamples.lock_path 42 0
                 MoreExamples.idle).2)) = false.
Proof.
  assert (H : Execute (runDriftDetection Examples.calm MoreExamples.files
                         MoreExamples.fail_on_drift "config.yml" MoreExamples.lock_path
                         42 0 MoreExamples.idle).1 = 0) by (by vm_compute).
  split; [exact H|].
  destruct (exit_status_0_is_clean Examples.calm MoreExamples.files
              MoreExamples.fail_on_drift "config.yml" MoreExamples.lock_path 42 0
              MoreExamples.idle H) as (_ & Hd).
  by apply Hd.
Defined.

End Command_examples.

(** ** The run lock: when it is granted, and for how long it holds *)

Section Lock_outcome.
Import Config Lock.

(** [Acquire] succeeds exactly when the directory is writable and no
    marker at most one hour old is in place; then the marker is the
    holder's, dated [now]; when it fails, the lock object and the
    directory are as they were. *)
Theorem Acquire_outcome (fl : FileLock) (pid now : Z) (fs : FS) :
  ((Acquire fl pid now fs).1.1.1 = None
   <-> dir_writable fs = true
       /\ forall info, marker fs = Some info -> Hour < now - ModTime info)
  /\ ((Acquire fl pid now fs).1.1.1 = None ->
      (Acquire fl pid now fs).1.2
      = {| marker := Some {| ModTime := now; content := [(pid, now)] |};
           dir_writable := true |}
      /\ (Acquire fl pid now fs).1.1.2 = {| lockPath := lockPath fl; file := true |})
  /\ (is_Some (Acquire fl pid now fs).1.1.1 ->
      (Acquire fl pid now fs).1.2 = fs /\ (Acquire fl pid now fs).1.1.2 = fl).
Proof.
  unfold Acquire, create_marker, os_OpenFile_excl, os_Remove.
  destruct fs as [[info|] [|]]; cbn [marker dir_writable]; rewrite ?stale_iff;
    try destruct (Z.ltb_spec Hour (now - ModTime info)) as [Hs|Hs]; cbn;
    repeat split; try discriminate; try done; intros;
    repeat match goal with
           | H : is_Some None |- _ => destruct H; discriminate
           | H : _ /\ _ |- _ => destruct H
           | H : forall i, Some ?info = Some i -> _ |- _ => specialize (H info eq_refl)
           | H : Some _ = Some _ |- _ => injection H as <-
           end;
    try discriminate; try lia; try done.
Qed.

(** The lock holds for one hour, not for the run: when the holder is
    still running an hour after [Acquire], a second instance is granted
    the lock; the first one's [Release] then removes the second one's
    marker, and a third instance is granted the lock at once. *)
Theorem lock_outlived (fl fl1 fl2 fl3 : FileLock) (pid pid2 pid3 now now2 now3 : Z)
    (fs fs1 : FS) (ops : list FsOp) :
  Acquire fl pid now fs = (None, fl1, fs1, ops) ->
  Hour < now2 - now ->
  (Acquire fl2 pid2 now2 fs1).1.1.1 = None
  /\ (Release fl1 (Acquire fl2 pid2 now2 fs1).1.2).1.1 = None
  /\ marker (Release fl1 (Acquire fl2 pid2 now2 fs1).1.2).2 = None
  /\ (Acquire fl3 pid3 now3 (Release fl1 (Acquire fl2 pid2 now2 fs1).1.2).2).1.1.1 = None.
Proof.
  intros Hacq Hlate.
  assert (Hfs1 : fs1 = {| marker := Some {| ModTime := now; content := [(pid, now)] |};
                          dir_writable := true |}).
  { unfold Acquire, create_marker, os_OpenFile_excl, os_Remove in Hacq.
    destruct fs as [[info|] [|]]; cbn [marker dir_writable] in Hacq.
    - destruct (Hour <? Since now (ModTime info)); cbn in Hacq; congruence.
    - destruct (Hour <? Since now (ModTime info)); cbn in Hacq; congruence.
    - cbn in Hacq. congruence.
    - cbn in Hacq. congruence. }
  subst fs1. clear Hacq.
  assert (Hstale : (Hour <? Since now2 now) = true)
    by (rewrite stale_iff; by apply Z.ltb_lt).
  unfold Acquire. cbn [marker ModTime]. rewrite Hstale. by cbn.
Qed.

End Lock_outcome.

Section Lock_examples.
Import Config Lock.

(** Taken at time 0, taken over two hours later, released by the first
    holder, taken again a second after that. *)
Lemma lock_outlived_witness :
  (Acquire {| lockPath := "/tmp/terradrift-watcher.lock"; file := false |} 43
     (7200 * Second + Second)
     (Release {| lockPath := "/tmp/terradrift-watcher.lock"; file := true |}
        (Acquire {| lockPath := "/tmp/terradrift-watcher.lock"; file := false |} 42
           (7200 * Second)
           {| marker := Some {| ModTime := 0; content := [(41, 0)] |};
              dir_writable := true |}).1.2).2).1.1.1
  = None.
Proof.
  apply (lock_outlived {| lockPath := "/tmp/terradrift-watcher.lock"; file := false |}
           {| lockPath := "/tmp/terradrift-watcher.lock"; file := true |}
           {| lockPath := "/tmp/terradrift-watcher.lock"; file := false |}
           {| lockPath := "/tmp/terradrift-watcher.lock"; file := false |}
           41 42 43 0 (7200 * Second) (7200 * Second + Second)
           {| marker := None; dir_writable := true |}
           {| marker := Some {| ModTime := 0; content := [(41, 0)] |};
              dir_writable := true |}
           [OpStat; OpCreate; OpWrite]); [reflexivity | by vm_compute].
Defined.

End Lock_examples.

(** ** What the console and the summary take from the plan output *)

Section Plan_lines.
Import GoStrings World Terraform Detector Spec.

Lemma relevant_lines_from (planLines acc : list string) :
  (length acc < 10)%nat ->
  relevant_lines planLines acc = take 10 (acc ++ List.filter relevant planLines).
Proof.
  revert acc. induction planLines as [|line rest IH]; intros acc Hacc;
    cbn [relevant_lines List.filter].
  - rewrite app_nil_r. symmetry. apply take_ge. lia.
  - destruct (relevant line).
    + replace (acc ++ line :: List.filter relevant rest)
        with ((acc ++ [line]) ++ List.filter relevant rest)
        by (by rewrite <- app_assoc).
      destruct (Nat.leb_spec 10 (length (acc ++ [line]))) as [Hfull|Hroom].
      * rewrite length_app in Hfull. cbn in Hfull.
        rewrite take_app_le by (rewrite length_app; cbn; lia).
        symmetry. apply take_ge. rewrite length_app. cbn. lia.
      * by apply IH.
    + by apply IH.
Qed.

(** The sample of the plan shown on the console when not verbose is the
    first ten of its lines that are relevant, in their order; the loop's
    early exit changes nothing to that. *)
Theorem relevant_lines_first_ten (planLines : list string) :
  relevant_lines planLines [] = take 10 (List.filter relevant planLines).
Proof. apply (relevant_lines_from planLines []). cbn. lia. Qed.

Lemma scan_lines_summary (n i : Z) (lines : list string) (s : Scan) :
  summary (scan_lines n i lines s)
  = summary s ++ List.map TrimSpace (List.filter is_summary_line lines).
Proof.
  revert i s. induction lines as [|line rest IH]; intros i s;
    cbn [scan_lines List.filter List.map].
  - by rewrite app_nil_r.
  - rewrite IH. unfold scan_line.
    destruct (Contains line "Terraform will perform the following actions:");
      cbn [summary]; destruct (is_summary_line line); cbn [List.map];
      by rewrite <- ?app_assoc.
Qed.

Lemma scan_lines_no_header (n i : Z) (lines : list string) (s : Scan) :
  Forall (fun line => Contains line "Terraform will perform the following actions:" = false)
    lines ->
  captureChanges s = false ->
  (length (resourceChanges s) <= 10)%nat ->
  resourceChanges (scan_lines n i lines s)
  = take 10 (resourceChanges s ++ List.map TrimSpace (List.filter names_a_change lines)).
Proof.
  intros Hlines. revert i s.
  induction Hlines as [|line rest Hline _ IH]; intros i s Hcap Hlen;
    cbn [scan_lines List.filter List.map].
  - rewrite app_nil_r. symmetry. by apply take_ge.
  - assert (Hstep : scan_line n i line s
                    = {| summary := if is_summary_line line
                                    then summary s ++ [TrimSpace line] else summary s;
                         resourceChanges :=
                           if names_a_change line && (length (resourceChanges s) <? 10)%nat
                           then resourceChanges s ++ [TrimSpace line]
                           else resourceChanges s;
                         captureChanges := false |}).
    { unfold scan_line. rewrite Hline, Hcap. reflexivity. }
    rewrite Hstep. clear Hstep.
    destruct (names_a_change line); cbn [andb List.map].
    + destruct (Nat.ltb_spec (length (resourceChanges s)) 10) as [Hroom|Hfull].
      * rewrite IH
          by (cbn [captureChanges resourceChanges]; rewrite ?length_app; cbn [length];
              first [done | lia]).
        cbn [resourceChanges]. by rewrite <- app_assoc.
      * rewrite IH by done. cbn [resourceChanges].
        rewrite !take_app_le by lia. reflexivity.
    + by rewrite IH.
Qed.

(** The summary lines of [ExtractPlanSummary] are the lines of the output
    that hold "Plan:", "No changes", "to add", "to change" or "to destroy",
    all of them, trimmed, in order; and as long as the output has no line
    holding "Terraform will perform the following actions:", the entries
    are the first ten of its lines that name a change, trimmed. *)
Theorem scan_without_header (planOutput : string) :
  summary (scan planOutput)
  = List.map TrimSpace (List.filter is_summary_line (SplitLines planOutput))
  /\ (Forall (fun line =>
                Contains line "Terraform will perform the following actions:" = false)
        (SplitLines planOutput) ->
      resourceChanges (scan planOutput)
      = take 10 (List.map TrimSpace (List.filter names_a_change (SplitLines planOutput)))).
Proof.
  unfold scan. split.
  - by rewrite scan_lines_summary.
  - intros H. rewrite scan_lines_no_header; [done | exact H | done | cbn; lia].
Qed.

(** While entries are being captured, a line that begins with a change
    marker and also names a change, as the resource headers of a plan do
    ("# aws_instance.web will be created"), is entered twice. *)
Theorem entry_listed_twice (n i : Z) (line : string) (s : Scan) :
  captureChanges s = true ->
  (length (resourceChanges s) + 2 <= 10)%nat ->
  Contains line "Terraform will perform the following actions:" = false ->
  has_change_marker (TrimSpace line) = true ->
  names_a_change line = true ->
  resourceChanges (scan_line n i line s)
  = resourceChanges s ++ [TrimSpace line; TrimSpace line].
Proof.
  intros Hcap Hlen Hhead Hmark Hname. unfold scan_line.
  rewrite Hhead, Hcap, Hmark, Hname.
  replace (length (resourceChanges s) <? 10)%nat with true
    by (symmetry; apply Nat.ltb_lt; lia).
  cbn [resourceChanges andb]. rewrite length_app. cbn [length].
  replace (length (resourceChanges s) + 1 <? 10)%nat with true
    by (symmetry; apply Nat.ltb_lt; lia).
  by rewrite <- app_assoc.
Qed.

End Plan_lines.

Section Plan_lines_examples.
Import GoStrings World Terraform Detector Spec.

Lemma entry_listed_twice_witness :
  resourceChanges
    (scan_line 40 5 "  # aws_instance.web will be created"
       {| summary := []; resourceChanges := []; captureChanges := true |})
  = ["# aws_instance.web will be created"; "# aws_instance.web will be created"]%string.
Proof.
  rewrite (entry_listed_twice 40 5 "  # aws_instance.web will be created"
             {| summary := []; resourceChanges := []; captureChanges := true |});
    first [by vm_compute | cbn; lia].
Defined.

End Plan_lines_examples.

(** ** Runs that stop early *)

Section Early_stops.
Import Os Config World Terraform Notifier Detector Spec.

(** Without a working [terraform] the run stops after the version
    command: no project is looked at, whatever the configuration, and the
    error tells why. *)
Theorem RunWithResult_without_terraform (w : World) (cfg : Config) (st : St) :
  terraform_version w <> RunOk ->
  exists msg,
    (RunWithResult w cfg st).1
    = (false,
       Some ("terraform validation failed: terraform is not installed or not in PATH: "
             ++ msg)%string)
    /\ (RunWithResult w cfg st).2 = with_events st [Exec ["version"] "" (env st)].
Proof.
  intros Hv. unfold RunWithResult, ValidateTerraformInstallation.
  destruct (terraform_version w) as [|code msg|msg]; [done| |];
    exists msg; exec; by split.
Qed.

End Early_stops.

Section Early_stops_examples.
Import Os Config World Terraform Notifier Detector Spec.

Lemma RunWithResult_without_terraform_witness :
  exists msg,
    (RunWithResult MoreExamples.no_terraform Examples.alerting Examples.start).1
    = (false,
       Some ("terraform validation failed: terraform is not installed or not in PATH: "
             ++ msg)%string)
    /\ (RunWithResult MoreExamples.no_terraform Examples.alerting Examples.start).2
       = with_events Examples.start [Exec ["version"] "" ∅].
Proof.
  apply (RunWithResult_without_terraform MoreExamples.no_terraform Examples.alerting
           Examples.start).
  discriminate.
Defined.

(** [Examples.project_e] names a profile that [Examples.alerting] does not
    have. *)
Lemma auth_failure_skips_check_witness :
  process_project Examples.drifted Examples.alerting Examples.project_e
    {| hasErrors := false; driftFound := false; deferred := 0 |} Examples.start
  = ({| hasErrors := true; driftFound := false; deferred := 0 |},
     with_events Examples.start
       [Log (LogChecking "e");
        Log (LogAuthError "e" "auth profile not found: no-such-profile")]).
Proof.
  apply (auth_failure_skips_check Examples.drifted Examples.alerting Examples.project_e
           {| hasErrors := false; driftFound := false; deferred := 0 |} Examples.start
           "auth profile not found: no-such-profile");
    [reflexivity | discriminate | reflexivity].
Defined.

End Early_stops_examples.


(** ** The environment the engine leaves alone *)

Section Steady.
Import Os Config World Vocabulary.
Context (k : string) (q : option string -> Event -> bool).
Hypothesis Hq : forall v e, is_details e = false -> q v e = true.

Lemma steady_ret {A : Type} (a : A) : steady k q (ret a).
Proof. intros st. split; [done|]. exists []. by rewrite app_nil_r. Qed.

Lemma steady_emit (e : Event) : is_details e = false -> steady k q (emit e).
Proof.
  intros He st. split; [done|]. exists [e]. split; [done|].
  constructor; [by apply Hq | constructor].
Qed.

Lemma steady_get_env : steady k q get_env.
Proof. intros st. split; [done|]. exists []. by rewrite app_nil_r. Qed.

Lemma steady_bind {A B : Type} (m : M A) (f : A -> M B) :
  steady k q m -> (forall a, steady k q (f a)) -> steady k q (bind m f).
Proof.
  intros Hm Hf st. unfold bind.
  destruct (Hm st) as (E1 & n1 & T1 & F1).
  destruct (Hf (m st).1 (m st).2) as (E2 & n2 & T2 & F2).
  split; [by rewrite E2|].
  exists (n1 ++ n2). rewrite T2, T1, app_assoc. split; [done|].
  apply Forall_app. split; [exact F1|]. by rewrite E1 in F2.
Qed.

Lemma steady_when (c : bool) (m : M unit) : steady k q m -> steady k q (when c m).
Proof. intros Hm. destruct c; [exact Hm | apply steady_ret]. Qed.

Lemma steady_for_each {X B : Type} (body : X -> B -> M B) (l : list X) (acc : B) :
  (forall x b, steady k q (body x b)) -> steady k q (for_each body l acc).
Proof.
  intros Hbody. revert acc. induction l as [|x l IH]; intros acc; cbn [for_each].
  - apply steady_ret.
  - apply steady_bind; [apply Hbody | exact IH].
Qed.

End Steady.

Ltac steady_step :=
  first
    [ apply steady_ret
    | apply steady_get_env
    | apply steady_emit; [assumption | reflexivity]
    | apply steady_when
    | apply steady_bind; [| intros ?]
    | match goal with
      | |- Vocabulary.steady _ _ (match ?x with _ => _ end) => destruct x
      end ].

Section Steady_program.
Import Os Config World Terraform Notifier Detector Credentials Spec Vocabulary.
Context (w : World) (cfg : Config) (k : string) (q : option string -> Event -> bool).
Hypothesis Hq : forall v e, is_details e = false -> q v e = true.
Hypothesis Hprint : forall planOutput, steady k q (print_details planOutput).
Hypothesis Hk : untouched_by cfg k.

Lemma steady_CheckDrift (path : string) : steady k q (CheckDrift w path).
Proof.
  unfold CheckDrift, runTerraformInit, runTerraformPlan, cleanupLockFiles.
  repeat steady_step.
Qed.

Lemma steady_send (url pn ds po : string) :
  steady k q (SendSlackRichNotification w url pn ds po).
Proof.
  unfold SendSlackRichNotification.
  destruct (String.eqb url ""); [apply steady_ret|].
  intros st. destruct (new_request_error w url).
  - split; [done|]. exists []. by rewrite app_nil_r.
  - split; [done|]. eexists [_]. split; [reflexivity|].
    constructor; [by apply Hq | constructor].
Qed.

Lemma steady_retry_loop (maxRetries : Z) (n : nat) (url pn ds po : string)
    (attempt : Z) (lastErr : option error) :
  steady k q (retry_loop (SendSlackRichNotification w url pn ds po) maxRetries n attempt
                lastErr).
Proof.
  revert attempt lastErr.
  induction n as [|n IH]; intros attempt lastErr; cbn [retry_loop]; unfold log.
  - apply steady_ret.
  - apply steady_bind; [repeat steady_step | intros _].
    apply steady_bind; [apply steady_send | intros [e|]]; [apply IH | repeat steady_step].
Qed.

Lemma steady_sendNotification (name pn s po : string) :
  steady k q (sendNotification w cfg name pn s po).
Proof.
  unfold sendNotification, SendSlackRichNotificationWithRetry, log.
  repeat first [ apply steady_retry_loop | steady_step ].
Qed.

Lemma steady_setAuthEnvironmentM (name : string) :
  steady k q (setAuthEnvironmentM cfg name).
Proof.
  intros st. unfold setAuthEnvironmentM, setAuthEnvironment. cbn [snd env trace].
  split; [| exists []; by rewrite app_nil_r].
  unfold GetAuthProfile.
  destruct (List.find _ (AuthProfiles cfg)) as [a|] eqn:Hfind; cbn [snd]; [| done].
  apply List.find_some in Hfind as [Hin _].
  destruct Hk as [_ Hall]. rewrite Forall_forall in Hall.
  unfold apply_profile. apply apply_pairs_frame, Hall. by apply list_elem_of_In.
Qed.

Lemma steady_run_deferred (n : nat) : steady k q (run_deferred n).
Proof.
  induction n as [|n IH]; cbn [run_deferred]; [apply steady_ret|].
  apply steady_bind; [| intros _; exact IH].
  intros st. cbn [modify_env snd env trace]. split.
  - rewrite clear_lookup. destruct Hk as [Hc _]. by rewrite bool_decide_eq_false_2.
  - exists []. by rewrite app_nil_r.
Qed.

Lemma steady_process_project (p : Project) (l : Locals) :
  steady k q (process_project w cfg p l).
Proof.
  unfold process_project, check_project, on_drift, log.
  repeat first
    [ apply steady_setAuthEnvironmentM
    | apply steady_CheckDrift
    | apply Hprint
    | apply steady_for_each; intros ? ?; unfold notify_one, log
    | apply steady_sendNotification
    | steady_step ].
Qed.

Lemma steady_RunWithResult : steady k q (RunWithResult w cfg).
Proof.
  unfold RunWithResult, ValidateTerraformInstallation, run_projects, log.
  repeat first
    [ apply steady_run_deferred
    | apply steady_for_each; intros ? ?; apply steady_process_project
    | steady_step
    | match goal with
      | |- steady _ _ (if ?x then _ else _) => destruct x
      end ].
Qed.

End Steady_program.

Section Frame.
Import Os Config World Terraform Notifier Detector Credentials Spec Vocabulary.

Lemma steady_print_details_any (k : string) (planOutput : string) :
  steady k (fun _ _ => true) (print_details planOutput).
Proof.
  intros st. split.
  - unfold print_details. exec.
    destruct (String.eqb _ _); [done|]. by destruct (0 <? _)%nat.
  - destruct (writes_print_details planOutput st) as (new & T & _).
    exists new. split; [exact T|]. by apply Forall_forall.
Qed.

Lemma steady_print_details_verbosity (planOutput : string) :
  steady "TERRADRIFT_VERBOSE" details_fit (print_details planOutput).
Proof.
  intros st. unfold print_details. exec. unfold Getenv.
  destruct (String.eqb (default "" (env st !! "TERRADRIFT_VERBOSE")) "true")%string
    eqn:Hv.
  - split; [done|]. eexists [_]. split; [reflexivity|].
    constructor; [exact Hv | constructor].
  - destruct (0 <? _)%nat; exec.
    + split; [done|]. eexists [_]. split; [reflexivity|].
      constructor; [cbn; by rewrite Hv | constructor].
    + split; [done|]. exists []. by rewrite app_nil_r.
Qed.

(** A variable that no profile of the configuration is stored under and
    that is none of the ten that [clearAuthEnvironment] unsets has, when
    [RunWithResult] returns, the value it had (or is unset as it was). *)
Theorem run_leaves_other_variables (w : World) (cfg : Config) (k : string) (st : St) :
  untouched_by cfg k ->
  env (RunWithResult w cfg st).2 !! k = env st !! k.
Proof.
  intros Hk.
  apply (steady_RunWithResult w cfg k (fun _ _ => true)); [done | | exact Hk].
  intros planOutput. apply steady_print_details_any.
Qed.

(** As long as no profile is stored under [TERRADRIFT_VERBOSE], every
    drifted plan of a run is shown in the same form: in full when the
    variable is "true" at the start, as a sample otherwise. *)
Theorem verbosity_is_steady (w : World) (cfg : Config) (st : St) :
  untouched_by cfg "TERRADRIFT_VERBOSE" ->
  Forall (fun e => details_fit (env st !! "TERRADRIFT_VERBOSE"%string) e = true)
    (new_events st (RunWithResult w cfg st).2).
Proof.
  intros Hk.
  destruct (steady_RunWithResult w cfg "TERRADRIFT_VERBOSE" details_fit) with (st := st)
    as (_ & new & T & F).
  - intros v e He. by destruct e as [[]| | | |].
  - exact steady_print_details_verbosity.
  - exact Hk.
  - by rewrite (new_events_app _ _ _ T).
Qed.

End Frame.

Section Frame_examples.
Import Os Config World Terraform Notifier Detector Credentials Spec Vocabulary.

Lemma run_leaves_other_variables_witness :
  env (RunWithResult Examples.drifted Examples.notified
         {| env := {[ "PATH" := "/usr/bin" ]}%string; requests := 0; trace := [] |}).2
  !! "PATH"%string
  = Some "/usr/bin"%string.
Proof.
  rewrite (run_leaves_other_variables Examples.drifted Examples.notified "PATH");
    [reflexivity|].
  split; [| repeat constructor]; apply (bool_decide_unpack _); by vm_compute.
Defined.

Lemma verbosity_is_steady_witness :
  Forall (fun e => details_fit (Some "true"%string) e = true)
    (new_events
       {| env := {[ "TERRADRIFT_VERBOSE" := "true" ]}%string; requests := 0; trace := [] |}
       (RunWithResult Examples.drifted Examples.notified
          {| env := {[ "TERRADRIFT_VERBOSE" := "true" ]}%string; requests := 0;
             trace := [] |}).2).
Proof.
  assert (Hk : untouched_by Examples.notified "TERRADRIFT_VERBOSE").
  { split; [| repeat constructor]; apply (bool_decide_unpack _); by vm_compute. }
  pose proof (verbosity_is_steady Examples.drifted Examples.notified
                {| env := {[ "TERRADRIFT_VERBOSE" := "true" ]}%string; requests := 0;
                   trace := [] |} Hk) as H.
  cbn [env] in H. rewrite lookup_singleton_eq in H. exact H.
Defined.

End Frame_examples.

(** ** The aggregate result and its causes *)

Section Causes_of_errors.
Import Os Config World Terraform Notifier Detector Spec Causes.
Context (w : World) (cfg : Config).

(** [CheckDrift] ends the way the world's answers say. *)
Lemma CheckDrift_verdict (path : string) (st : St) :
  env (CheckDrift w path st).2 = env st
  /\ requests (CheckDrift w path st).2 = requests st
  /\ match verdict w path (env st) with
     | Clean => classify (CheckDrift w path st).1.1.2 = NoDrift
     | Drift out =>
         classify (CheckDrift w path st).1.1.2 = DriftDetected
         /\ (CheckDrift w path st).1.1.1 = out
     | PathNotFound | InitFailure | CompareFailure =>
         classify (CheckDrift w path st).1.1.2 = Failed
     end.
Proof.
  unfold verdict, CheckDrift, runTerraformInit, runTerraformPlan, cleanupLockFiles,
    classify.
  destruct (path_missing w path); [by exec|].
  destruct (lockfile_found w path); exec;
    (destruct (terraform_init w path (buildEnv (env st))) as [[|c m|m] output];
     cbn [fst snd];
     repeat (match goal with
             | |- context [GoStrings.Contains ?a ?b] =>
                 destruct (GoStrings.Contains a b); cbn [orb]
             end);
     cbn [fst snd]; exec; try done);
    (destruct (terraform_plan w path (buildEnv (env st))) as [[|code msg|msg] pout];
     cbn [fst snd exit_code]; [by exec | | by exec]);
    (destruct (Z.eqb_spec code 2) as [->|H2]; [by exec|]);
    (destruct (Z.eqb_spec code 0) as [->|H0]; [by exec|]);
    (assert (E2 : (code =? 2) = false) by (by apply Z.eqb_neq));
    (assert (E0 : (code =? 0) = false) by (by apply Z.eqb_neq));
    repeat (progress (rewrite ?E2, ?E0; cbn [negb fst snd]; exec));
    done.
Qed.

Lemma attempts_first_success (url : string) (n j : nat) :
  (j < 4)%nat -> first_success w url n j ->
  exhausted w url n = false /\ attempts_made w url n = S j.
Proof.
  intros Hj [Hfail Hok]. unfold exhausted, attempts_made.
  cbn [seq List.forallb List.find].
  assert (H0 : (0 < j)%nat -> is_Some (outcome w url n 0)) by (intros; apply Hfail; lia).
  assert (H1 : (1 < j)%nat -> is_Some (outcome w url n 1)) by (intros; apply Hfail; lia).
  assert (H2 : (2 < j)%nat -> is_Some (outcome w url n 2)) by (intros; apply Hfail; lia).
  destruct j as [|[|[|[|j]]]]; [| | | |lia];
    repeat match goal with
           | H : (?a < ?b)%nat -> is_Some ?o |- _ =>
               first [ destruct (H ltac:(lia)) as [? ->] | clear H ]
           end;
    rewrite Hok; by cbn.
Qed.

Lemma attempts_all_fail (url : string) (n : nat) :
  (forall i, (i < 4)%nat -> is_Some (outcome w url n i)) ->
  exhausted w url n = true /\ attempts_made w url n = 4%nat.
Proof.
  intros Hfail. unfold exhausted, attempts_made. cbn [seq List.forallb List.find].
  destruct (Hfail 0%nat ltac:(lia)) as [? ->].
  destruct (Hfail 1%nat ltac:(lia)) as [? ->].
  destruct (Hfail 2%nat ltac:(lia)) as [? ->].
  destruct (Hfail 3%nat ltac:(lia)) as [? ->].
  by cbn.
Qed.

(** One notification fails, and sends requests, as [delivery] says. *)
Lemma sendNotification_delivery (name pn s po : string) (st : St) :
  match (sendNotification w cfg name pn s po st).1 with
  | Some _ => true
  | None => false
  end = (delivery w cfg name (requests st)).1
  /\ requests (sendNotification w cfg name pn s po st).2
     = (delivery w cfg name (requests st)).2
  /\ env (sendNotification w cfg name pn s po st).2 = env st.
Proof.
  unfold sendNotification, delivery.
  destruct (GetNotifier cfg name) as [nc|e]; [| by exec].
  destruct (explicitly_disabled (Notifier_Enabled nc)); [by exec|].
  destruct (String.eqb (Notifier_Type nc) "slack").
  - destruct (Notifier_Config nc !! SlackWebhookURL) as [url|]; [| by exec].
    destruct (retry_cases w url pn s po 3 st ltac:(lia))
      as (m & Hm & (new & T & R & W & P & Q & E) & Hres).
    change (Z.to_nat 3) with 3%nat in *. cbn [fst snd]. rewrite Q, E.
    destruct Hres as [[Hr Hs]|(-> & Hall & Hr)]; rewrite Hr.
    + destruct (attempts_first_success url (requests st) (m - 1) ltac:(lia) Hs)
        as [-> ->].
      replace (S (m - 1)) with m by lia. done.
    + destruct (attempts_all_fail url (requests st) Hall) as [-> ->]. done.
  - destruct (String.eqb (Notifier_Type nc) "teams"); [by exec|].
    destruct (String.eqb (Notifier_Type nc) "email"); by exec.
Qed.

Lemma notify_loop_deliveries (pn s po : string) (names : list string) (acc : bool * nat)
    (st : St) :
  (for_each (notify_one w cfg pn s po) names acc st).1.1
  = acc.1 || (deliveries w cfg names (requests st)).1
  /\ requests (for_each (notify_one w cfg pn s po) names acc st).2
     = (deliveries w cfg names (requests st)).2
  /\ env (for_each (notify_one w cfg pn s po) names acc st).2 = env st.
Proof.
  revert acc st. induction names as [|name names IH]; intros acc st;
    cbn [for_each deliveries].
  - cbn. by rewrite orb_false_r.
  - unfold bind.
    destruct (sendNotification_delivery name pn s po st) as (Hd & Hq & He).
    assert (Hone : (notify_one w cfg pn s po name acc st).1.1
                   = acc.1 || (delivery w cfg name (requests st)).1
                   /\ requests (notify_one w cfg pn s po name acc st).2
                      = (delivery w cfg name (requests st)).2
                   /\ env (notify_one w cfg pn s po name acc st).2 = env st).
    { unfold notify_one. exec. rewrite <- Hd, <- Hq, <- He.
      destruct (sendNotification w cfg name pn s po st) as [[e|] st1];
        cbn [fst snd env requests]; by rewrite ?orb_true_r, ?orb_false_r. }
    destruct Hone as (H1 & H2 & H3).
    destruct (IH (notify_one w cfg pn s po name acc st).1
                (notify_one w cfg pn s po name acc st).2) as (I1 & I2 & I3).
    cbn [fst snd]. rewrite I1, I2, I3, H1, H2, H3. by rewrite orb_assoc.
Qed.

Lemma print_details_frame (planOutput : string) (st : St) :
  env (print_details planOutput st).2 = env st
  /\ requests (print_details planOutput st).2 = requests st.
Proof.
  unfold print_details. exec.
  destruct (String.eqb _ _); [done|]. by destruct (0 <? _)%nat.
Qed.

Lemma on_drift_turn (p : Project) (planOutput : string) (l : Locals) (st : St) :
  hasErrors (on_drift w cfg p planOutput l st).1
  = hasErrors l || (deliveries w cfg (Project_Notifiers p) (requests st)).1
  /\ driftFound (on_drift w cfg p planOutput l st).1 = true
  /\ deferred (on_drift w cfg p planOutput l st).1 = deferred l
  /\ requests (on_drift w cfg p planOutput l st).2
     = (deliveries w cfg (Project_Notifiers p) (requests st)).2
  /\ env (on_drift w cfg p planOutput l st).2 = env st.
Proof.
  remember (on_drift w cfg p planOutput l st) as res eqn:Hres.
  unfold on_drift in Hres. exec in Hres.
  set (st1 := {| env := env st; requests := _; trace := _ |}) in Hres.
  assert (Hs1 : env st1 = env st /\ requests st1 = requests st) by done.
  clearbody st1. destruct Hs1 as [He1 Hq1].
  destruct (print_details_frame planOutput st1) as [He2 Hq2].
  set (st2 := (print_details planOutput st1).2) in *. clearbody st2.
  destruct (notify_loop_deliveries (Project_Name p) (ExtractPlanSummary planOutput)
              planOutput (Project_Notifiers p) (hasErrors l, 0%nat) st2)
    as (H1 & H2 & H3).
  set (r := for_each _ _ _ st2) in *. clearbody r. destruct r as [[he sent] st3].
  cbn [fst snd] in *. rewrite Hq2, Hq1 in H1, H2. rewrite He2, He1 in H3.
  destruct ((sent =? 0)%nat && (0 <? length (Project_Notifiers p))%nat);
    subst res; cbn [fst snd hasErrors driftFound deferred env requests]; done.
Qed.

(** A project's turn in the run is the turn the world's answers give. *)
Lemma process_project_turn (p : Project) (l : Locals) (st : St) :
  hasErrors (process_project w cfg p l st).1
  = hasErrors l || failed (turn w cfg p (env st) (requests st))
  /\ driftFound (process_project w cfg p l st).1
     = driftFound l || drifted (turn w cfg p (env st) (requests st))
  /\ env (process_project w cfg p l st).2 = env_after (turn w cfg p (env st) (requests st))
  /\ requests (process_project w cfg p l st).2
     = requests_after (turn w cfg p (env st) (requests st)).
Proof.
  assert (Hcheck : forall l' st',
            hasErrors (check_project w cfg p l' st').1
            = hasErrors l'
              || match verdict w (Project_Path p) (env st') with
                 | Clean => false
                 | Drift _ => (deliveries w cfg (Project_Notifiers p) (requests st')).1
                 | _ => true
                 end
            /\ driftFound (check_project w cfg p l' st').1
               = driftFound l'
                 || match verdict w (Project_Path p) (env st') with
                    | Drift _ => true
                    | _ => false
                    end
            /\ env (check_project w cfg p l' st').2 = env st'
            /\ requests (check_project w cfg p l' st').2
               = match verdict w (Project_Path p) (env st') with
                 | Drift _ => (deliveries w cfg (Project_Notifiers p) (requests st')).2
                 | _ => requests st'
                 end).
  { intros l' st'. unfold check_project. exec.
    destruct (CheckDrift_verdict (Project_Path p) st') as (He & Hq & Hv).
    destruct (CheckDrift w (Project_Path p) st') as [[[planOutput exitCode] err] st1].
    cbn [fst snd] in *.
    destruct (verdict w (Project_Path p) (env st')) as [|out| | |].
    - rewrite Hv. exec. by rewrite !orb_false_r.
    - destruct Hv as [Hv _]. rewrite Hv.
      destruct (on_drift_turn p planOutput l' st1) as (H1 & H2 & _ & H4 & H5).
      rewrite H1, H2, H4, H5, Hq, He. by rewrite orb_true_r.
    - rewrite Hv. destruct err; exec; by rewrite orb_true_r, orb_false_r.
    - rewrite Hv. destruct err; exec; by rewrite orb_true_r, orb_false_r.
    - rewrite Hv. destruct err; exec; by rewrite orb_true_r, orb_false_r. }
  unfold process_project, turn, credentials.
  destruct (explicitly_disabled (Project_Enabled p)).
  { exec. by rewrite !orb_false_r. }
  exec.
  destruct (String.eqb (Project_AuthProfile p) ""); cbn [negb].
  - match goal with
    | |- context [check_project w cfg p ?l' ?s] =>
        destruct (Hcheck l' s) as (H1 & H2 & H3 & H4)
    end.
    rewrite H1, H2, H3, H4. cbn [env requests].
    by destruct (verdict w (Project_Path p) (env st)).
  - unfold setAuthEnvironmentM, Credentials.setAuthEnvironment.
    destruct (GetAuthProfile cfg (Project_AuthProfile p)) as [a|e];
      cbn [fst snd env requests trace].
    + match goal with
      | |- context [check_project w cfg p ?l' ?s] =>
          destruct (Hcheck l' s) as (H1 & H2 & H3 & H4)
      end.
      rewrite H1, H2, H3, H4. cbn [env requests hasErrors driftFound defer_clear].
      by destruct (verdict w (Project_Path p) (Credentials.apply_profile a (env st))).
    + exec. by rewrite orb_true_r, orb_false_r.
Qed.

Lemma run_projects_turns (projects : list Project) (l : Locals) (st : St) :
  hasErrors (run_projects w cfg projects l st).1
  = hasErrors l || List.existsb failed (turns w cfg projects (env st) (requests st))
  /\ driftFound (run_projects w cfg projects l st).1
     = driftFound l || List.existsb drifted (turns w cfg projects (env st) (requests st)).
Proof.
  unfold run_projects. revert l st.
  induction projects as [|p projects IH]; intros l st;
    cbn [for_each turns List.existsb].
  - cbn. by rewrite !orb_false_r.
  - unfold bind.
    destruct (process_project_turn p l st) as (H1 & H2 & H3 & H4).
    destruct (IH (process_project w cfg p l st).1 (process_project w cfg p l st).2)
      as (I1 & I2).
    rewrite I1, I2, H1, H2, H3, H4. by rewrite !orb_assoc.
Qed.

End Causes_of_errors.

Section Aggregate_result.
Import Os Config World Terraform Notifier Detector Spec Causes.

(** C6. Once terraform is found, the turn of every project that is not
    disabled is started, in configuration order, whatever happened to the
    projects before it. [RunWithResult] returns the completed-with-errors
    error exactly when some project's turn produced an error, nil
    otherwise: its credential profile was not found, its path does not
    exist, its init or its plan failed, or it drifted and one of its
    notifications failed, the delivery exhausted or the notifier unusable;
    whether a turn does is read off the answers of the world, where the
    turn begins. The drift flag is true exactly when some project's plan
    showed drift: neither depends on the other. And each error, each
    drift, is on the log. *)
Theorem RunWithResult_aggregates (w : World) (cfg : Config) (st : St) :
  terraform_version w = RunOk ->
  (RunWithResult w cfg st).1.2
    = (if List.existsb failed (turns w cfg (Projects cfg) (env st) (requests st))
       then Some completed_with_errors else None)
  /\ (RunWithResult w cfg st).1.1
     = List.existsb drifted (turns w cfg (Projects cfg) (env st) (requests st))
  /\ started (new_events st (RunWithResult w cfg st).2) = enabled_names (Projects cfg)
  /\ errors_logged (new_events st (RunWithResult w cfg st).2)
     = List.existsb failed (turns w cfg (Projects cfg) (env st) (requests st))
  /\ drift_logged (new_events st (RunWithResult w cfg st).2)
     = List.existsb drifted (turns w cfg (Projects cfg) (env st) (requests st)).
Proof.
  intros Hv.
  destruct (RunWithResult_logged w cfg st Hv) as (Le & Ld & Ls).
  assert (Hres : (RunWithResult w cfg st).1.2
                 = (if List.existsb failed
                         (turns w cfg (Projects cfg) (env st) (requests st))
                    then Some completed_with_errors else None)
                 /\ (RunWithResult w cfg st).1.1
                    = List.existsb drifted
                        (turns w cfg (Projects cfg) (env st) (requests st))).
  { unfold RunWithResult, ValidateTerraformInstallation. rewrite Hv. exec.
    set (st1 := {| env := env st; requests := _; trace := _ |}).
    destruct (run_projects_turns w cfg (Projects cfg)
                {| hasErrors := false; driftFound := false; deferred := 0 |} st1)
      as (H1 & H2).
    subst st1. cbn [env requests hasErrors driftFound orb] in H1, H2.
    rewrite <- H1, <- H2.
    match goal with
    | |- context [run_projects w cfg (Projects cfg) ?l0 ?s] =>
        destruct (run_projects w cfg (Projects cfg) l0 s) as [l st2]
    end.
    cbn [fst snd]. by destruct (hasErrors l). }
  destruct Hres as [He Hd].
  split; [exact He|]. split; [exact Hd|]. split; [exact Ls|]. split.
  - rewrite Le in He.
    destruct (errors_logged _), (List.existsb failed _); done.
  - by rewrite <- Ld.
Qed.

(** C6 on [Examples.alerting], every plan showing drift and every webhook
    answering 500: the first project's profile is not found, the second
    is disabled, the third drifts and its alert cannot be delivered; the
    third is started after the first has failed, and the result holds
    both the error and the drift flag. *)
Lemma RunWithResult_aggregates_witness :
  (RunWithResult Examples.drifted_webhook_down Examples.alerting Examples.start).1
  = (true, Some completed_with_errors)
  /\ List.map (fun t => (turn_project t, failed t, drifted t))
       (turns Examples.drifted_webhook_down Examples.alerting
          (Projects Examples.alerting) ∅ 0)
     = [("e", true, false); ("staging", false, false); ("d", true, true)]%string
  /\ started (new_events Examples.start
                (RunWithResult Examples.drifted_webhook_down Examples.alerting
                   Examples.start).2)
     = ["e"; "d"]%string.
Proof.
  destruct (RunWithResult_aggregates Examples.drifted_webhook_down Examples.alerting
              Examples.start eq_refl) as (He & Hd & Hs & _).
  split; [| split].
  - rewrite (surjective_pairing (RunWithResult _ _ _).1), He, Hd. by vm_compute.
  - by vm_compute.
  - rewrite Hs. by vm_compute.
Defined.

End Aggregate_result.
